(** * Schedule generator: normalisation of timetable sheets and grid construction

    A shallow embedding of [backend/app.py]: [generate_time_slots],
    [load_and_clean_data] and [generate_schedule_excel], with the pandas
    operations they call written out as list functions.

    Conventions.
    - Text is a [string] of bytes; [strip] and [upper] are Python's
      [str.strip] and [str.upper] on ASCII.
    - A cell of a frame is [NaN] (pandas' missing value) or [Str s].
    - A frame keeps its row labels ([df_index]) next to its columns, because
      assigning a series to a frame aligns on the labels.
    - A timestamp is kept as its number of seconds after midnight; the only
      thing the program reads back from one is its time of day. *)

From Stdlib Require Import List String Ascii Bool Arith PeanoNat NArith Lia.
From Stdlib Require Import Sorting.Sorted Sorting.Permutation.
Import ListNotations.

Local Open Scope string_scope.
Local Open Scope list_scope.
Local Open Scope nat_scope.

Set Implicit Arguments.

(* ------------------------------------------------------------------ *)
(** ** Python strings *)

Module PyStr.

(** Characters removed by [str.strip()] with no argument (ASCII range). *)
Definition is_space (c : ascii) : bool :=
  let n := nat_of_ascii c in
  ((9 <=? n) && (n <=? 13)) || ((28 <=? n) && (n <=? 32)).

Fixpoint lstrip (s : string) : string :=
  match s with
  | EmptyString => EmptyString
  | String c t => if is_space c then lstrip t else s
  end.

Fixpoint rstrip (s : string) : string :=
  match s with
  | EmptyString => EmptyString
  | String c t =>
      match rstrip t with
      | EmptyString => if is_space c then EmptyString else String c EmptyString
      | t' => String c t'
      end
  end.

Definition strip (s : string) : string := rstrip (lstrip s).

Definition upper_char (c : ascii) : ascii :=
  let n := nat_of_ascii c in
  if (97 <=? n) && (n <=? 122) then ascii_of_nat (n - 32) else c.

Fixpoint upper (s : string) : string :=
  match s with
  | EmptyString => EmptyString
  | String c t => String (upper_char c) (upper t)
  end.

(** ["\n"] *)
Definition nl : string := String (ascii_of_nat 10) EmptyString.

(** [sep.join(parts)] *)
Definition join (sep : string) (parts : list string) : string :=
  String.concat sep parts.

(** [s.split(' ')[0]] *)
Fixpoint first_token (s : string) : string :=
  match s with
  | EmptyString => EmptyString
  | String c t => if Ascii.eqb c " "%char then EmptyString else String c (first_token t)
  end.

(** [s[:n]] *)
Fixpoint take (n : nat) (s : string) : string :=
  match n, s with
  | S k, String c t => String c (take k t)
  | _, _ => EmptyString
  end.

(** [x in xs] for a list of strings. *)
Definition mem (x : string) (xs : list string) : bool :=
  existsb (String.eqb x) xs.

(** [xs.index(x)], [None] where Python raises. *)
Fixpoint index_of (x : string) (xs : list string) : option nat :=
  match xs with
  | [] => None
  | y :: t => if String.eqb y x then Some 0 else option_map S (index_of x t)
  end.

End PyStr.

(* ------------------------------------------------------------------ *)
(** ** Times of day *)

Module Clock.

Local Open Scope N_scope.

Definition digit_char (d : N) : ascii := ascii_of_N (48 + d mod 10).

(** [%02d] for a value below 100. *)
Definition pad2 (n : N) : string :=
  String (digit_char (n / 10)) (String (digit_char n) EmptyString).

(** [strftime('%H:%M:%S')] of a timestamp given in seconds. *)
Definition strftime (secs : N) : string :=
  (pad2 ((secs / 3600) mod 24) ++ ":" ++ pad2 ((secs / 60) mod 60) ++ ":"
     ++ pad2 (secs mod 60))%string.

Definition digit_of (c : ascii) : option N :=
  let n := N_of_ascii c in
  if (48 <=? n) && (n <=? 57) then Some (n - 48) else None.

(** A field of one or two decimal digits. *)
Definition field (s : string) : option N :=
  match s with
  | String a EmptyString => digit_of a
  | String a (String b EmptyString) =>
      match digit_of a, digit_of b with
      | Some x, Some y => Some (10 * x + y)
      | _, _ => None
      end
  | _ => None
  end.

(** [s.split(':')] *)
Fixpoint split_colon (s : string) : list string :=
  match s with
  | EmptyString => [EmptyString]
  | String c t =>
      if Ascii.eqb c ":"%char then EmptyString :: split_colon t
      else match split_colon t with
           | [] => [String c EmptyString]
           | h :: r => String c h :: r
           end
  end.

(** Exact match of the format [%H:%M:%S]: hours 0..23, minutes 0..59,
    seconds 0..61 as the pattern of [%S] admits, each with one or two
    digits and nothing around them.  The result is in seconds, so that 60
    or 61 seconds carry into the minute as in timestamp arithmetic. *)
Definition strptime (s : string) : option N :=
  match split_colon s with
  | [h; m; sec] =>
      match field h, field m, field sec with
      | Some hh, Some mm, Some ss =>
          if (hh <=? 23) && (mm <=? 59) && (ss <=? 61)
          then Some (hh * 3600 + mm * 60 + ss) else None
      | _, _, _ => None
      end
  | _ => None
  end.

(** The [while current <= end_time] loop of [generate_time_slots];
    [fuel] bounds the number of iterations. *)
Fixpoint slots_loop (fuel : nat) (current end_time : N) : list string :=
  match fuel with
  | O => []
  | S f =>
      if current <=? end_time
      then strftime current :: slots_loop f (current + 30 * 60) end_time
      else []
  end.

Definition start_bound : N := 8 * 3600 + 5 * 60.
Definition end_bound : N := 17 * 3600 + 35 * 60.

(** [generate_time_slots()].  The fuel is one more than the number of
    half hours between the bounds; [slots_loop_enough] shows that the loop
    then leaves by its own test. *)
Definition generate_time_slots : list string :=
  slots_loop (S (N.to_nat ((end_bound - start_bound) / (30 * 60))))
             start_bound end_bound.

End Clock.

(** [time_slots = generate_time_slots()] of line 116, evaluated: the twenty
    half hours from 08:05:00 to 17:35:00 (see [time_slots_generated]). *)
Definition time_slots : list string := Eval vm_compute in Clock.generate_time_slots.

(* ------------------------------------------------------------------ *)
(** ** Frames *)

(** A cell of an object column. *)
Inductive cell : Type :=
| NaN
| Str (s : string).

Definition isna (c : cell) : bool :=
  match c with NaN => true | Str _ => false end.

Definition cell_eqb (a b : cell) : bool :=
  match a, b with
  | NaN, NaN => true
  | Str x, Str y => String.eqb x y
  | _, _ => false
  end.

(** [astype(str)] on one value: a missing value becomes the text [nan]. *)
Definition astype_str (c : cell) : string :=
  match c with NaN => "nan" | Str s => s end.

(** A frame: row labels and labelled columns, in column order.  Labels may
    repeat, as in pandas. *)
Record DataFrame : Type := mkDF {
  df_index : list nat;
  df_columns : list (string * list cell)
}.

Definition labels (df : DataFrame) : list string := map fst (df_columns df).
Definition nrows (df : DataFrame) : nat := List.length (df_index df).

(** What the two functions can raise. *)
Inductive error : Type :=
| NoObjects                        (* ValueError: No objects to concatenate *)
| SchemaError (found : list string) (* ValueError: Missing critical column: START TIME. Found: ... *)
| KeyError (label : string)
| NotASeries (label : string)      (* a label that selects several columns where one series is needed *)
| TypeError.                       (* str.join over a missing value *)

Inductive result (A : Type) : Type :=
| Ok (a : A)
| Raise (e : error).
Arguments Ok {A} a.
Arguments Raise {A} e.

Definition bind {A B : Type} (r : result A) (k : A -> result B) : result B :=
  match r with Ok a => k a | Raise e => Raise e end.

Notation "x <- r ;; k" := (bind r (fun x => k))
  (at level 61, r at next level, right associativity).

(** [Series.unique()] / [Index.unique()]: first occurrences, in order. *)
Fixpoint unique {A : Type} (eqb : A -> A -> bool) (l : list A) : list A :=
  match l with
  | [] => []
  | x :: t => x :: filter (fun y => negb (eqb x y)) (unique eqb t)
  end.

(** Python's [sorted], as a stable insertion sort for [leb]. *)
Fixpoint insert_sorted {A : Type} (leb : A -> A -> bool) (x : A) (l : list A) : list A :=
  match l with
  | [] => [x]
  | y :: t => if leb x y then x :: l else y :: insert_sorted leb x t
  end.

Fixpoint sorted {A : Type} (leb : A -> A -> bool) (l : list A) : list A :=
  match l with
  | [] => []
  | x :: t => insert_sorted leb x (sorted leb t)
  end.

(** Rows kept by a boolean mask. *)
Fixpoint select_mask {A : Type} (mask : list bool) (l : list A) : list A :=
  match mask, l with
  | b :: m, x :: t => if b then x :: select_mask m t else select_mask m t
  | _, _ => []
  end.

Module Frame.

Definition has_label (c : string) (col : string * list cell) : bool :=
  String.eqb (fst col) c.

(** [df[c]] where a series is expected. *)
Definition column (df : DataFrame) (c : string) : result (list cell) :=
  match filter (has_label c) (df_columns df) with
  | [] => Raise (KeyError c)
  | [col] => Ok (snd col)
  | _ => Raise (NotASeries c)
  end.

(** [df[cs]] for a list of labels: every column carrying each label. *)
Definition select (df : DataFrame) (cs : list string) : DataFrame :=
  mkDF (df_index df)
       (flat_map (fun c => filter (has_label c) (df_columns df)) cs).

(** [df.drop(columns=[c])] *)
Definition drop (df : DataFrame) (c : string) : DataFrame :=
  mkDF (df_index df) (filter (fun col => negb (has_label c col)) (df_columns df)).

(** [df.rename(columns={a: b})] *)
Definition rename (df : DataFrame) (a b : string) : DataFrame :=
  mkDF (df_index df)
       (map (fun col => if has_label a col then (b, snd col) else col) (df_columns df)).

(** [df.columns = f(df.columns)] *)
Definition map_labels (f : string -> string) (df : DataFrame) : DataFrame :=
  mkDF (df_index df) (map (fun col => (f (fst col), snd col)) (df_columns df)).

(** [df[c] = v] for a series [v] that carries the frame's own row labels:
    an existing column is replaced in place, a new one goes last. *)
Definition assign (df : DataFrame) (c : string) (v : list cell) : DataFrame :=
  if PyStr.mem c (labels df)
  then mkDF (df_index df)
            (map (fun col => if has_label c col then (c, v) else col) (df_columns df))
  else mkDF (df_index df) (df_columns df ++ [(c, v)]).

(** A series with the default labels [0 .. len-1], brought onto the row
    labels [idx]: a label the series does not have gives a missing value. *)
Definition reindex (idx : list nat) (v : list cell) : list cell :=
  map (fun i => nth i v NaN) idx.

(** [df.dropna(subset=[c])] given the column [v] of [c]. *)
Definition dropna (df : DataFrame) (v : list cell) : DataFrame :=
  let keep := map (fun x => negb (isna x)) v in
  mkDF (select_mask keep (df_index df))
       (map (fun col => (fst col, select_mask keep (snd col))) (df_columns df)).

(** [pd.concat(frames, ignore_index=True)]: the columns are the union of
    the frames' labels in order of first appearance, a frame without a
    label contributes missing values, the rows are renumbered. *)
Definition concat (frames : list DataFrame) : result DataFrame :=
  match frames with
  | [] => Raise NoObjects
  | _ =>
      let labs := unique String.eqb (flat_map labels frames) in
      let part (c : string) (f : DataFrame) : list cell :=
        match find (has_label c) (df_columns f) with
        | Some col => snd col
        | None => repeat NaN (nrows f)
        end in
      Ok (mkDF (seq 0 (List.length (flat_map df_index frames)))
               (map (fun c => (c, flat_map (part c) frames)) labs))
  end.

End Frame.

(* ------------------------------------------------------------------ *)
(** ** [load_and_clean_data] *)

(** Line 48. *)
Definition required_cols : list string :=
  ["DAY"; "START TIME"; "SUBJECT"; "TEACHER"; "ROOM"; "GROUP"; "INTAKE"].

(** Line 67. *)
Definition text_cols : list string :=
  ["ROOM"; "GROUP"; "TEACHER"; "SUBJECT"; "INTAKE"].

(** Strings which [to_datetime] reads as a missing time. *)
Definition nat_strings : list string :=
  ["NaT"; "nat"; "NAT"; "nan"; "NaN"; "NAN"].

(** [astype(str).str.strip()] on one value. *)
Definition clean_text (c : cell) : cell := Str (PyStr.strip (astype_str c)).

(** [a + b] on two values of object columns. *)
Definition str_add (a b : cell) : cell :=
  match a, b with
  | Str x, Str y => Str (x ++ y)%string
  | _, _ => NaN
  end.

(** [.dt.strftime('%H:%M:%S')] on one value. *)
Definition strftime_cell (t : option N) : cell :=
  match t with Some secs => Str (Clock.strftime secs) | None => NaN end.

(** One value under [to_datetime(..., format='%H:%M:%S')]: [None] is the
    [ValueError] of a value that does not match, [Some None] a missing time. *)
Definition strict_time (c : cell) : option (option N) :=
  let s := PyStr.strip (astype_str c) in
  if String.eqb s "" || PyStr.mem s nat_strings then Some None
  else match Clock.strptime s with
       | Some secs => Some (Some secs)
       | None => None
       end.

(** The whole column under the strict format: one value that does not
    match makes the call raise. *)
Fixpoint strict_times (v : list cell) : option (list (option N)) :=
  match v with
  | [] => Some []
  | c :: t =>
      match strict_time c, strict_times t with
      | Some x, Some xs => Some (x :: xs)
      | _, _ => None
      end
  end.

Section Normalizer.

(** [pd.to_datetime(column, errors='coerce')] read at one value of the
    column: the time of day in seconds, or [None] for a value it cannot
    read.  The permissive parser belongs to pandas and is left open. *)
Variable to_datetime_coerce : list cell -> cell -> option N.

(** Lines 59-62 on the start-time column. *)
Definition standardize_time (v : list cell) : list cell :=
  match strict_times v with
  | Some ts => map strftime_cell ts
  | None => map (fun c => strftime_cell (to_datetime_coerce v c)) v
  end.

(** One turn of the loop over [text_cols] (line 69).  For a label the
    frame does not have, [df.get] returns the default series of [len(df)]
    empty texts, which carries the labels [0 .. len(df)-1]; the assignment
    aligns it on the row labels of the frame, which are those that [dropna]
    left. *)
Definition clean_text_col (df : DataFrame) (c : string) : result DataFrame :=
  match filter (Frame.has_label c) (df_columns df) with
  | [] =>
      let dflt := map clean_text (repeat (Str "") (nrows df)) in
      Ok (Frame.assign df c (Frame.reindex (df_index df) dflt))
  | [col] => Ok (Frame.assign df c (map clean_text (snd col)))
  | _ => Raise (NotASeries c)
  end.

Fixpoint clean_text_cols (df : DataFrame) (cs : list string) : result DataFrame :=
  match cs with
  | [] => Ok df
  | c :: t => df' <- clean_text_col df c ;; clean_text_cols df' t
  end.

(** Lines 41-43. *)
Definition reconcile_day (df : DataFrame) : DataFrame :=
  if PyStr.mem "DAY" (labels df) && PyStr.mem "DAY.1" (labels df)
  then Frame.rename (Frame.drop df "DAY") "DAY.1" "DAY"
  else df.

(** Lines 41-45: the merged frame under its reconciled, trimmed and
    upper-cased labels. *)
Definition relabel (merged : DataFrame) : DataFrame :=
  Frame.map_labels (fun c => PyStr.upper (PyStr.strip c)) (reconcile_day merged).

(** Lines 41-74, on the merged frame. *)
Definition clean (merged : DataFrame) : result DataFrame :=
  let df := relabel merged in
  if negb (PyStr.mem "START TIME" (labels df)) then Raise (SchemaError (labels df))
  else
    let existing_cols := filter (fun c => PyStr.mem c (labels df)) required_cols in
    let df := Frame.select df existing_cols in
    start <- Frame.column df "START TIME" ;;
    let times := standardize_time start in
    let df := Frame.dropna (Frame.assign df "START TIME" times) times in
    df <- clean_text_cols df text_cols ;;
    intake <- Frame.column df "INTAKE" ;;
    group <- Frame.column df "GROUP" ;;
    let intake_group :=
      map (fun p => str_add (str_add (fst p) (Str " ")) (snd p)) (combine intake group) in
    Ok (Frame.assign df "INTAKE_GROUP" intake_group).

(** [load_and_clean_data], from the sheets that [read_excel] returned. *)
Definition load_and_clean_data (all_sheets : list DataFrame) : result DataFrame :=
  merged <- Frame.concat all_sheets ;; clean merged.

End Normalizer.

(* ------------------------------------------------------------------ *)
(** ** Orders: Python's [<=] on strings and on tuples of strings *)

Class Compare (A : Type) : Type := compare : A -> A -> comparison.

#[export] Instance string_Compare : Compare string := String.compare.

#[export] Instance pair_Compare {A B : Type} `{Compare A} `{Compare B} : Compare (A * B) :=
  fun x y =>
    match compare (fst x) (fst y) with
    | Eq => compare (snd x) (snd y)
    | c => c
    end.

Definition leb {A : Type} `{Compare A} (x y : A) : bool :=
  match compare x y with Gt => false | _ => true end.

Definition eqb {A : Type} `{Compare A} (x y : A) : bool :=
  match compare x y with Eq => true | _ => false end.

(* ------------------------------------------------------------------ *)
(** ** [generate_schedule_excel] *)

(** A row of the cleaned frame, as [groupby] reads it. *)
Record ClassRecord : Type := mkRecord {
  rec_day : cell;
  rec_start_time : cell;
  rec_subject : cell;
  rec_teacher : cell;
  rec_room : cell;
  rec_intake_group : cell
}.

(** A row of [df_grouped]. *)
Record GroupedRow : Type := mkGrouped {
  DAY : string;
  START_TIME : string;
  SUBJECT : string;
  TEACHER : string;
  ROOM : string;
  INTAKE_GROUP : string
}.

(** [row[col]] on a row of [df_grouped]; the text [""] stands for the
    [KeyError] of a label the grouped frame does not have. *)
Definition row_get (row : GroupedRow) (col : string) : string :=
  if String.eqb col "DAY" then DAY row
  else if String.eqb col "START TIME" then START_TIME row
  else if String.eqb col "SUBJECT" then SUBJECT row
  else if String.eqb col "TEACHER" then TEACHER row
  else if String.eqb col "ROOM" then ROOM row
  else if String.eqb col "INTAKE_GROUP" then INTAKE_GROUP row
  else "".

(** The grouping key [(DAY, START TIME, SUBJECT, TEACHER, ROOM)]. *)
Definition group_key : Type := string * (string * (string * (string * string))).

Definition key_of_row (row : GroupedRow) : group_key :=
  (DAY row, (START_TIME row, (SUBJECT row, (TEACHER row, ROOM row)))).

(** The key of a record; [groupby] leaves out a record with a missing value
    in a key column. *)
Definition key_of (r : ClassRecord) : option group_key :=
  match rec_day r, rec_start_time r, rec_subject r, rec_teacher r, rec_room r with
  | Str d, Str s, Str su, Str t, Str ro => Some (d, (s, (su, (t, ro))))
  | _, _, _, _, _ => None
  end.

Definition keyed (rows : list ClassRecord) : list (group_key * cell) :=
  flat_map (fun r => match key_of r with
                     | Some k => [(k, rec_intake_group r)]
                     | None => []
                     end) rows.

(** ['\n'.join(x.unique())] on the values of one group. *)
Definition join_unique (x : list cell) : result string :=
  let u := unique cell_eqb x in
  if existsb isna u then Raise TypeError
  else Ok (PyStr.join PyStr.nl (map astype_str u)).

Fixpoint apply_groups (ks : list group_key) (kv : list (group_key * cell))
  : result (list GroupedRow) :=
  match ks with
  | [] => Ok []
  | k :: t =>
      ig <- join_unique (map snd (filter (fun p => eqb (fst p) k) kv)) ;;
      rest <- apply_groups t kv ;;
      let '(d, (s, (su, (te, ro)))) := k in
      Ok (mkGrouped d s su te ro ig :: rest)
  end.

(** The rows of the cleaned frame. *)
Definition records (df : DataFrame) : result (list ClassRecord) :=
  day <- Frame.column df "DAY" ;;
  start <- Frame.column df "START TIME" ;;
  subject <- Frame.column df "SUBJECT" ;;
  teacher <- Frame.column df "TEACHER" ;;
  room <- Frame.column df "ROOM" ;;
  ig <- Frame.column df "INTAKE_GROUP" ;;
  Ok (map (fun '(d, (s, (su, (t, (ro, g))))) => mkRecord d s su t ro g)
          (combine day (combine start (combine subject (combine teacher (combine room ig)))))).

(** Line 120: [groupby([...])['INTAKE_GROUP'].apply(...).reset_index()];
    the groups come out in ascending order of their keys. *)
Definition groupby_rows (rows : list ClassRecord) : result (list GroupedRow) :=
  let kv := keyed rows in
  apply_groups (sorted leb (unique eqb (map fst kv))) kv.

Definition df_grouped (df : DataFrame) : result (list GroupedRow) :=
  rows <- records df ;; groupby_rows rows.

Definition day_rank_table : list (string * nat) :=
  [("MON", 0); ("MONDAY", 0); ("TUE", 1); ("TUESDAY", 1);
   ("WED", 2); ("WEDNESDAY", 2); ("THU", 3); ("THURSDAY", 3);
   ("FRI", 4); ("FRIDAY", 4); ("SAT", 5); ("SATURDAY", 5);
   ("SUN", 6); ("SUNDAY", 6)].

(** [day_rank.get(str(d).strip().upper(), 99)] *)
Definition day_rank (d : string) : nat :=
  match find (fun p => String.eqb (fst p) (PyStr.upper (PyStr.strip d))) day_rank_table with
  | Some p => snd p
  | None => 99
  end.

(** Line 128. *)
Definition unique_days (grouped : list GroupedRow) : list string :=
  sorted (fun a b => day_rank a <=? day_rank b) (unique String.eqb (map DAY grouped)).

Definition primary_col (view_type : string) : string :=
  if String.eqb view_type "room" then "ROOM" else "TEACHER".

Definition display_cols (view_type : string) : list string :=
  if String.eqb view_type "room"
  then ["TEACHER"; "SUBJECT"; "INTAKE_GROUP"]
  else ["ROOM"; "SUBJECT"; "INTAKE_GROUP"].

(** [matrix_df]: row labels, column labels and the cells, row by row. *)
Record Matrix : Type := mkMatrix {
  m_index : list string;
  m_columns : list string;
  m_data : list (list cell)
}.

Definition valid_primary (x : string) : bool :=
  negb (String.eqb x "nan") && negb (String.eqb x "").

(** Line 144. *)
Definition unique_primary (view_type : string) (day_data : list GroupedRow) : list string :=
  sorted leb (filter valid_primary
                     (unique String.eqb (map (fun row => row_get row (primary_col view_type)) day_data))).

(** Lines 148-150. *)
Definition init_matrix (primary : string) (rows : list string) : Matrix :=
  mkMatrix rows (primary :: time_slots)
           (map (fun p => Str p :: repeat NaN (List.length time_slots)) rows).

Fixpoint update_nth {A : Type} (n : nat) (f : A -> A) (l : list A) : list A :=
  match n, l with
  | _, [] => []
  | O, x :: t => f x :: t
  | S k, x :: t => x :: update_nth k f t
  end.

(** [matrix_df.at[r, c]]; pandas raises on a label the frame does not have,
    which the guards of the caller exclude. *)
Definition at_get (m : Matrix) (r c : string) : cell :=
  match PyStr.index_of r (m_index m), PyStr.index_of c (m_columns m) with
  | Some i, Some j => nth j (nth i (m_data m) []) NaN
  | _, _ => NaN
  end.

(** [matrix_df.at[r, c] = v] *)
Definition at_set (m : Matrix) (r c : string) (v : cell) : Matrix :=
  match PyStr.index_of r (m_index m), PyStr.index_of c (m_columns m) with
  | Some i, Some j =>
      mkMatrix (m_index m) (m_columns m)
               (update_nth i (update_nth j (fun _ => v)) (m_data m))
  | _, _ => m
  end.

(** The separator line put between two texts of one cell. *)
Definition separator : string := (PyStr.nl ++ "---" ++ PyStr.nl)%string.

(** [update_cell] of lines 165-169. *)
Definition update_cell (m : Matrix) (r c text : string) : Matrix :=
  match at_get m r c with
  | NaN => at_set m r c (Str text)
  | Str old => at_set m r c (Str (old ++ separator ++ text))
  end.

(** Lines 163-177: the placement of one text, starting at [start_str]. *)
Definition place (m : Matrix) (primary_val start_str cell_text : string) : Matrix :=
  let matrix_cols := m_columns m in
  if PyStr.mem start_str matrix_cols then
    let m1 := update_cell m primary_val start_str cell_text in
    match PyStr.index_of start_str matrix_cols with
    | Some start_idx =>
        if start_idx + 1 <? List.length matrix_cols
        then update_cell m1 primary_val (nth (start_idx + 1) matrix_cols "") cell_text
        else m1
    | None => m1
    end
  else m.

(** The body of the loop over [day_data.iterrows()] (lines 154-177). *)
Definition fill_row (view_type : string) (m : Matrix) (row : GroupedRow) : Matrix :=
  let primary_val := row_get row (primary_col view_type) in
  if negb (PyStr.mem primary_val (m_index m)) then m
  else
    let start_str := row_get row "START TIME" in
    let cell_text := PyStr.join PyStr.nl (map (row_get row) (display_cols view_type)) in
    place m primary_val start_str cell_text.

Definition fill_matrix (view_type : string) (m : Matrix) (day_data : list GroupedRow) : Matrix :=
  fold_left (fill_row view_type) day_data m.

(** What is handed to the writer for one day: [final_df] under its sheet
    name, with the banner that [format_worksheet] puts in [A1]. *)
Record Sheet : Type := mkSheet {
  sheet_day : string;
  sheet_name : string;
  sheet_banner : string;
  sheet_columns : list string;
  sheet_rows : list (list cell)
}.

(** [str(day).split(' ')[0].upper()[:30]] *)
Definition sheet_name_clean (day : string) : string :=
  PyStr.take 30 (PyStr.upper (PyStr.first_token day)).

(** One turn of the loop over [unique_days]; [None] is [continue]. *)
Definition day_sheet (header_text view_type : string) (grouped : list GroupedRow)
           (day : string) : option Sheet :=
  let day_data := filter (fun row => String.eqb (DAY row) day) grouped in
  match day_data with
  | [] => None
  | _ =>
      match unique_primary view_type day_data with
      | [] => None
      | rows =>
          let matrix_df := fill_matrix view_type (init_matrix (primary_col view_type) rows) day_data in
          Some (mkSheet day (sheet_name_clean day) header_text
                        (m_columns matrix_df) (m_data matrix_df))
      end
  end.

Definition sheets_of (header_text view_type : string) (grouped : list GroupedRow) : list Sheet :=
  flat_map (fun day => match day_sheet header_text view_type grouped day with
                       | Some s => [s]
                       | None => []
                       end)
           (unique_days grouped).

(** [generate_schedule_excel] up to the writer: the frames handed to
    [to_excel], in order, or the error of line 120.  [timestamp] is the
    reading of [get_malaysia_timestamp()].  What the writer of lines 130-186
    makes of the frames is not part of this function. *)
Definition generate_schedule_excel (timestamp : string) (df : DataFrame) (view_type : string)
  : result (list Sheet) :=
  let header_text := ("File Generated on: " ++ timestamp)%string in
  grouped <- df_grouped df ;;
  Ok (sheets_of header_text view_type grouped).

(** A day matrix: column labels and rows. *)
Definition DayMatrix : Type := (list string * list (list cell))%type.

Definition matrices (sheets : list Sheet) : list (string * DayMatrix) :=
  map (fun s => (sheet_day s, (sheet_columns s, sheet_rows s))) sheets.

Section Pipeline.

Variable to_datetime_coerce : list cell -> cell -> option N.

(** The request handler's two steps: normalise, then build. *)
Definition pipeline (timestamp : string) (all_sheets : list DataFrame) (view_type : string)
  : result (list (string * DayMatrix)) :=
  df <- load_and_clean_data to_datetime_coerce all_sheets ;;
  sheets <- generate_schedule_excel timestamp df view_type ;;
  Ok (matrices sheets).

End Pipeline.

(* ------------------------------------------------------------------ *)
(** ** Notions used to state the properties *)

(** The content of a cell that held [old] once [text] is written to it. *)
Definition merge (old : cell) (text : string) : cell :=
  match old with
  | NaN => Str text
  | Str o => Str (o ++ separator ++ text)
  end.

(** A matrix whose cells are all there. *)
Definition wf_matrix (m : Matrix) : Prop :=
  List.length (m_data m) = List.length (m_index m) /\
  Forall (fun row => List.length row = List.length (m_columns m)) (m_data m).

(** The text that [fill_row] composes for a row. *)
Definition cell_text (view_type : string) (row : GroupedRow) : string :=
  PyStr.join PyStr.nl (map (row_get row) (display_cols view_type)).

(** The primary value of a row. *)
Definition primary_val (view_type : string) (row : GroupedRow) : string :=
  row_get row (primary_col view_type).

(** The columns that [place] writes for a start time. *)
Definition targets (cols : list string) (start_str : string) : list string :=
  if PyStr.mem start_str cols then
    start_str ::
      match PyStr.index_of start_str cols with
      | Some i => if i + 1 <? List.length cols then [nth (i + 1) cols ""] else []
      | None => []
      end
  else [].

(** The texts that the loop over [rows] writes to the cell [(r, c)], in
    order. *)
Definition writes (view_type : string) (idx cols : list string) (r c : string)
           (rows : list GroupedRow) : list string :=
  flat_map (fun row =>
              if String.eqb (primary_val view_type row) r && PyStr.mem r idx
              then map (fun _ => cell_text view_type row)
                       (filter (String.eqb c) (targets cols (START_TIME row)))
              else [])
           rows.

(** The days of the output, in order. *)
Definition days_of (out : list (string * DayMatrix)) : list string := map fst out.

(** The order in which the days come out: by rank, then by label. *)
Definition day_before (a b : string) : Prop :=
  day_rank a < day_rank b \/ (day_rank a = day_rank b /\ compare a b = Lt).

(** The first column of a day matrix, which holds the row labels. *)
Definition row_labels (m : DayMatrix) : list cell := map (fun row => nth 0 row NaN) (snd m).

(** A text of the form [dd:dd:dd]. *)
Definition is_hms (s : string) : Prop := exists secs : N, s = Clock.strftime secs.

(** The value that a turn of the loop over [text_cols] gives the column [c]
    of the frame [df]. *)
Definition text_value (df : DataFrame) (c : string) (v : list cell) : Prop :=
  (filter (Frame.has_label c) (df_columns df) = [] /\
   v = Frame.reindex (df_index df) (map clean_text (repeat (Str "") (nrows df)))) \/
  (exists raw, filter (Frame.has_label c) (df_columns df) = [(c, raw)] /\ v = map clean_text raw).

Unset Implicit Arguments.

(** The laws of a comparison that decides a strict total order. *)
Class CompareLaws (A : Type) `{Compare A} : Prop := {
  compare_eq : forall x y : A, compare x y = Eq <-> x = y;
  compare_antisym : forall x y : A, compare y x = CompOpp (compare x y);
  compare_trans : forall x y z : A, compare x y = Lt -> compare y z = Lt -> compare x z = Lt
}.

Definition le {A : Type} `{Compare A} (x y : A) : Prop := leb x y = true.
Definition lt {A : Type} `{Compare A} (x y : A) : Prop := compare x y = Lt.

(** The order left by a stable sort for [lebA] of a list that was in the
    order [R]: by [lebA], and by [R] among the ties of [lebA]. *)
Definition then_by {A : Type} (lebA : A -> A -> bool) (R : A -> A -> Prop) (x y : A) : Prop :=
  lebA y x = false \/ (lebA x y = true /\ R x y).
(* ------------------------------------------------------------------ *)
(** ** Sample inputs *)

Module Sample.

(** A sheet as [read_excel] returns it: the header labels and the rows
    under them, labelled [0 .. n-1]. *)
Definition sheet (header : list string) (rows : list (list cell)) : DataFrame :=
  mkDF (seq 0 (List.length rows))
       (map (fun j => (nth j header "", map (fun row => nth j row NaN) rows))
            (seq 0 (List.length header))).

(** A permissive parser that reads nothing. *)
Definition reads_nothing : list cell -> cell -> option N := fun _ _ => None.

Definition full_header (start_label : string) : list string :=
  ["DAY"; start_label; "SUBJECT"; "TEACHER"; "ROOM"; "GROUP"; "INTAKE"].

(** Two rows of one class, for the groups G1 and G2. *)
Definition two_groups (start_label : string) : DataFrame :=
  sheet (full_header start_label)
        [ [Str "Mon"; Str "08:05:00"; Str "Math"; Str "A"; Str "101"; Str "G1"; Str "JAN"];
          [Str "Mon"; Str "08:05:00"; Str "Math"; Str "A"; Str "101"; Str "G2"; Str "JAN"] ].

Definition two_groups_text : string :=
  ("A" ++ PyStr.nl ++ "Math" ++ PyStr.nl ++ "JAN G1" ++ PyStr.nl ++ "JAN G2")%string.

(** The matrix of the room view for these two rows. *)
Definition two_groups_matrix : DayMatrix :=
  ("ROOM" :: time_slots,
   [Str "101" :: Str two_groups_text :: Str two_groups_text :: repeat NaN 18]).

(** The empty matrix of the room view with the one row [101]. *)
Definition room_101 : Matrix := init_matrix "ROOM" ["101"].

(** A class at 08:05 whose room cell is blank, and a class in room 101. *)
Definition blank_room : DataFrame :=
  sheet (full_header "START TIME")
        [ [Str "Mon"; Str "08:05:00"; Str "Math"; Str "A"; NaN; Str "G1"; Str "JAN"];
          [Str "Mon"; Str "10:05:00"; Str "Art"; Str "B"; Str "101"; Str "G2"; Str "JAN"] ].

Definition art_text : string :=
  ("B" ++ PyStr.nl ++ "Art" ++ PyStr.nl ++ "JAN G2")%string.

(** Two classes of room 101 that start at 09:05. *)
Definition math_0905 : GroupedRow := mkGrouped "Mon" "09:05:00" "Math" "A" "101" "JAN G1".
Definition art_0905 : GroupedRow := mkGrouped "Mon" "09:05:00" "Art" "B" "101" "JAN G2".

(** A class in the last slot of the axis. *)
Definition math_1735 : GroupedRow := mkGrouped "Mon" "17:35:00" "Math" "A" "101" "JAN G1".

(** One class per listed day label, in the order of the list. *)
Definition one_class_per_day (days : list string) : DataFrame :=
  sheet (full_header "START TIME")
        (map (fun d => [Str d; Str "08:05:00"; Str "Math"; Str "A"; Str "101"; Str "G1"; Str "JAN"])
             days).

(** The occupancy entry of the class above on the day [d]. *)
Definition one_class_entry (d : string) : GroupedRow :=
  mkGrouped d "08:05:00" "Math" "A" "101" "JAN G1".

(** The frame that normalisation returns for the sheets, when the
    permissive parser is never needed. *)
Definition cleaned (all_sheets : list DataFrame) : DataFrame :=
  match load_and_clean_data reads_nothing all_sheets with
  | Ok df => df
  | Raise _ => mkDF [] []
  end.

Definition math_text : string :=
  ("A" ++ PyStr.nl ++ "Math" ++ PyStr.nl ++ "JAN G1")%string.

(** The matrix of a day with the one class above. *)
Definition one_class_matrix : DayMatrix :=
  ("ROOM" :: time_slots, [Str "101" :: Str math_text :: Str math_text :: repeat NaN 18]).

(** A class that starts at 08:00, off the axis. *)
Definition off_axis : DataFrame :=
  sheet (full_header "START TIME")
        [ [Str "Mon"; Str "08:00:00"; Str "Math"; Str "A"; Str "101"; Str "G1"; Str "JAN"] ].

(** Columns [SUBJECT] and [TEACHER] only. *)
Definition subject_teacher_only : DataFrame :=
  sheet ["SUBJECT"; "TEACHER"] [ [Str "Math"; Str "A"] ].

(** A start-time column only. *)
Definition start_time_only : DataFrame :=
  sheet ["START TIME"] [ [Str "08:05:00"] ].

(** Day, start time and teacher only: one class, and the same class
    under a blank row. *)
Definition teacher_only : DataFrame :=
  sheet ["DAY"; "START TIME"; "TEACHER"] [ [Str "Mon"; Str "08:05:00"; Str "A"] ].

Definition teacher_only_blank_row_first : DataFrame :=
  sheet ["DAY"; "START TIME"; "TEACHER"]
        [ [NaN; NaN; NaN]; [Str "Mon"; Str "08:05:00"; Str "A"] ].

(** The text of a class without room, subject, intake and group. *)
Definition empty_fields_text : string := (PyStr.nl ++ PyStr.nl ++ " ")%string.

(** The cleaned frame of [two_groups "START TIME"]. *)
Definition two_groups_clean : DataFrame :=
  mkDF [0; 1]
       [("DAY", [Str "Mon"; Str "Mon"]);
        ("START TIME", [Str "08:05:00"; Str "08:05:00"]);
        ("SUBJECT", [Str "Math"; Str "Math"]);
        ("TEACHER", [Str "A"; Str "A"]);
        ("ROOM", [Str "101"; Str "101"]);
        ("GROUP", [Str "G1"; Str "G2"]);
        ("INTAKE", [Str "JAN"; Str "JAN"]);
        ("INTAKE_GROUP", [Str "JAN G1"; Str "JAN G2"])].

(** A class whose group and intake cells are blank, and a class whose
    room cell is blank. *)
Definition blank_cells : DataFrame :=
  sheet (full_header "START TIME")
        [ [Str "Mon"; Str "08:05:00"; Str "Math"; Str "A"; Str "101"; NaN; NaN];
          [Str "Mon"; Str "09:05:00"; Str "Art"; Str "B"; NaN; Str "G1"; Str "JAN"] ].

Definition nan_nan_text : string :=
  ("A" ++ PyStr.nl ++ "Math" ++ PyStr.nl ++ "nan nan")%string.

(** A sheet with a day column and its duplicate, as the multi-sheet export
    gives them. *)
Definition two_day_columns : DataFrame :=
  sheet ["DAY"; "START TIME"; "DAY.1"]
        [ [Str "1"; Str "08:05:00"; Str "Mon"]; [Str "2"; NaN; Str "Tue"] ].

End Sample.


(* ------------------------------------------------------------------ *)
(** ** Notions used for the further properties *)

(** A frame all of whose columns have one cell per row. *)
Definition rectangular (df : DataFrame) : Prop :=
  Forall (fun col => List.length (snd col) = nrows df) (df_columns df).

(** How many columns of a frame carry the label [c]. *)
Definition count_label (c : string) (df : DataFrame) : nat :=
  List.length (filter (Frame.has_label c) (df_columns df)).

(** The labels of the cleaned frame that every later step relies on. *)
Definition cleaned_labels : list string :=
  ["START TIME"; "ROOM"; "GROUP"; "TEACHER"; "SUBJECT"; "INTAKE"; "INTAKE_GROUP"].

(** The rows of a column that [dropna] keeps, given the standardised start
    times. *)
Definition kept (times : list cell) (v : list cell) : list cell :=
  select_mask (map (fun t => negb (isna t)) times) v.

(* ------------------------------------------------------------------ *)
(** ** [handle_request] and the two routes *)

(** [s.endswith(suffix)] *)
Fixpoint endswith (s suffix : string) : bool :=
  String.eqb s suffix ||
  match s with
  | EmptyString => false
  | String _ t => endswith t suffix
  end.

(** Lines 211-213: the download name, from the form field [filename] when
    the form has one. *)
Definition output_filename (form_filename : option string) (default_name : string) : string :=
  let name := match form_filename with Some n => n | None => default_name end in
  if negb (endswith name ".xlsx") then (name ++ ".xlsx")%string else name.

(** The uploaded file: its name, and the sheets that [read_excel] returns
    for it, [None] when [read_excel] raises. *)
Record Upload : Type := mkUpload {
  upload_filename : string;
  upload_sheets : option (list DataFrame)
}.

(** What the handler reads of a request: [request.files['file']] and
    [request.form['filename']], each when present. *)
Record Request : Type := mkRequest {
  request_file : option Upload;
  request_form_filename : option string
}.

(** Why a request is answered with an error. *)
Inductive failure : Type :=
| NoFilePart
| NoSelectedFile
| InvalidExcelFile
| Normalising (e : error)
| Building (e : error)
| Writing (value_error : bool).

(** Whether the exception behind a failure is a [ValueError], which the
    handler answers with status 400 (line 226), or another exception, which it
    answers with status 500 (line 228).  The errors for no sheet, for no
    START TIME and for an unreadable file are [ValueError]s.  A label carried
    twice ends in an [AttributeError] in [load_and_clean_data], where [.str]
    is asked of a frame, and in a [ValueError] in [groupby]. *)
Definition is_value_error (f : failure) : bool :=
  match f with
  | NoFilePart | NoSelectedFile => true
  | InvalidExcelFile => true
  | Normalising NoObjects | Building NoObjects => true
  | Normalising (SchemaError _) | Building (SchemaError _) => true
  | Normalising (NotASeries _) => false
  | Building (NotASeries _) => true
  | Normalising (KeyError _) | Building (KeyError _) => false
  | Normalising TypeError | Building TypeError => false
  | Writing b => b
  end.

(** What the workbook writer makes of the frames it is handed, in order
    (lines 130-186: [pd.ExcelWriter], [to_excel], [format_worksheet] and the
    save on leaving the [with] block): the workbook it saves, or the exception
    it raises, a [ValueError] or another one. *)
Inductive written (Workbook : Type) : Type :=
| Saved (book : Workbook)
| WriterRaises (value_error : bool).

Arguments Saved {Workbook} book.
Arguments WriterRaises {Workbook} value_error.

(** The answer to a request: the saved workbook under a download name, or a
    status with the reason. *)
Inductive Response (Workbook : Type) : Type :=
| SendFile (download_name : string) (book : Workbook)
| Json (status : nat) (f : failure).

Arguments SendFile {Workbook} download_name book.
Arguments Json {Workbook} status f.

Definition answer {Workbook : Type} (f : failure) : Response Workbook :=
  Json (if is_value_error f then 400 else 500) f.

Section Handler.

Variable to_datetime_coerce : list cell -> cell -> option N.

(** The writer belongs to pandas and openpyxl and is left open: what it
    writes into which worksheet (frames of one sheet name go to one
    worksheet) and when it raises (no frame at all, an empty sheet name) is
    its own. *)
Variable Workbook : Type.
Variable write_workbook : list Sheet -> written Workbook.

(** [handle_request]; [timestamp] is the reading of the clock. *)
Definition handle_request (timestamp view_type default_name : string) (request : Request)
  : Response Workbook :=
  match request_file request with
  | None => Json 400 NoFilePart
  | Some file =>
      if String.eqb (upload_filename file) "" then Json 400 NoSelectedFile
      else
        let name := output_filename (request_form_filename request) default_name in
        match upload_sheets file with
        | None => answer InvalidExcelFile
        | Some all_sheets =>
            match load_and_clean_data to_datetime_coerce all_sheets with
            | Raise e => answer (Normalising e)
            | Ok df =>
                match generate_schedule_excel timestamp df view_type with
                | Raise e => answer (Building e)
                | Ok sheets =>
                    match write_workbook sheets with
                    | WriterRaises b => answer (Writing b)
                    | Saved book => SendFile name book
                    end
                end
            end
        end
  end.

(** The route [/api/schedule/room]. *)
Definition schedule_room (timestamp : string) (request : Request) : Response Workbook :=
  handle_request timestamp "room" "Room_Schedule.xlsx" request.

(** The route [/api/schedule/teacher]. *)
Definition schedule_teacher (timestamp : string) (request : Request) : Response Workbook :=
  handle_request timestamp "teacher" "Teacher_Schedule.xlsx" request.

End Handler.

Arguments handle_request to_datetime_coerce {Workbook} write_workbook
  timestamp view_type default_name request.
Arguments schedule_room to_datetime_coerce {Workbook} write_workbook timestamp request.
Arguments schedule_teacher to_datetime_coerce {Workbook} write_workbook timestamp request.


(* ------------------------------------------------------------------ *)
(** ** The library operations that fix an order *)

(** The operations of pandas and Python whose order of results the builder
    relies on: [unique()], [sorted(...)] and the walk of [groupby] over its
    groups. *)
Record Library : Type := mkLibrary {
  lib_unique : forall A : Type, (A -> A -> bool) -> list A -> list A;
  lib_sorted : forall A : Type, (A -> A -> bool) -> list A -> list A;
  lib_groupby : list (group_key * cell) -> list (group_key * list cell)
}.

(** The position at which [x] first appears in [l]. *)
Fixpoint first_index {A : Type} (eqbA : A -> A -> bool) (x : A) (l : list A) : nat :=
  match l with
  | [] => 0
  | y :: t => if eqbA x y then 0 else S (first_index eqbA x t)
  end.

(** What pandas documents of [unique()]: the values of the input, each
    once, in order of appearance. *)
Definition unique_documented
           (u : forall A : Type, (A -> A -> bool) -> list A -> list A) : Prop :=
  forall (A : Type) (eqbA : A -> A -> bool) (l : list A),
    (forall x y, eqbA x y = true <-> x = y) ->
    (forall x, In x (u A eqbA l) <-> In x l) /\
    StronglySorted (fun x y => first_index eqbA x l < first_index eqbA y l) (u A eqbA l).

(** What Python documents of [sorted]: the result is in ascending order, and
    the sort is stable, so the elements that compare equal to a given one
    keep the order they had. *)
Definition sorted_documented
           (s : forall A : Type, (A -> A -> bool) -> list A -> list A) : Prop :=
  forall (A : Type) (lebA : A -> A -> bool) (l : list A),
    (forall x y, lebA x y = true \/ lebA y x = true) ->
    (forall x y z, lebA x y = true -> lebA y z = true -> lebA x z = true) ->
    StronglySorted (fun x y => lebA x y = true) (s A lebA l) /\
    (forall x, filter (fun y => lebA x y && lebA y x) (s A lebA l)
               = filter (fun y => lebA x y && lebA y x) l).

(** What pandas documents of [groupby] (with [sort=True], the default): one
    group for each key, the keys in ascending order, the rows of a group in
    the order they had. *)
Definition groupby_documented
           (g : list (group_key * cell) -> list (group_key * list cell)) : Prop :=
  forall kv : list (group_key * cell),
    StronglySorted lt (map fst (g kv)) /\
    (forall k, In k (map fst (g kv)) <-> In k (map fst kv)) /\
    Forall (fun grp => snd grp = map snd (filter (fun p => eqb (fst p) (fst grp)) kv)) (g kv).

Definition documented (lib : Library) : Prop :=
  unique_documented (lib_unique lib) /\
  sorted_documented (lib_sorted lib) /\
  groupby_documented (lib_groupby lib).

(** The builder and the pipeline over a library: the definitions above with
    the three operations taken from [lib]. *)
Module Over.

Section WithLibrary.

Variable lib : Library.

Definition join_unique (x : list cell) : result string :=
  let u := lib_unique lib cell cell_eqb x in
  if existsb isna u then Raise TypeError
  else Ok (PyStr.join PyStr.nl (map astype_str u)).

Fixpoint apply_groups (groups : list (group_key * list cell)) : result (list GroupedRow) :=
  match groups with
  | [] => Ok []
  | (k, x) :: t =>
      ig <- join_unique x ;;
      rest <- apply_groups t ;;
      let '(d, (s, (su, (te, ro)))) := k in
      Ok (mkGrouped d s su te ro ig :: rest)
  end.

Definition groupby_rows (rows : list ClassRecord) : result (list GroupedRow) :=
  apply_groups (lib_groupby lib (keyed rows)).

Definition df_grouped (df : DataFrame) : result (list GroupedRow) :=
  rows <- records df ;; groupby_rows rows.

Definition unique_days (grouped : list GroupedRow) : list string :=
  lib_sorted lib string (fun a b => day_rank a <=? day_rank b)
             (lib_unique lib string String.eqb (map DAY grouped)).

Definition unique_primary (view_type : string) (day_data : list GroupedRow) : list string :=
  lib_sorted lib string leb
             (filter valid_primary
                     (lib_unique lib string String.eqb
                                 (map (fun row => row_get row (primary_col view_type)) day_data))).

Definition day_sheet (header_text view_type : string) (grouped : list GroupedRow)
           (day : string) : option Sheet :=
  let day_data := filter (fun row => String.eqb (DAY row) day) grouped in
  match day_data with
  | [] => None
  | _ =>
      match unique_primary view_type day_data with
      | [] => None
      | rows =>
          let matrix_df := fill_matrix view_type (init_matrix (primary_col view_type) rows) day_data in
          Some (mkSheet day (sheet_name_clean day) header_text
                        (m_columns matrix_df) (m_data matrix_df))
      end
  end.

Definition sheets_of (header_text view_type : string) (grouped : list GroupedRow) : list Sheet :=
  flat_map (fun day => match day_sheet header_text view_type grouped day with
                       | Some s => [s]
                       | None => []
                       end)
           (unique_days grouped).

Definition generate_schedule_excel (timestamp : string) (df : DataFrame) (view_type : string)
  : result (list Sheet) :=
  let header_text := ("File Generated on: " ++ timestamp)%string in
  grouped <- df_grouped df ;;
  Ok (sheets_of header_text view_type grouped).

Variable to_datetime_coerce : list cell -> cell -> option N.

Definition pipeline (timestamp : string) (all_sheets : list DataFrame) (view_type : string)
  : result (list (string * DayMatrix)) :=
  df <- load_and_clean_data to_datetime_coerce all_sheets ;;
  sheets <- generate_schedule_excel timestamp df view_type ;;
  Ok (matrices sheets).

End WithLibrary.

End Over.

(** The operations as the definitions above have them: first occurrences,
    a stable insertion sort, groups by ascending key. *)
Definition reference : Library :=
  mkLibrary (@unique) (@sorted)
            (fun kv => map (fun k => (k, map snd (filter (fun p => eqb (fst p) k) kv)))
                           (sorted leb (unique eqb (map fst kv)))).

(** Other implementations of the same operations: [unique] with the list of
    the values seen so far, and an insertion sort that takes the elements from
    the left and puts each after the elements that are not greater. *)
Definition unique_seen {A : Type} (eqbA : A -> A -> bool) (l : list A) : list A :=
  fold_left (fun seen x => if existsb (eqbA x) seen then seen else seen ++ [x]) l [].

Fixpoint insert_after {A : Type} (lebA : A -> A -> bool) (x : A) (l : list A) : list A :=
  match l with
  | [] => [x]
  | y :: t => if lebA y x then y :: insert_after lebA x t else x :: l
  end.

Definition sorted_left {A : Type} (lebA : A -> A -> bool) (l : list A) : list A :=
  fold_left (fun acc x => insert_after lebA x acc) l [].

Definition by_accumulation : Library :=
  mkLibrary (@unique_seen) (@sorted_left)
            (fun kv => map (fun k => (k, map snd (filter (fun p => eqb (fst p) k) kv)))
                           (sorted_left leb (unique_seen eqb (map fst kv)))).

(* ------------------------------------------------------------------ *)
(** * Properties *)

(** ** Lists of labels *)

Section Labels.

Lemma append_assoc (a b c : string) : ((a ++ b) ++ c = a ++ (b ++ c))%string.
Proof. induction a as [|x a IH]; simpl; [reflexivity | now rewrite IH]. Qed.

Lemma mem_In (x : string) (xs : list string) : PyStr.mem x xs = true <-> In x xs.
Proof.
  unfold PyStr.mem. rewrite existsb_exists. split.
  - intros [y [Hy E]]. apply String.eqb_eq in E. now subst.
  - intros H. exists x. split; [assumption | apply String.eqb_refl].
Qed.

Lemma mem_false (x : string) (xs : list string) : PyStr.mem x xs = false <-> ~ In x xs.
Proof.
  rewrite <- mem_In. destruct (PyStr.mem x xs); split; congruence.
Qed.

Lemma index_of_nth (x : string) (xs : list string) (i : nat) :
  PyStr.index_of x xs = Some i -> i < List.length xs /\ nth i xs "" = x.
Proof.
  revert i. induction xs as [|y t IH]; simpl; intros i H; [discriminate|].
  destruct (String.eqb_spec y x) as [->|Hne].
  - injection H as <-. split; [lia | reflexivity].
  - destruct (PyStr.index_of x t) as [j|]; simpl in H; [|discriminate].
    injection H as <-. destruct (IH j eq_refl) as [Hlt Hn]. split; [lia | assumption].
Qed.

Lemma index_of_In (x : string) (xs : list string) :
  In x xs -> exists i, PyStr.index_of x xs = Some i.
Proof.
  induction xs as [|y t IH]; simpl; [tauto|]. intros H.
  destruct (String.eqb_spec y x) as [->|Hne]; [now exists 0|].
  destruct H as [H|H]; [contradiction|].
  destruct (IH H) as [i ->]. now exists (S i).
Qed.

Lemma index_of_inj (x y : string) (xs : list string) (i : nat) :
  PyStr.index_of x xs = Some i -> PyStr.index_of y xs = Some i -> x = y.
Proof.
  intros Hx Hy. apply index_of_nth in Hx, Hy. destruct Hx as [_ <-], Hy as [_ <-].
  reflexivity.
Qed.

Lemma index_of_NoDup (xs : list string) (k : nat) :
  NoDup xs -> k < List.length xs -> PyStr.index_of (nth k xs "") xs = Some k.
Proof.
  intros ND. revert k. induction ND as [|y t Hy ND IH]; simpl; intros k Hk; [lia|].
  destruct k as [|k].
  - now rewrite String.eqb_refl.
  - destruct (String.eqb_spec y (nth k t "")) as [E|Hne].
    + exfalso. apply Hy. rewrite E. apply nth_In. lia.
    + rewrite IH by lia. reflexivity.
Qed.

End Labels.

(** ** Cells of a matrix *)

Section Cells.

Lemma update_nth_length {A : Type} (n : nat) (f : A -> A) (l : list A) :
  List.length (update_nth n f l) = List.length l.
Proof.
  revert n. induction l as [|x t IH]; intros [|n]; simpl; auto.
Qed.

Lemma nth_update_nth_eq {A : Type} (n : nat) (f : A -> A) (l : list A) (d : A) :
  n < List.length l -> nth n (update_nth n f l) d = f (nth n l d).
Proof.
  revert n. induction l as [|x t IH]; intros [|n]; simpl; intros H; try lia; auto.
  apply IH. lia.
Qed.

Lemma nth_update_nth_neq {A : Type} (n i : nat) (f : A -> A) (l : list A) (d : A) :
  i <> n -> nth i (update_nth n f l) d = nth i l d.
Proof.
  revert n i. induction l as [|x t IH]; intros [|n] [|i]; simpl; intros H;
    try reflexivity; try congruence.
  apply IH. congruence.
Qed.

Lemma Forall_update_nth {A : Type} (P : A -> Prop) (n : nat) (f : A -> A) (l : list A) :
  Forall P l -> (forall x, P x -> P (f x)) -> Forall P (update_nth n f l).
Proof.
  intros H Hf. revert n. induction H as [|x t Hx Ht IH]; intros [|n]; simpl;
    constructor; auto.
Qed.

Lemma wf_at_set (m : Matrix) (r c : string) (v : cell) :
  wf_matrix m -> wf_matrix (at_set m r c v).
Proof.
  intros [Hl Hr]. unfold at_set.
  destruct (PyStr.index_of r (m_index m)) as [i|]; [|now split].
  destruct (PyStr.index_of c (m_columns m)) as [j|]; [|now split].
  split; simpl.
  - now rewrite update_nth_length.
  - apply Forall_update_nth; [assumption|].
    intros row H. now rewrite update_nth_length.
Qed.

Lemma at_set_labels (m : Matrix) (r c : string) (v : cell) :
  m_index (at_set m r c v) = m_index m /\ m_columns (at_set m r c v) = m_columns m.
Proof.
  unfold at_set.
  destruct (PyStr.index_of r (m_index m)); [|now split].
  destruct (PyStr.index_of c (m_columns m)); now split.
Qed.

Lemma at_get_at_set_same (m : Matrix) (r c : string) (v : cell) :
  wf_matrix m -> In r (m_index m) -> In c (m_columns m) ->
  at_get (at_set m r c v) r c = v.
Proof.
  intros [Hl Hr] Hin Hc.
  destruct (index_of_In _ _ Hin) as [i Hi], (index_of_In _ _ Hc) as [j Hj].
  unfold at_get, at_set. rewrite Hi, Hj. simpl. rewrite Hi, Hj.
  destruct (index_of_nth _ _ _ Hi) as [Hil _], (index_of_nth _ _ _ Hj) as [Hjl _].
  rewrite nth_update_nth_eq by lia.
  apply nth_update_nth_eq.
  rewrite Forall_forall in Hr. rewrite (Hr (nth i (m_data m) [])); [assumption|].
  apply nth_In. lia.
Qed.

Lemma at_get_at_set_other (m : Matrix) (r c r' c' : string) (v : cell) :
  r' <> r \/ c' <> c -> at_get (at_set m r c v) r' c' = at_get m r' c'.
Proof.
  intros Hne. unfold at_get, at_set.
  destruct (PyStr.index_of r (m_index m)) as [i|] eqn:Hi; [|reflexivity].
  destruct (PyStr.index_of c (m_columns m)) as [j|] eqn:Hj; [|reflexivity].
  simpl.
  destruct (PyStr.index_of r' (m_index m)) as [i'|] eqn:Hi'; [|reflexivity].
  destruct (PyStr.index_of c' (m_columns m)) as [j'|] eqn:Hj'; [|reflexivity].
  destruct (Nat.eq_dec i' i) as [->|Hii].
  - assert (r' = r) by (eapply index_of_inj; eassumption). subst r'.
    destruct (Nat.eq_dec j' j) as [->|Hjj].
    + assert (c' = c) by (eapply index_of_inj; eassumption). subst c'.
      destruct Hne; congruence.
    + destruct (index_of_nth _ _ _ Hi) as [Hil _].
      destruct (Nat.lt_ge_cases i (List.length (m_data m))) as [Hlt|Hge].
      * rewrite nth_update_nth_eq by assumption. now apply nth_update_nth_neq.
      * rewrite !(nth_overflow _ []); [reflexivity | assumption |].
        now rewrite update_nth_length.
  - now rewrite nth_update_nth_neq.
Qed.

(** [update_cell] stores [merge old text]. *)
Lemma update_cell_merge (m : Matrix) (r c text : string) :
  update_cell m r c text = at_set m r c (merge (at_get m r c) text).
Proof.
  unfold update_cell, merge. now destruct (at_get m r c).
Qed.

Lemma wf_update_cell (m : Matrix) (r c text : string) :
  wf_matrix m -> wf_matrix (update_cell m r c text).
Proof. rewrite update_cell_merge. apply wf_at_set. Qed.

Lemma update_cell_labels (m : Matrix) (r c text : string) :
  m_index (update_cell m r c text) = m_index m /\
  m_columns (update_cell m r c text) = m_columns m.
Proof. rewrite update_cell_merge. apply at_set_labels. Qed.

Lemma at_get_update_cell_same (m : Matrix) (r c text : string) :
  wf_matrix m -> In r (m_index m) -> In c (m_columns m) ->
  at_get (update_cell m r c text) r c = merge (at_get m r c) text.
Proof. intros. rewrite update_cell_merge. now apply at_get_at_set_same. Qed.

Lemma at_get_update_cell_other (m : Matrix) (r c r' c' text : string) :
  r' <> r \/ c' <> c -> at_get (update_cell m r c text) r' c' = at_get m r' c'.
Proof. intros. rewrite update_cell_merge. now apply at_get_at_set_other. Qed.

Lemma wf_init_matrix (primary : string) (rows : list string) :
  wf_matrix (init_matrix primary rows).
Proof.
  split; simpl.
  - apply length_map.
  - apply Forall_forall. intros row H. apply in_map_iff in H.
    destruct H as [p [<- _]]. reflexivity.
Qed.

End Cells.

(** ** The slot axis *)

Section Axis.

Lemma time_slots_generated : time_slots = Clock.generate_time_slots.
Proof. vm_compute. reflexivity. Qed.

(** With more fuel the loop of [generate_time_slots] returns the same
    list: it leaves by its test. *)
Lemma slots_loop_enough (extra : nat) :
  Clock.slots_loop (extra + S (N.to_nat ((Clock.end_bound - Clock.start_bound) / (30 * 60))))
                   Clock.start_bound Clock.end_bound
  = Clock.generate_time_slots.
Proof.
  unfold Clock.generate_time_slots.
  replace (S (N.to_nat ((Clock.end_bound - Clock.start_bound) / (30 * 60)))) with 20
    by (vm_compute; reflexivity).
  rewrite Nat.add_comm.
  change (20 + extra) with (S (S (S (S (S (S (S (S (S (S (S (S (S (S (S (S (S (S (S (S extra)))))))))))))))))))).
  cbn [Clock.slots_loop].
  repeat match goal with
         | |- context [N.leb ?a ?b] =>
             let v := eval vm_compute in (N.leb a b) in
             change (N.leb a b) with v; cbv iota
         end.
  destruct extra; reflexivity.
Qed.

Lemma time_slots_length : List.length time_slots = 20.
Proof. reflexivity. Qed.

Lemma time_slots_NoDup : NoDup time_slots.
Proof.
  unfold time_slots.
  repeat (constructor; [simpl; intuition discriminate|]). constructor.
Qed.

Lemma primary_col_cases (view_type : string) :
  primary_col view_type = "ROOM" \/ primary_col view_type = "TEACHER".
Proof. unfold primary_col. destruct (String.eqb view_type "room"); auto. Qed.

Lemma primary_not_slot (view_type : string) : ~ In (primary_col view_type) time_slots.
Proof.
  destruct (primary_col_cases view_type) as [-> | ->];
    unfold time_slots; simpl; intuition discriminate.
Qed.

Lemma matrix_cols_NoDup (view_type : string) : NoDup (primary_col view_type :: time_slots).
Proof. constructor; [apply primary_not_slot | apply time_slots_NoDup]. Qed.

Lemma slot_in_cols (primary : string) (k : nat) :
  k < List.length time_slots -> In (nth k time_slots "") (primary :: time_slots).
Proof. intros H. right. now apply nth_In. Qed.

(** What [place] does for a start time on the axis. *)
Lemma place_slot (view_type : string) (m : Matrix) (p text : string) (k : nat) :
  m_columns m = primary_col view_type :: time_slots ->
  k < List.length time_slots ->
  place m p (nth k time_slots "") text =
    if S k <? List.length time_slots
    then update_cell (update_cell m p (nth k time_slots "") text)
                     p (nth (S k) time_slots "") text
    else update_cell m p (nth k time_slots "") text.
Proof.
  intros Hc Hk. unfold place. rewrite Hc.
  assert (Hmem : PyStr.mem (nth k time_slots "") (primary_col view_type :: time_slots) = true)
    by (apply mem_In; now apply slot_in_cols).
  rewrite Hmem.
  assert (Hi : PyStr.index_of (nth k time_slots "") (primary_col view_type :: time_slots)
               = Some (S k)).
  { change (nth k time_slots "") with (nth (S k) (primary_col view_type :: time_slots) "").
    apply index_of_NoDup; [apply matrix_cols_NoDup | cbn [List.length]; lia]. }
  rewrite Hi.
  replace (S k + 1) with (S (S k)) by lia.
  change (List.length (primary_col view_type :: time_slots)) with (S (List.length time_slots)).
  change (S (S k) <? S (List.length time_slots)) with (S k <? List.length time_slots).
  reflexivity.
Qed.

End Axis.

(** ** The loop that fills a matrix *)

Section Fill.

Variable view_type : string.

Lemma place_fold (m : Matrix) (p s text : string) :
  place m p s text =
    fold_left (fun m' c => update_cell m' p c text) (targets (m_columns m) s) m.
Proof.
  unfold place, targets. destruct (PyStr.mem s (m_columns m)); [|reflexivity].
  destruct (PyStr.index_of s (m_columns m)) as [i|]; [|reflexivity].
  destruct (i + 1 <? List.length (m_columns m)); reflexivity.
Qed.

Lemma targets_in (cols : list string) (s c : string) :
  In c (targets cols s) -> In c cols.
Proof.
  unfold targets. destruct (PyStr.mem s cols) eqn:Hm; [|simpl; tauto].
  apply mem_In in Hm. intros [<-|H]; [assumption|].
  destruct (PyStr.index_of s cols) as [i|]; [|destruct H].
  destruct (Nat.ltb_spec (i + 1) (List.length cols)) as [Hlt|]; [|destruct H].
  destruct H as [<-|[]]. now apply nth_In.
Qed.

Lemma fold_update_inv (p text : string) (cs : list string) (m : Matrix) :
  wf_matrix m ->
  wf_matrix (fold_left (fun m' c => update_cell m' p c text) cs m) /\
  m_index (fold_left (fun m' c => update_cell m' p c text) cs m) = m_index m /\
  m_columns (fold_left (fun m' c => update_cell m' p c text) cs m) = m_columns m.
Proof.
  revert m. induction cs as [|c t IH]; cbn [fold_left]; intros m Hwf; [auto|].
  destruct (IH (update_cell m p c text) (@wf_update_cell m p c text Hwf)) as [H1 [H2 H3]].
  destruct (update_cell_labels m p c text) as [E1 E2].
  split; [assumption | split; congruence].
Qed.

Lemma at_get_fold_update (p text r c : string) (cs : list string) (m : Matrix) :
  wf_matrix m -> In p (m_index m) -> (forall c', In c' cs -> In c' (m_columns m)) ->
  at_get (fold_left (fun m' c' => update_cell m' p c' text) cs m) r c =
    if String.eqb p r
    then fold_left merge (map (fun _ => text) (filter (String.eqb c) cs)) (at_get m r c)
    else at_get m r c.
Proof.
  revert m. induction cs as [|c0 t IH]; intros m Hwf Hp Hcs.
  - simpl. now destruct (String.eqb p r).
  - cbn [fold_left filter].
    destruct (update_cell_labels m p c0 text) as [E1 E2].
    rewrite IH.
    + destruct (String.eqb_spec p r) as [->|Hpr].
      * destruct (String.eqb_spec c c0) as [->|Hcc].
        -- cbn [map fold_left].
           rewrite at_get_update_cell_same; auto. apply Hcs. now left.
        -- rewrite at_get_update_cell_other; auto.
      * rewrite at_get_update_cell_other; auto.
    + now apply wf_update_cell.
    + now rewrite E1.
    + intros c' H. rewrite E2. apply Hcs. now right.
Qed.

Lemma fill_row_inv (m : Matrix) (row : GroupedRow) :
  wf_matrix m ->
  wf_matrix (fill_row view_type m row) /\
  m_index (fill_row view_type m row) = m_index m /\
  m_columns (fill_row view_type m row) = m_columns m.
Proof.
  intros Hwf. unfold fill_row.
  destruct (PyStr.mem _ (m_index m)); simpl; [|auto].
  rewrite place_fold. now apply fold_update_inv.
Qed.

Lemma fill_matrix_inv (rows : list GroupedRow) (m : Matrix) :
  wf_matrix m ->
  wf_matrix (fill_matrix view_type m rows) /\
  m_index (fill_matrix view_type m rows) = m_index m /\
  m_columns (fill_matrix view_type m rows) = m_columns m.
Proof.
  unfold fill_matrix. revert m. induction rows as [|row t IH]; simpl; intros m Hwf; [auto|].
  destruct (fill_row_inv m row Hwf) as [H1 [H2 H3]].
  destruct (IH _ H1) as [G1 [G2 G3]]. split; [assumption | split; congruence].
Qed.

(** The content of a cell after one row. *)
Lemma at_get_fill_row (m : Matrix) (row : GroupedRow) (r c : string) :
  wf_matrix m ->
  at_get (fill_row view_type m row) r c =
    fold_left merge (writes view_type (m_index m) (m_columns m) r c [row]) (at_get m r c).
Proof.
  intros Hwf. unfold fill_row, writes. cbn [flat_map]. rewrite app_nil_r.
  fold (primary_val view_type row). fold (cell_text view_type row).
  change (row_get row "START TIME") with (START_TIME row).
  destruct (PyStr.mem (primary_val view_type row) (m_index m)) eqn:Hm; cbn [negb].
  - rewrite place_fold, at_get_fold_update.
    + destruct (String.eqb_spec (primary_val view_type row) r) as [<-|]; [|reflexivity].
      now rewrite Hm.
    + assumption.
    + now apply mem_In.
    + intros c'. apply targets_in.
  - destruct (String.eqb_spec (primary_val view_type row) r) as [<-|]; [|reflexivity].
    now rewrite Hm.
Qed.

(** The content of a cell after the loop: the texts written to it, merged
    in order. *)
Lemma at_get_fill_matrix (rows : list GroupedRow) (m : Matrix) (r c : string) :
  wf_matrix m ->
  at_get (fill_matrix view_type m rows) r c =
    fold_left merge (writes view_type (m_index m) (m_columns m) r c rows) (at_get m r c).
Proof.
  unfold fill_matrix. revert m. induction rows as [|row t IH]; intros m Hwf; [reflexivity|].
  cbn [fold_left]. destruct (fill_row_inv m row Hwf) as [H1 [H2 H3]].
  rewrite IH by assumption. rewrite H2, H3, at_get_fill_row by assumption.
  rewrite <- fold_left_app. f_equal.
  unfold writes. cbn [flat_map]. now rewrite app_nil_r.
Qed.

Lemma merge_fold_Str (ws : list string) (o : string) :
  fold_left merge ws (Str o) = Str (PyStr.join separator (o :: ws)).
Proof.
  revert o. induction ws as [|w t IH]; intros o; [reflexivity|].
  cbn [fold_left merge]. rewrite IH. unfold PyStr.join. f_equal.
  destruct t as [|w2 t]; cbn [String.concat].
  - reflexivity.
  - now rewrite !append_assoc.
Qed.

Lemma merge_fold_NaN (w : string) (ws : list string) :
  fold_left merge (w :: ws) NaN = Str (PyStr.join separator (w :: ws)).
Proof. apply merge_fold_Str. Qed.

End Fill.

(* ------------------------------------------------------------------ *)
(** ** Trimming and upper-casing *)

Section StripUpper.

Lemma upper_char_idem (c : ascii) : PyStr.upper_char (PyStr.upper_char c) = PyStr.upper_char c.
Proof. destruct c as [[] [] [] [] [] [] [] []]; reflexivity. Qed.

Lemma is_space_upper_char (c : ascii) : PyStr.is_space (PyStr.upper_char c) = PyStr.is_space c.
Proof. destruct c as [[] [] [] [] [] [] [] []]; reflexivity. Qed.

Lemma upper_char_space (c : ascii) :
  Ascii.eqb (PyStr.upper_char c) " "%char = Ascii.eqb c " "%char.
Proof. destruct c as [[] [] [] [] [] [] [] []]; reflexivity. Qed.

Lemma upper_idem (s : string) : PyStr.upper (PyStr.upper s) = PyStr.upper s.
Proof.
  induction s as [|c s IH]; cbn [PyStr.upper]; [reflexivity|].
  now rewrite upper_char_idem, IH.
Qed.

Lemma lstrip_upper (s : string) : PyStr.lstrip (PyStr.upper s) = PyStr.upper (PyStr.lstrip s).
Proof.
  induction s as [|c s IH]; cbn [PyStr.upper PyStr.lstrip]; [reflexivity|].
  rewrite is_space_upper_char. destruct (PyStr.is_space c); [exact IH | reflexivity].
Qed.

Lemma rstrip_upper (s : string) : PyStr.rstrip (PyStr.upper s) = PyStr.upper (PyStr.rstrip s).
Proof.
  induction s as [|c s IH]; cbn [PyStr.upper PyStr.rstrip]; [reflexivity|].
  rewrite IH, is_space_upper_char.
  destruct (PyStr.rstrip s) as [|d t]; cbn [PyStr.upper]; [|reflexivity].
  now destruct (PyStr.is_space c).
Qed.

Lemma strip_upper (s : string) : PyStr.strip (PyStr.upper s) = PyStr.upper (PyStr.strip s).
Proof. unfold PyStr.strip. now rewrite lstrip_upper, rstrip_upper. Qed.

Lemma lstrip_starts_clean (s : string) :
  match PyStr.lstrip s with
  | EmptyString => True
  | String c _ => PyStr.is_space c = false
  end.
Proof.
  induction s as [|c s IH]; cbn [PyStr.lstrip]; [exact I|].
  destruct (PyStr.is_space c) eqn:E; [exact IH | exact E].
Qed.

Lemma rstrip_cons_clean (c : ascii) (t : string) :
  PyStr.is_space c = false -> PyStr.rstrip (String c t) = String c (PyStr.rstrip t).
Proof.
  intros E. cbn [PyStr.rstrip]. rewrite E. now destruct (PyStr.rstrip t).
Qed.

Lemma lstrip_idem (s : string) : PyStr.lstrip (PyStr.lstrip s) = PyStr.lstrip s.
Proof.
  induction s as [|c s IH]; cbn [PyStr.lstrip]; [reflexivity|].
  destruct (PyStr.is_space c) eqn:E; [exact IH|]. cbn [PyStr.lstrip]. now rewrite E.
Qed.

Lemma rstrip_idem (s : string) : PyStr.rstrip (PyStr.rstrip s) = PyStr.rstrip s.
Proof.
  induction s as [|c s IH]; cbn [PyStr.rstrip]; [reflexivity|].
  destruct (PyStr.rstrip s) as [|d t] eqn:E.
  - destruct (PyStr.is_space c) eqn:Ec; [reflexivity|]. cbn [PyStr.rstrip]. now rewrite Ec.
  - change (PyStr.rstrip (String c (String d t)))
      with (match PyStr.rstrip (String d t) with
            | EmptyString => if PyStr.is_space c then EmptyString else String c EmptyString
            | t' => String c t'
            end).
    now rewrite IH.
Qed.

Lemma lstrip_rstrip_clean (s : string) :
  match s with EmptyString => True | String c _ => PyStr.is_space c = false end ->
  PyStr.lstrip (PyStr.rstrip s) = PyStr.rstrip s.
Proof.
  destruct s as [|c t]; [reflexivity|]. intros E.
  rewrite rstrip_cons_clean by assumption. cbn [PyStr.lstrip]. now rewrite E.
Qed.

Lemma strip_idem (s : string) : PyStr.strip (PyStr.strip s) = PyStr.strip s.
Proof.
  unfold PyStr.strip.
  rewrite (lstrip_rstrip_clean (PyStr.lstrip s)) by apply lstrip_starts_clean.
  apply rstrip_idem.
Qed.

Lemma lstrip_app_blank (pre s : string) :
  PyStr.lstrip pre = EmptyString -> PyStr.lstrip (pre ++ s) = PyStr.lstrip s.
Proof.
  induction pre as [|c pre IH]; cbn [String.append PyStr.lstrip]; [reflexivity|].
  destruct (PyStr.is_space c); [exact IH | discriminate].
Qed.

Lemma rstrip_blank (post : string) :
  PyStr.lstrip post = EmptyString -> PyStr.rstrip post = EmptyString.
Proof.
  induction post as [|c post IH]; cbn [PyStr.lstrip PyStr.rstrip]; [reflexivity|].
  destruct (PyStr.is_space c); [|discriminate]. intros H. now rewrite IH.
Qed.

Lemma rstrip_app_blank (s post : string) :
  PyStr.lstrip post = EmptyString -> PyStr.rstrip (s ++ post) = PyStr.rstrip s.
Proof.
  intros H. induction s as [|c s IH]; cbn [String.append].
  - now apply rstrip_blank.
  - cbn [PyStr.rstrip]. now rewrite IH.
Qed.

Lemma lstrip_app_keep (s post : string) :
  PyStr.lstrip post = EmptyString ->
  PyStr.rstrip (PyStr.lstrip (s ++ post)) = PyStr.rstrip (PyStr.lstrip s).
Proof.
  intros H. induction s as [|c s IH]; cbn [String.append PyStr.lstrip].
  - rewrite H. reflexivity.
  - destruct (PyStr.is_space c); [exact IH|].
    change (String c (s ++ post)) with (String c s ++ post)%string.
    now apply rstrip_app_blank.
Qed.

Lemma strip_padded (pre s post : string) :
  PyStr.lstrip pre = EmptyString -> PyStr.lstrip post = EmptyString ->
  PyStr.strip (pre ++ s ++ post) = PyStr.strip s.
Proof.
  intros Hpre Hpost. unfold PyStr.strip.
  rewrite lstrip_app_blank by assumption. now apply lstrip_app_keep.
Qed.

End StripUpper.

(** ** The end-to-end example *)

(** The header of the start-time column is [START TIME]; a sheet whose
    header is spelled [START_TIME] has no start-time column, and
    normalisation stops with the schema error. *)
Lemma end_to_end_underscore_label :
  pipeline Sample.reads_nothing "" [Sample.two_groups "START_TIME"] "room"
  = Raise (SchemaError ["DAY"; "START_TIME"; "SUBJECT"; "TEACHER"; "ROOM"; "GROUP"; "INTAKE"]).
Proof. vm_compute. reflexivity. Qed.

(** C1: on the two rows of the example the two records collapse into one
    occupancy entry that lists both intake groups, and the room view gives
    exactly one matrix, for the day [Mon], with the one row [101] whose cells
    at 08:05:00 and 08:35:00 hold the merged text. *)
Theorem end_to_end_two_groups (to_datetime_coerce : list cell -> cell -> option N)
        (timestamp : string) :
  (exists df,
      load_and_clean_data to_datetime_coerce [Sample.two_groups "START TIME"] = Ok df /\
      df_grouped df =
        Ok [mkGrouped "Mon" "08:05:00" "Math" "A" "101"
                      ("JAN G1" ++ PyStr.nl ++ "JAN G2")%string]) /\
  pipeline to_datetime_coerce timestamp [Sample.two_groups "START TIME"] "room"
  = Ok [("Mon",
         ("ROOM" :: time_slots,
          [Str "101" :: Str Sample.two_groups_text :: Str Sample.two_groups_text
                     :: repeat NaN 18]))] /\
  nth 0 time_slots "" = "08:05:00" /\ nth 1 time_slots "" = "08:35:00".
Proof.
  split; [|split; [|split]]; try reflexivity.
  eexists. split; vm_compute; reflexivity.
Qed.

(** ** Spillover *)

(** C2, as stated: the class at 08:05 (slot 0, not the last) has a blank
    room; it is an occupancy entry of the day, but the room view writes its
    text nowhere: the cells at 08:05:00 and 08:35:00 stay empty. *)
Lemma spillover_blank_room_not_written :
  (exists df,
      load_and_clean_data Sample.reads_nothing [Sample.blank_room] = Ok df /\
      df_grouped df =
        Ok [mkGrouped "Mon" "08:05:00" "Math" "A" "nan" "JAN G1";
            mkGrouped "Mon" "10:05:00" "Art" "B" "101" "JAN G2"]) /\
  nth 0 time_slots "" = "08:05:00" /\
  pipeline Sample.reads_nothing "" [Sample.blank_room] "room"
  = Ok [("Mon",
         ("ROOM" :: time_slots,
          [ [Str "101"; NaN; NaN; NaN; NaN; Str Sample.art_text; Str Sample.art_text]
              ++ repeat NaN 14 ]))].
Proof.
  split; [|split]; try reflexivity.
  eexists. split; vm_compute; reflexivity.
Qed.

(** C2 (amended): for an occupancy entry whose primary value is a row of the
    day's matrix and whose start time is slot [k] of the axis, one turn of
    the fill loop writes the entry's text into the cell at slot [k], and into
    the cell at slot [k+1] when slot [k] is not the last; no other cell
    changes, so at the last slot only the cell at slot [k] is written. *)
Theorem spillover_of_placed_entry (view_type : string) (m : Matrix) (row : GroupedRow) (k : nat) :
  wf_matrix m ->
  m_columns m = primary_col view_type :: time_slots ->
  In (primary_val view_type row) (m_index m) ->
  k < List.length time_slots ->
  START_TIME row = nth k time_slots "" ->
  let p := primary_val view_type row in
  let text := cell_text view_type row in
  let m' := fill_row view_type m row in
  at_get m' p (nth k time_slots "") = merge (at_get m p (nth k time_slots "")) text /\
  (S k < List.length time_slots ->
   at_get m' p (nth (S k) time_slots "") = merge (at_get m p (nth (S k) time_slots "")) text) /\
  (forall r c, at_get m' r c <> at_get m r c ->
               r = p /\
               (c = nth k time_slots "" \/
                (S k < List.length time_slots /\ c = nth (S k) time_slots ""))).
Proof.
  intros Hwf Hcols Hp Hk Hs p text m'.
  assert (Hm' : m' = if S k <? List.length time_slots
                     then update_cell (update_cell m p (nth k time_slots "") text)
                                      p (nth (S k) time_slots "") text
                     else update_cell m p (nth k time_slots "") text).
  { subst m'. unfold fill_row. fold (primary_val view_type row). fold p.
    apply mem_In in Hp. fold p in Hp. rewrite Hp. cbn [negb].
    change (row_get row "START TIME") with (START_TIME row). rewrite Hs.
    fold (cell_text view_type row). fold text.
    now apply (place_slot view_type). }
  assert (Hck : In (nth k time_slots "") (m_columns m))
    by (rewrite Hcols; now apply slot_in_cols).
  fold p in Hp.
  destruct (Nat.ltb_spec (S k) (List.length time_slots)) as [Hlt|Hge].
  - set (m1 := update_cell m p (nth k time_slots "") text) in *.
    assert (Hwf1 : wf_matrix m1) by now apply wf_update_cell.
    destruct (update_cell_labels m p (nth k time_slots "") text) as [E1 E2].
    fold m1 in E1, E2.
    assert (Hne : nth (S k) time_slots "" <> nth k time_slots "").
    { intros E. pose proof time_slots_NoDup as ND.
      rewrite (NoDup_nth _ "") in ND. specialize (ND (S k) k Hlt Hk E). lia. }
    assert (Hck1 : In (nth (S k) time_slots "") (m_columns m1))
      by (rewrite E2, Hcols; now apply slot_in_cols).
    rewrite Hm'. split; [|split].
    + rewrite at_get_update_cell_other by (right; congruence).
      now apply at_get_update_cell_same.
    + intros _. rewrite at_get_update_cell_same by (try rewrite E1; assumption).
      unfold m1. rewrite at_get_update_cell_other by (right; assumption). reflexivity.
    + intros r c Hdiff.
      destruct (string_dec r p) as [->|Hr].
      * split; [reflexivity|].
        destruct (string_dec c (nth k time_slots "")) as [->|Hc]; [now left|].
        destruct (string_dec c (nth (S k) time_slots "")) as [->|Hc1]; [now right|].
        exfalso. apply Hdiff.
        rewrite at_get_update_cell_other by (right; assumption).
        unfold m1. now rewrite at_get_update_cell_other by (right; assumption).
      * exfalso. apply Hdiff.
        rewrite at_get_update_cell_other by (left; assumption).
        unfold m1. now rewrite at_get_update_cell_other by (left; assumption).
  - rewrite Hm'. split; [|split].
    + now apply at_get_update_cell_same.
    + intros Hlt. lia.
    + intros r c Hdiff.
      destruct (string_dec r p) as [->|Hr].
      * split; [reflexivity|].
        destruct (string_dec c (nth k time_slots "")) as [->|Hc]; [now left|].
        exfalso. apply Hdiff. now rewrite at_get_update_cell_other by (right; assumption).
      * exfalso. apply Hdiff. now rewrite at_get_update_cell_other by (left; assumption).
Qed.

(** The amended C2 at the last slot, 17:35:00, of a one-row matrix. *)
Lemma spillover_of_placed_entry_witness :
  at_get (fill_row "room" Sample.room_101 Sample.math_1735) "101" "17:35:00"
  = Str (cell_text "room" Sample.math_1735) /\
  (forall r c,
      at_get (fill_row "room" Sample.room_101 Sample.math_1735) r c
      <> at_get Sample.room_101 r c ->
      r = "101" /\ c = "17:35:00").
Proof.
  destruct (spillover_of_placed_entry "room" Sample.room_101 Sample.math_1735 19)
    as [H1 [_ H3]].
  - apply wf_init_matrix.
  - reflexivity.
  - simpl. now left.
  - simpl. lia.
  - reflexivity.
  - split.
    + exact H1.
    + intros r c Hd. destruct (H3 r c Hd) as [Hr [Hc|[Hlt _]]].
      * now split.
      * simpl in Hlt. lia.
Defined.

(** ** Collisions *)

Lemma at_get_init_slot (view_type : string) (rows : list string) (p s : string) :
  In p rows -> In s time_slots ->
  at_get (init_matrix (primary_col view_type) rows) p s = NaN.
Proof.
  intros Hp Hs. unfold at_get, init_matrix. cbn [m_index m_columns m_data].
  destruct (index_of_In _ _ Hp) as [i Hi]. rewrite Hi.
  assert (Hs' : In s (primary_col view_type :: time_slots)) by now right.
  destruct (index_of_In _ _ Hs') as [j Hj]. rewrite Hj.
  destruct (index_of_nth _ _ _ Hi) as [Hil _].
  destruct (index_of_nth _ _ _ Hj) as [Hjl Hjn].
  destruct j as [|j].
  - exfalso. cbn [nth] in Hjn. subst s. now apply (primary_not_slot view_type).
  - replace (nth i (map (fun p0 => Str p0 :: repeat NaN (List.length time_slots)) rows) [])
      with (Str (nth i rows "") :: repeat NaN (List.length time_slots)).
    + cbn [nth]. apply nth_repeat.
    + symmetry.
      rewrite (nth_indep _ [] (Str "" :: repeat NaN (List.length time_slots)))
        by (rewrite length_map; assumption).
      apply (map_nth (fun p0 => Str p0 :: repeat NaN (List.length time_slots))).
Qed.

Lemma merge_fold_nonempty (ws : list string) :
  ws <> [] -> fold_left merge ws NaN = Str (PyStr.join separator ws).
Proof. destruct ws as [|w t]; [congruence | intros _; apply merge_fold_NaN]. Qed.

(** The texts written by a row to the cell of its own primary value and
    start time begin with the row's text. *)
Lemma writes_own_cell (view_type : string) (idx cols : list string) (row : GroupedRow) :
  In (primary_val view_type row) idx -> In (START_TIME row) cols ->
  exists more,
    writes view_type idx cols (primary_val view_type row) (START_TIME row) [row]
    = cell_text view_type row :: more.
Proof.
  intros Hp Hs. unfold writes. cbn [flat_map]. rewrite app_nil_r.
  rewrite String.eqb_refl. apply mem_In in Hp. rewrite Hp. cbn [andb].
  unfold targets. apply mem_In in Hs. rewrite Hs. cbn [filter].
  rewrite String.eqb_refl. cbn [map]. eauto.
Qed.

(** C4: [update_cell] never overwrites: an empty cell takes the text as it
    is, a cell that holds [old] ends with [old], then the separator line,
    which is a line break, three dashes and a line break, then the text; no
    other cell changes.  After the loop over the day's entries every cell
    holds the texts written to it, merged in write order.  So when two
    entries of a day share the cell [(p, s)], for a row [p] of the matrix and
    a slot [s] of the axis, the final cell holds both texts, in write order,
    each set off from what was written before and after it by the separator
    line. *)
Theorem collision_merge (view_type : string) (rows : list string)
        (pre mid post : list GroupedRow) (e1 e2 : GroupedRow) (p s : string) :
  In p rows -> In s time_slots ->
  primary_val view_type e1 = p -> primary_val view_type e2 = p ->
  START_TIME e1 = s -> START_TIME e2 = s ->
  (forall m r c text,
      wf_matrix m -> In r (m_index m) -> In c (m_columns m) ->
      (at_get m r c = NaN -> at_get (update_cell m r c text) r c = Str text) /\
      (forall old, at_get m r c = Str old ->
                   at_get (update_cell m r c text) r c
                   = Str (old ++ String "010" "---" ++ String "010" text)) /\
      (forall r' c', r' <> r \/ c' <> c ->
                     at_get (update_cell m r c text) r' c' = at_get m r' c')) /\
  (forall old text,
      merge NaN text = Str text /\
      merge (Str old) text = Str (old ++ String "010" "---" ++ String "010" text)) /\
  (forall r c,
      at_get (fill_matrix view_type (init_matrix (primary_col view_type) rows)
                          (pre ++ e1 :: mid ++ e2 :: post)) r c
      = fold_left merge
                  (writes view_type rows (primary_col view_type :: time_slots) r c
                          (pre ++ e1 :: mid ++ e2 :: post))
                  (at_get (init_matrix (primary_col view_type) rows) r c)) /\
  exists before between after,
    at_get (fill_matrix view_type (init_matrix (primary_col view_type) rows)
                        (pre ++ e1 :: mid ++ e2 :: post)) p s
    = Str (String.concat (String "010" "---" ++ String "010" "")
             (before ++ cell_text view_type e1 :: between
                     ++ cell_text view_type e2 :: after)).
Proof.
  intros Hp Hs Hp1 Hp2 Hs1 Hs2. split; [|split; [|split]].
  - intros m r c text Hwf Hr Hc. split; [|split].
    + intros E. rewrite at_get_update_cell_same, E by assumption. reflexivity.
    + intros old E. rewrite at_get_update_cell_same, E by assumption. reflexivity.
    + intros r' c' Hne. now apply at_get_update_cell_other.
  - intros old text. split; reflexivity.
  - intros r c. rewrite at_get_fill_matrix by apply wf_init_matrix. reflexivity.
  - rewrite at_get_fill_matrix by apply wf_init_matrix.
    rewrite at_get_init_slot by assumption.
    cbn [init_matrix m_index m_columns].
    set (cols := primary_col view_type :: time_slots).
    assert (Hsc : In s cols) by now right.
    destruct (writes_own_cell view_type rows cols e1) as [x1 W1];
      [now rewrite Hp1 | now rewrite Hs1 |].
    destruct (writes_own_cell view_type rows cols e2) as [x2 W2];
      [now rewrite Hp2 | now rewrite Hs2 |].
    rewrite Hp1, Hs1 in W1. rewrite Hp2, Hs2 in W2.
    assert (HW : forall a b, writes view_type rows cols p s (a ++ b)
                             = writes view_type rows cols p s a ++ writes view_type rows cols p s b)
      by (intros; apply flat_map_app).
    assert (HW1 : forall e b, writes view_type rows cols p s (e :: b)
                              = writes view_type rows cols p s [e] ++ writes view_type rows cols p s b)
      by (intros e b; apply (HW [e] b)).
    exists (writes view_type rows cols p s pre),
           (x1 ++ writes view_type rows cols p s mid),
           (x2 ++ writes view_type rows cols p s post).
    rewrite (HW pre), (HW1 e1), (HW mid), (HW1 e2 post), W1, W2.
    rewrite merge_fold_nonempty.
    + f_equal. change (String "010" "---" ++ String "010" "")%string with separator.
      unfold PyStr.join. f_equal. cbn [app]. rewrite <- !app_assoc. reflexivity.
    + intros E. apply app_eq_nil in E. destruct E as [_ E]. discriminate E.
Qed.

(** C4 at two classes of room 101 that both start at 09:05: the cell reads,
    line by line, A, Math, JAN G1, three dashes, B, Art, JAN G2. *)
Lemma collision_merge_witness :
  at_get (fill_matrix "room" (init_matrix "ROOM" ["101"])
                      [Sample.math_0905; Sample.art_0905]) "101" "09:05:00"
  = Str (String.concat (String "010" "") ["A"; "Math"; "JAN G1"; "---"; "B"; "Art"; "JAN G2"]) /\
  exists before between after,
    at_get (fill_matrix "room" (init_matrix "ROOM" ["101"])
                        [Sample.math_0905; Sample.art_0905]) "101" "09:05:00"
    = Str (String.concat (String "010" "---" ++ String "010" "")
             (before ++ cell_text "room" Sample.math_0905 :: between
                     ++ cell_text "room" Sample.art_0905 :: after)).
Proof.
  destruct (collision_merge "room" ["101"] [] [] [] Sample.math_0905 Sample.art_0905
                            "101" "09:05:00") as [_ [_ [H2 H3]]].
  - simpl. now left.
  - unfold time_slots. simpl. tauto.
  - reflexivity.
  - reflexivity.
  - reflexivity.
  - reflexivity.
  - split; [|exact H3].
    change (primary_col "room") with "ROOM"%string in H2. cbn [app] in H2.
    rewrite (H2 "101"%string "09:05:00"%string). vm_compute. reflexivity.
Defined.

(** ** Columns of a frame *)

Section Columns.

Import Frame.

Lemma has_label_iff (c : string) (col : string * list cell) :
  has_label c col = true <-> fst col = c.
Proof. unfold has_label. apply String.eqb_eq. Qed.

Lemma filter_label_nil (c : string) (cols : list (string * list cell)) :
  filter (has_label c) cols = [] <-> PyStr.mem c (map fst cols) = false.
Proof.
  induction cols as [|col t IH]; simpl; [tauto|].
  unfold has_label at 1. rewrite (String.eqb_sym c (fst col)).
  destruct (String.eqb (fst col) c); simpl; [split; discriminate | exact IH].
Qed.

Lemma filter_label_twice (c c' : string) (cols : list (string * list cell)) :
  filter (has_label c) (filter (has_label c') cols)
  = if String.eqb c' c then filter (has_label c) cols else [].
Proof.
  destruct (String.eqb_spec c' c) as [->|Hne].
  - induction cols as [|col t IH]; [reflexivity|]. cbn [filter].
    destruct (has_label c col) eqn:H; cbn [filter]; rewrite ?H, IH; reflexivity.
  - induction cols as [|col t IH]; [reflexivity|]. cbn [filter].
    destruct (has_label c' col) eqn:H'; [|exact IH]. cbn [filter].
    apply has_label_iff in H'.
    assert (E : has_label c col = false)
      by (unfold has_label; rewrite H'; now apply String.eqb_neq).
    now rewrite E.
Qed.

Lemma filter_select (df : DataFrame) (cs : list string) (c : string) :
  NoDup cs ->
  filter (has_label c) (df_columns (select df cs))
  = if PyStr.mem c cs then filter (has_label c) (df_columns df) else [].
Proof.
  intros ND. unfold select. cbn [df_columns].
  induction ND as [|c' t Hc' ND IH]; [reflexivity|].
  cbn [flat_map]. rewrite filter_app, IH, filter_label_twice.
  unfold PyStr.mem. cbn [existsb]. fold (PyStr.mem c t).
  rewrite (String.eqb_sym c c').
  destruct (String.eqb_spec c' c) as [->|Hne]; cbn [orb].
  - apply mem_false in Hc'. rewrite Hc'. apply app_nil_r.
  - reflexivity.
Qed.

Lemma assign_index (df : DataFrame) (c : string) (v : list cell) :
  df_index (assign df c v) = df_index df.
Proof. unfold assign. now destruct (PyStr.mem c (labels df)). Qed.

Lemma filter_assign_other (df : DataFrame) (c c' : string) (v : list cell) :
  c' <> c ->
  filter (has_label c') (df_columns (assign df c v)) = filter (has_label c') (df_columns df).
Proof.
  intros Hne. unfold assign. destruct (PyStr.mem c (labels df)); cbn [df_columns].
  - induction (df_columns df) as [|col t IH]; [reflexivity|]. cbn [map filter].
    destruct (has_label c col) eqn:Hc.
    + apply has_label_iff in Hc.
      assert (E1 : has_label c' (c, v) = false)
        by (unfold has_label; cbn [fst]; now apply String.eqb_neq).
      assert (E2 : has_label c' col = false)
        by (unfold has_label; rewrite Hc; now apply String.eqb_neq).
      now rewrite E1, E2.
    + now rewrite IH.
  - rewrite filter_app. cbn [filter].
    assert (E1 : has_label c' (c, v) = false)
      by (unfold has_label; cbn [fst]; now apply String.eqb_neq).
    rewrite E1. apply app_nil_r.
Qed.

Lemma filter_assign_same (df : DataFrame) (c : string) (v : list cell) :
  filter (has_label c) (df_columns (assign df c v))
  = match filter (has_label c) (df_columns df) with
    | [] => [(c, v)]
    | l => map (fun _ => (c, v)) l
    end.
Proof.
  unfold assign.
  assert (Hself : has_label c (c, v) = true) by (unfold has_label; apply String.eqb_refl).
  destruct (PyStr.mem c (labels df)) eqn:Hm; cbn [df_columns].
  - assert (Hne : filter (has_label c) (df_columns df) <> []).
    { intros E. apply filter_label_nil in E. unfold labels in Hm. congruence. }
    assert (E : filter (has_label c)
                       (map (fun col => if has_label c col then (c, v) else col) (df_columns df))
                = map (fun _ => (c, v)) (filter (has_label c) (df_columns df))).
    { clear. assert (Hself : has_label c (c, v) = true)
        by (unfold has_label; apply String.eqb_refl).
      induction (df_columns df) as [|col t IH]; [reflexivity|]. cbn [map filter].
      destruct (has_label c col) eqn:Hc.
      - rewrite Hself. cbn [map]. now rewrite IH.
      - rewrite Hc. exact IH. }
    rewrite E. destruct (filter (has_label c) (df_columns df)); [congruence | reflexivity].
  - apply filter_label_nil in Hm. rewrite filter_app, Hm. cbn [filter app].
    now rewrite Hself.
Qed.

Lemma filter_dropna (df : DataFrame) (v : list cell) (c : string) :
  filter (has_label c) (df_columns (dropna df v))
  = map (fun col => (fst col, select_mask (map (fun x => negb (isna x)) v) (snd col)))
        (filter (has_label c) (df_columns df)).
Proof.
  unfold dropna. cbn [df_columns].
  induction (df_columns df) as [|col t IH]; [reflexivity|]. cbn [map filter].
  replace (has_label c (fst col, select_mask (map (fun x => negb (isna x)) v) (snd col)))
    with (has_label c col) by reflexivity.
  destruct (has_label c col); cbn [map]; now rewrite IH.
Qed.

Lemma column_of_filter (df : DataFrame) (c : string) (v : list cell) :
  filter (has_label c) (df_columns df) = [(c, v)] -> column df c = Ok v.
Proof. intros E. unfold column. now rewrite E. Qed.

Lemma column_Ok_filter (df : DataFrame) (c : string) (v : list cell) :
  column df c = Ok v -> filter (has_label c) (df_columns df) = [(c, v)].
Proof.
  unfold column. intros H.
  destruct (filter (has_label c) (df_columns df)) as [|col [|col2 t]] eqn:E; try discriminate.
  injection H as <-. f_equal.
  assert (Hin : In col (filter (has_label c) (df_columns df))) by (rewrite E; now left).
  apply filter_In in Hin. destruct Hin as [_ Hl]. apply has_label_iff in Hl.
  destruct col as [l w]. cbn in *. now subst.
Qed.

End Columns.

(** ** What [load_and_clean_data] returns *)

Section Cleaning.

Import Frame.

Variable to_datetime_coerce : list cell -> cell -> option N.

Lemma required_cols_NoDup : NoDup required_cols.
Proof.
  unfold required_cols.
  repeat (constructor; [simpl; intuition discriminate|]). constructor.
Qed.

Lemma text_cols_NoDup : NoDup text_cols.
Proof.
  unfold text_cols.
  repeat (constructor; [simpl; intuition discriminate|]). constructor.
Qed.

Lemma clean_text_col_spec (df df' : DataFrame) (c : string) :
  clean_text_col df c = Ok df' ->
  df_index df' = df_index df /\
  (forall c', c' <> c ->
              filter (has_label c') (df_columns df') = filter (has_label c') (df_columns df)) /\
  exists v, filter (has_label c) (df_columns df') = [(c, v)] /\ text_value df c v.
Proof.
  unfold clean_text_col.
  destruct (filter (has_label c) (df_columns df)) as [|col [|col2 t]] eqn:E;
    intros H; try discriminate; injection H as <-.
  - split; [apply assign_index|]. split; [intros; now apply filter_assign_other|].
    eexists. split.
    + rewrite filter_assign_same, E. reflexivity.
    + left. now split.
  - split; [apply assign_index|]. split; [intros; now apply filter_assign_other|].
    eexists. split.
    + rewrite filter_assign_same, E. reflexivity.
    + right. exists (snd col). split; [|reflexivity]. f_equal.
      assert (Hin : In col (filter (has_label c) (df_columns df))) by (rewrite E; now left).
      apply filter_In in Hin. destruct Hin as [_ Hl]. apply has_label_iff in Hl.
      destruct col as [l w]. cbn in *. now subst.
Qed.

Lemma clean_text_cols_spec (cs : list string) (df df' : DataFrame) :
  NoDup cs ->
  clean_text_cols df cs = Ok df' ->
  df_index df' = df_index df /\
  (forall c', ~ In c' cs ->
              filter (has_label c') (df_columns df') = filter (has_label c') (df_columns df)) /\
  (forall c, In c cs ->
             exists v, filter (has_label c) (df_columns df') = [(c, v)] /\ text_value df c v).
Proof.
  intros ND. revert df. induction ND as [|c0 t Hc0 ND IH]; intros df H.
  - injection H as <-. split; [reflexivity|]. split; [reflexivity|]. intros c [].
  - cbn [clean_text_cols] in H. unfold bind in H.
    destruct (clean_text_col df c0) as [df1|e] eqn:E1; [|discriminate].
    destruct (clean_text_col_spec _ _ _ E1) as [I1 [O1 [v1 [F1 T1]]]].
    destruct (IH _ H) as [I2 [O2 S2]].
    split; [congruence|]. split.
    + intros c' Hn. rewrite O2 by (intros Hin; apply Hn; now right).
      apply O1. intros ->. apply Hn. now left.
    + intros c [<-|Hin].
      * exists v1. split; [|assumption]. now rewrite O2.
      * destruct (S2 c Hin) as [v [Fv Tv]]. exists v. split; [assumption|].
        assert (Hne : c <> c0) by (intros ->; contradiction).
        unfold text_value in *. unfold nrows in *. rewrite I1, O1 in Tv by assumption.
        exact Tv.
Qed.

(** The stages of [clean] on a frame that has a start-time column. *)
Lemma clean_Ok_inv (merged df : DataFrame) :
  clean to_datetime_coerce merged = Ok df ->
  exists start df3 intake group,
    let df0 := relabel merged in
    let df1 := select df0 (filter (fun c => PyStr.mem c (labels df0)) required_cols) in
    let times := standardize_time to_datetime_coerce start in
    let df2 := dropna (assign df1 "START TIME" times) times in
    PyStr.mem "START TIME" (labels df0) = true /\
    column df1 "START TIME" = Ok start /\
    clean_text_cols df2 text_cols = Ok df3 /\
    column df3 "INTAKE" = Ok intake /\
    column df3 "GROUP" = Ok group /\
    df = assign df3 "INTAKE_GROUP"
                (map (fun p => str_add (str_add (fst p) (Str " ")) (snd p))
                     (combine intake group)).
Proof.
  unfold clean. cbv zeta.
  destruct (PyStr.mem "START TIME" (labels (relabel merged))) eqn:Hm; cbn [negb];
    [|discriminate].
  unfold bind.
  destruct (column _ "START TIME") as [start|] eqn:E1; [|discriminate].
  destruct (clean_text_cols _ text_cols) as [df3|] eqn:E2; [|discriminate].
  destruct (column df3 "INTAKE") as [intake|] eqn:E3; [|discriminate].
  destruct (column df3 "GROUP") as [group|] eqn:E4; [|discriminate].
  intros H. injection H as <-.
  exists start, df3, intake, group. cbv zeta. auto 10.
Qed.

Lemma existing_cols_NoDup (df : DataFrame) :
  NoDup (filter (fun c => PyStr.mem c (labels df)) required_cols).
Proof. apply NoDup_filter, required_cols_NoDup. Qed.

Lemma existing_cols_mem (df : DataFrame) (c : string) :
  In c required_cols -> PyStr.mem c (labels df) = true ->
  PyStr.mem c (filter (fun c => PyStr.mem c (labels df)) required_cols) = true.
Proof. intros Hr Hm. apply mem_In, filter_In. now split. Qed.

(** A column of the frame that reaches the text loop, for a required
    label the relabelled frame carries once. *)
Lemma filter_before_text_loop (df0 : DataFrame) (start : list cell) (c : string) (raw : list cell) :
  In c required_cols -> c <> "START TIME" ->
  column df0 c = Ok raw ->
  let df1 := select df0 (filter (fun c => PyStr.mem c (labels df0)) required_cols) in
  let times := standardize_time to_datetime_coerce start in
  filter (has_label c) (df_columns (dropna (assign df1 "START TIME" times) times))
  = [(c, select_mask (map (fun x => negb (isna x)) times) raw)].
Proof.
  intros Hr Hne Hc df1 times. apply column_Ok_filter in Hc.
  rewrite filter_dropna, filter_assign_other by assumption.
  unfold df1. rewrite filter_select by apply existing_cols_NoDup.
  rewrite existing_cols_mem; [now rewrite Hc | assumption |].
  apply Bool.not_false_iff_true. intros Hf. apply filter_label_nil in Hf.
  unfold labels in Hf. congruence.
Qed.

Lemma relabel_index (merged : DataFrame) : df_index (relabel merged) = df_index merged.
Proof.
  unfold relabel, map_labels, reconcile_day. cbn [df_index].
  now destruct (PyStr.mem "DAY" (labels merged) && PyStr.mem "DAY.1" (labels merged)).
Qed.

Lemma strftime_cell_form (t : option N) :
  strftime_cell t = NaN \/ exists secs, strftime_cell t = Str (Clock.strftime secs).
Proof. destruct t as [secs|]; [right; now exists secs | now left]. Qed.

Lemma standardize_time_form (v : list cell) :
  Forall (fun t => t = NaN \/ exists secs, t = Str (Clock.strftime secs))
         (standardize_time to_datetime_coerce v).
Proof.
  unfold standardize_time. destruct (strict_times v) as [ts|];
    apply Forall_forall; intros t Hin; apply in_map_iff in Hin;
    destruct Hin as [x [<- _]]; apply strftime_cell_form.
Qed.

Lemma select_notna (times : list cell) :
  Forall (fun t => t = NaN \/ exists secs, t = Str (Clock.strftime secs)) times ->
  Forall (fun t => exists secs, t = Str (Clock.strftime secs))
         (select_mask (map (fun x => negb (isna x)) times) times).
Proof.
  induction 1 as [|t l Ht Hl IH]; [constructor|]. cbn [map select_mask].
  destruct Ht as [->|[secs ->]]; cbn [isna negb]; [assumption|].
  constructor; [now exists secs | assumption].
Qed.

Lemma strftime_length (secs : N) : String.length (Clock.strftime secs) = 8.
Proof. reflexivity. Qed.

(** The start-time column and the row labels of the cleaned frame. *)
Lemma clean_start_times (merged df : DataFrame) :
  clean to_datetime_coerce merged = Ok df ->
  exists start,
    column (relabel merged) "START TIME" = Ok start /\
    let times := standardize_time to_datetime_coerce start in
    let keep := map (fun t => negb (isna t)) times in
    df_index df = select_mask keep (df_index merged) /\
    column df "START TIME" = Ok (select_mask keep times).
Proof.
  intros H. destruct (clean_Ok_inv _ _ H) as [start [df3 [intake [group Hinv]]]].
  cbv zeta in Hinv. destruct Hinv as [Hm [Hs [Ht [_ [_ ->]]]]].
  set (df0 := relabel merged) in *.
  set (df1 := select df0 _) in *.
  assert (Hs0 : column df0 "START TIME" = Ok start).
  { apply column_Ok_filter in Hs. apply column_of_filter.
    unfold df1 in Hs. rewrite filter_select in Hs by apply existing_cols_NoDup.
    rewrite existing_cols_mem in Hs; [assumption | simpl; tauto | assumption]. }
  exists start. split; [assumption|]. cbv zeta.
  destruct (clean_text_cols_spec _ _ _ text_cols_NoDup Ht) as [I3 [O3 _]].
  split.
  - rewrite assign_index, I3. unfold dropna. cbn [df_index].
    rewrite assign_index. unfold df1, select. cbn [df_index]. unfold df0.
    now rewrite relabel_index.
  - apply column_of_filter. rewrite filter_assign_other by discriminate.
    rewrite O3 by (unfold text_cols; simpl; intuition discriminate).
    rewrite filter_dropna, filter_assign_same.
    apply column_Ok_filter in Hs. rewrite Hs. reflexivity.
Qed.

(** A text column that the relabelled frame carries comes out as the
    cleaned cells of the rows that are kept. *)
Lemma clean_text_column (merged df : DataFrame) (c : string) (raw : list cell) :
  clean to_datetime_coerce merged = Ok df ->
  In c text_cols ->
  column (relabel merged) c = Ok raw ->
  exists start,
    column (relabel merged) "START TIME" = Ok start /\
    let keep := map (fun t => negb (isna t)) (standardize_time to_datetime_coerce start) in
    column df c = Ok (map clean_text (select_mask keep raw)).
Proof.
  intros H Hc Hraw.
  destruct (clean_start_times _ _ H) as [start [Hs0 _]].
  exists start. split; [assumption|]. cbv zeta.
  destruct (clean_Ok_inv _ _ H) as [start' [df3 [intake [group Hinv]]]].
  cbv zeta in Hinv. destruct Hinv as [Hm [Hs [Ht [_ [_ ->]]]]].
  assert (start' = start).
  { apply column_Ok_filter in Hs.
    rewrite filter_select in Hs by apply existing_cols_NoDup.
    rewrite existing_cols_mem in Hs; [| simpl; tauto | assumption].
    apply column_Ok_filter in Hs0. congruence. }
  subst start'.
  assert (Hreq : In c required_cols)
    by (unfold text_cols in Hc; unfold required_cols; simpl in *; intuition).
  assert (Hne : c <> "START TIME")
    by (unfold text_cols in Hc; simpl in Hc; intuition (subst; discriminate)).
  destruct (clean_text_cols_spec _ _ _ text_cols_NoDup Ht) as [_ [_ S3]].
  destruct (S3 c Hc) as [v [Fv Tv]].
  apply column_of_filter.
  rewrite filter_assign_other
    by (unfold text_cols in Hc; simpl in Hc; intuition (subst; discriminate)).
  rewrite Fv. f_equal. f_equal.
  pose proof (filter_before_text_loop (relabel merged) start c raw Hreq Hne Hraw) as Hf.
  cbv zeta in Hf.
  destruct Tv as [[E _]|[raw' [E ->]]]; rewrite Hf in E; [discriminate|].
  injection E as <-. reflexivity.
Qed.

(** [clean] raises the schema error exactly for a frame without a
    start-time column, and reports the frame's labels. *)
Lemma clean_schema_error (merged : DataFrame) (found : list string) :
  clean to_datetime_coerce merged = Raise (SchemaError found) <->
  ~ In "START TIME" (labels (relabel merged)) /\ found = labels (relabel merged).
Proof.
  unfold clean. cbv zeta.
  destruct (PyStr.mem "START TIME" (labels (relabel merged))) eqn:Hm; cbn [negb].
  - split.
    + unfold bind, column.
      destruct (filter (has_label "START TIME") _) as [|col [|col2 t]]; try discriminate.
      match goal with |- context [clean_text_cols ?d text_cols] => generalize d end.
      intros d. unfold text_cols. cbn [clean_text_cols]. unfold bind, clean_text_col.
      repeat match goal with
             | |- context [match filter ?f ?l with _ => _ end] =>
                 destruct (filter f l) as [|? [|? ?]]; try discriminate
             end.
    + intros [Hn _]. apply mem_In in Hm. contradiction.
  - split.
    + intros H. injection H as <-. split; [now apply mem_false | reflexivity].
    + intros [_ ->]. reflexivity.
Qed.

End Cleaning.

(** ** Orders and sorting *)


Section StringOrder.

Lemma ascii_compare_eq (a b : ascii) : Ascii.compare a b = Eq <-> a = b.
Proof.
  split; [apply Ascii.compare_eq_iff|]. intros ->. unfold Ascii.compare.
  apply N.compare_refl.
Qed.

Lemma ascii_compare_trans (a b c : ascii) :
  Ascii.compare a b = Lt -> Ascii.compare b c = Lt -> Ascii.compare a c = Lt.
Proof.
  unfold Ascii.compare. rewrite !N.compare_lt_iff. apply N.lt_trans.
Qed.

Lemma string_compare_refl (s : string) : String.compare s s = Eq.
Proof.
  induction s as [|a s IH]; simpl; [reflexivity|].
  now rewrite (proj2 (ascii_compare_eq a a) eq_refl).
Qed.

Lemma string_compare_trans (x y z : string) :
  String.compare x y = Lt -> String.compare y z = Lt -> String.compare x z = Lt.
Proof.
  revert y z. induction x as [|a x IH]; intros [|b y] [|c z]; simpl; try congruence.
  destruct (Ascii.compare a b) eqn:Hab; try discriminate.
  - apply ascii_compare_eq in Hab. subst b.
    destruct (Ascii.compare a c) eqn:Hac; try congruence. apply IH.
  - destruct (Ascii.compare b c) eqn:Hbc; try discriminate.
    + apply ascii_compare_eq in Hbc. subst c. now rewrite Hab.
    + now rewrite (ascii_compare_trans _ _ _ Hab Hbc).
Qed.

#[export] Instance string_CompareLaws : CompareLaws string.
Proof.
  split.
  - intros x y. split; [apply String.compare_eq_iff | intros ->; apply string_compare_refl].
  - intros x y. apply String.compare_antisym.
  - apply string_compare_trans.
Qed.

#[export] Instance pair_CompareLaws {A B : Type} `{CompareLaws A} `{CompareLaws B} :
  CompareLaws (A * B).
Proof.
  split.
  - intros [a b] [a' b']. unfold compare, pair_Compare. cbn [fst snd].
    destruct (compare a a') eqn:Ea.
    + apply compare_eq in Ea. subst a'. rewrite compare_eq. split; congruence.
    + split; [discriminate|]. intros E. injection E as <- <-.
      assert (compare a a = Eq) by now apply compare_eq. congruence.
    + split; [discriminate|]. intros E. injection E as <- <-.
      assert (compare a a = Eq) by now apply compare_eq. congruence.
  - intros [a b] [a' b']. unfold compare, pair_Compare. cbn [fst snd].
    rewrite (compare_antisym a a'). destruct (compare a a'); cbn [CompOpp];
      [apply compare_antisym | reflexivity | reflexivity].
  - intros [a b] [a' b'] [a'' b'']. unfold compare, pair_Compare. cbn [fst snd].
    destruct (compare a a') eqn:E1; try discriminate.
    + apply compare_eq in E1. subst a'.
      destruct (compare a a''); try congruence. apply compare_trans.
    + intros _. destruct (compare a' a'') eqn:E2; try discriminate.
      * apply compare_eq in E2. subst a''. now rewrite E1.
      * intros _. now rewrite (compare_trans _ _ _ E1 E2).
Qed.

End StringOrder.

Section Sorting.

Context {A : Type} `{CompareLaws A}.

Lemma leb_total (x y : A) : leb x y = true \/ leb y x = true.
Proof.
  unfold leb. rewrite (compare_antisym x y). destruct (compare x y); auto.
Qed.

Lemma le_cases (x y : A) : le x y <-> lt x y \/ x = y.
Proof.
  unfold le, lt, leb. destruct (compare x y) eqn:E.
  - apply compare_eq in E. intuition.
  - intuition.
  - split; [discriminate|]. intros [?| ->]; [discriminate|].
    assert (compare y y = Eq) by now apply compare_eq. congruence.
Qed.

Lemma le_trans (x y z : A) : le x y -> le y z -> le x z.
Proof.
  rewrite !le_cases. intros [Hxy| ->] [Hyz| ->]; auto.
  left. unfold lt in *. eapply compare_trans; eassumption.
Qed.

Lemma eqb_eq (x y : A) : eqb x y = true <-> x = y.
Proof.
  unfold eqb. rewrite <- compare_eq. destruct (compare x y); split; congruence.
Qed.

End Sorting.

Section InsertionSort.

Context {A : Type}.
Variable lebA : A -> A -> bool.

Lemma insert_sorted_perm (x : A) (l : list A) :
  Permutation (insert_sorted lebA x l) (x :: l).
Proof.
  induction l as [|y t IH]; cbn [insert_sorted]; [reflexivity|].
  destruct (lebA x y); [reflexivity|].
  rewrite IH. apply perm_swap.
Qed.

Lemma sorted_perm (l : list A) : Permutation (sorted lebA l) l.
Proof.
  induction l as [|x t IH]; cbn [sorted]; [reflexivity|].
  rewrite insert_sorted_perm. now constructor.
Qed.

Lemma sorted_In (l : list A) (x : A) : In x (sorted lebA l) <-> In x l.
Proof.
  split; apply Permutation_in;
    [apply sorted_perm | apply Permutation_sym, sorted_perm].
Qed.

Lemma sorted_NoDup (l : list A) : NoDup l -> NoDup (sorted lebA l).
Proof.
  apply Permutation_NoDup, Permutation_sym, sorted_perm.
Qed.

(** Sorting by [lebA] a list that is already in the order [R] leaves the
    ties of [lebA] in the order [R]: the sort is stable. *)
Variable R : A -> A -> Prop.

Hypothesis lebA_total : forall x y, lebA x y = true \/ lebA y x = true.
Hypothesis lebA_trans : forall x y z, lebA x y = true -> lebA y z = true -> lebA x z = true.

Lemma then_by_leb (x y : A) : then_by lebA R x y -> lebA x y = true.
Proof.
  intros [Hf|[Ht _]]; [|assumption]. destruct (lebA_total x y); congruence.
Qed.

Lemma insert_sorted_stable (x : A) (l : list A) :
  Forall (R x) l ->
  StronglySorted (then_by lebA R) l ->
  StronglySorted (then_by lebA R) (insert_sorted lebA x l).
Proof.
  intros HR HS. induction HS as [|y t HS IH Hy]; cbn [insert_sorted].
  - constructor; constructor.
  - inversion HR as [|? ? Rxy Rxt]; subst.
    destruct (lebA x y) eqn:Hxy.
    + constructor; [now constructor|].
      constructor; [right; now split|].
      rewrite Forall_forall in *. intros z Hz. right. split.
      * apply (lebA_trans _ _ _ Hxy). apply then_by_leb. now apply Hy.
      * now apply Rxt.
    + constructor; [now apply IH|].
      rewrite Forall_forall in *. intros z Hz.
      apply (Permutation_in _ (insert_sorted_perm x t)) in Hz.
      destruct Hz as [<-|Hz]; [now left | now apply Hy].
Qed.

Lemma sorted_stable (l : list A) :
  StronglySorted R l -> StronglySorted (then_by lebA R) (sorted lebA l).
Proof.
  induction 1 as [|x t HS IH Hx]; cbn [sorted]; [constructor|].
  apply insert_sorted_stable; [|assumption].
  rewrite Forall_forall in *. intros z Hz. apply Hx. now apply sorted_In.
Qed.

End InsertionSort.

Section Unique.

Context {A : Type}.
Variable eqbA : A -> A -> bool.
Hypothesis eqbA_eq : forall x y, eqbA x y = true <-> x = y.

Lemma unique_In (l : list A) (x : A) : In x (unique eqbA l) <-> In x l.
Proof.
  induction l as [|y t IH]; cbn [unique]; [tauto|]. cbn [In].
  rewrite filter_In, IH. split.
  - intros [->|[Hin _]]; auto.
  - intros [->|Hin]; [now left|].
    destruct (eqbA y x) eqn:E; [left; now apply eqbA_eq | right; now split].
Qed.

Lemma unique_NoDup (l : list A) : NoDup (unique eqbA l).
Proof.
  induction l as [|y t IH]; cbn [unique]; constructor.
  - rewrite filter_In. intros [_ E].
    assert (eqbA y y = true) by now apply eqbA_eq. rewrite H in E. discriminate.
  - now apply NoDup_filter.
Qed.

Lemma StronglySorted_filter (R : A -> A -> Prop) (f : A -> bool) (l : list A) :
  StronglySorted R l -> StronglySorted R (filter f l).
Proof.
  induction 1 as [|x t HS IH Hx]; cbn [filter]; [constructor|].
  destruct (f x); [|assumption]. constructor; [assumption|].
  rewrite Forall_forall in *. intros z Hz. apply filter_In in Hz. now apply Hx.
Qed.

Lemma unique_sorted (R : A -> A -> Prop) (l : list A) :
  StronglySorted R l -> StronglySorted R (unique eqbA l).
Proof.
  induction 1 as [|x t HS IH Hx]; cbn [unique]; constructor.
  - now apply StronglySorted_filter.
  - rewrite Forall_forall in *. intros z Hz. apply filter_In in Hz.
    destruct Hz as [Hz _]. apply Hx. now apply unique_In.
Qed.

Lemma sorted_NoDup_strict (R S : A -> A -> Prop) (l : list A) :
  (forall x y, R x y -> x <> y -> S x y) ->
  StronglySorted R l -> NoDup l -> StronglySorted S l.
Proof.
  intros HRS HS. induction HS as [|x t HS IH Hx]; intros ND; constructor;
    inversion ND; subst.
  - now apply IH.
  - rewrite Forall_forall in *. intros z Hz. apply HRS; [now apply Hx|].
    intros ->. contradiction.
Qed.

End Unique.

Section SortedByLeb.

Context {A : Type} `{CompareLaws A}.

Lemma insert_sorted_le (x : A) (l : list A) :
  StronglySorted le l -> StronglySorted le (insert_sorted leb x l).
Proof.
  induction 1 as [|y t HS IH Hy]; cbn [insert_sorted].
  - constructor; constructor.
  - destruct (leb x y) eqn:Hxy.
    + constructor; [now constructor|]. constructor; [assumption|].
      rewrite Forall_forall in *. intros z Hz. eapply le_trans; [exact Hxy | now apply Hy].
    + constructor; [assumption|].
      rewrite Forall_forall in *. intros z Hz.
      apply (Permutation_in _ (insert_sorted_perm leb x t)) in Hz.
      destruct Hz as [<-|Hz]; [|now apply Hy].
      destruct (leb_total x y); [congruence | assumption].
Qed.

Lemma sorted_le (l : list A) : StronglySorted le (sorted leb l).
Proof.
  induction l as [|x t IH]; cbn [sorted]; [constructor | now apply insert_sorted_le].
Qed.

(** Sorting a list without repetitions gives a strictly increasing list. *)
Lemma sorted_lt (l : list A) : NoDup l -> StronglySorted lt (sorted leb l).
Proof.
  intros ND. apply (sorted_NoDup_strict le lt).
  - intros x y Hle Hne. apply le_cases in Hle. destruct Hle; [assumption | contradiction].
  - apply sorted_le.
  - now apply sorted_NoDup.
Qed.

End SortedByLeb.

(** ** Grouping and the order of the days *)

Section Grouping.

Lemma StronglySorted_weaken {A : Type} (R S : A -> A -> Prop) (l : list A) :
  (forall x y, R x y -> S x y) -> StronglySorted R l -> StronglySorted S l.
Proof.
  intros HRS. induction 1 as [|x t HS IH Hx]; constructor; [assumption|].
  rewrite Forall_forall in *. auto.
Qed.

Lemma StronglySorted_map {A B : Type} (f : A -> B) (R : A -> A -> Prop) (S : B -> B -> Prop)
      (l : list A) :
  (forall x y, R x y -> S (f x) (f y)) -> StronglySorted R l -> StronglySorted S (map f l).
Proof.
  intros HRS. induction 1 as [|x t HS IH Hx]; cbn [map]; constructor; [assumption|].
  rewrite Forall_forall in *. intros z Hz. apply in_map_iff in Hz.
  destruct Hz as [y [<- Hy]]. auto.
Qed.

(** The rows that [apply_groups] returns carry the keys it was given, each
    with the joined values of its own group. *)
Lemma apply_groups_spec (ks : list group_key) (kv : list (group_key * cell))
      (rows : list GroupedRow) :
  apply_groups ks kv = Ok rows ->
  Forall2 (fun k row =>
             key_of_row row = k /\
             join_unique (map snd (filter (fun p => eqb (fst p) k) kv))
             = Ok (INTAKE_GROUP row))
          ks rows.
Proof.
  revert rows. induction ks as [|k t IH]; intros rows H.
  - injection H as <-. constructor.
  - cbn [apply_groups] in H. unfold bind in H.
    destruct (join_unique _) as [ig|] eqn:Ej; [|discriminate].
    destruct (apply_groups t kv) as [rest|]; [|discriminate].
    destruct k as [d [s [su [te ro]]]]. injection H as <-.
    constructor; [|now apply IH]. split; [reflexivity | exact Ej].
Qed.

Lemma apply_groups_keys (ks : list group_key) (kv : list (group_key * cell))
      (rows : list GroupedRow) :
  apply_groups ks kv = Ok rows -> map key_of_row rows = ks.
Proof.
  intros H. apply apply_groups_spec in H.
  induction H as [|k row ks' rows' [Hk _] _ IH]; cbn [map]; congruence.
Qed.

Lemma groupby_keys (recs : list ClassRecord) (grouped : list GroupedRow) :
  groupby_rows recs = Ok grouped ->
  map key_of_row grouped = sorted leb (unique eqb (map fst (keyed recs))).
Proof. apply apply_groups_keys. Qed.

(** The rows of [df_grouped] are in strictly ascending order of their
    keys. *)
Lemma groupby_sorted (recs : list ClassRecord) (grouped : list GroupedRow) :
  groupby_rows recs = Ok grouped -> StronglySorted lt (map key_of_row grouped).
Proof.
  intros H. rewrite (groupby_keys _ _ H).
  apply sorted_lt, unique_NoDup. apply eqb_eq.
Qed.

Lemma key_lt_day (k k' : group_key) : lt k k' -> le (fst k) (fst k').
Proof.
  unfold lt, le, leb. unfold compare at 1. unfold pair_Compare.
  destruct (compare (fst k) (fst k')); congruence.
Qed.

Lemma groupby_days_sorted (recs : list ClassRecord) (grouped : list GroupedRow) :
  groupby_rows recs = Ok grouped -> StronglySorted le (map DAY grouped).
Proof.
  intros H. apply groupby_sorted in H.
  replace (map DAY grouped) with (map fst (map key_of_row grouped))
    by (rewrite map_map; reflexivity).
  revert H. apply StronglySorted_map. apply key_lt_day.
Qed.

Lemma rank_then_by (a b : string) :
  then_by (fun x y => day_rank x <=? day_rank y) lt a b -> day_before a b.
Proof.
  unfold then_by, day_before, lt.
  intros [Hf|[Ht Hl]].
  - left. apply Nat.leb_gt in Hf. exact Hf.
  - apply Nat.leb_le in Ht. apply Nat.lt_eq_cases in Ht. destruct Ht; [now left | now right].
Qed.

(** Line 128 on the grouped rows: the days come out by rank, and by label
    among the days of one rank. *)
Lemma unique_days_sorted (recs : list ClassRecord) (grouped : list GroupedRow) :
  groupby_rows recs = Ok grouped -> StronglySorted day_before (unique_days grouped).
Proof.
  intros H. unfold unique_days.
  apply StronglySorted_weaken with (1 := rank_then_by).
  apply sorted_stable.
  - intros x y. destruct (Nat.le_ge_cases (day_rank x) (day_rank y));
      [left | right]; now apply Nat.leb_le.
  - intros x y z Hxy Hyz. apply Nat.leb_le in Hxy, Hyz. apply Nat.leb_le. lia.
  - apply (sorted_NoDup_strict le lt).
    + intros x y Hle Hne. apply le_cases in Hle. destruct Hle; [assumption | contradiction].
    + apply unique_sorted; [apply String.eqb_eq | now apply groupby_days_sorted with recs].
    + apply unique_NoDup, String.eqb_eq.
Qed.

Lemma unique_days_NoDup (grouped : list GroupedRow) : NoDup (unique_days grouped).
Proof. apply sorted_NoDup, unique_NoDup, String.eqb_eq. Qed.

Lemma unique_days_In (grouped : list GroupedRow) (d : string) :
  In d (unique_days grouped) <-> In d (map DAY grouped).
Proof.
  unfold unique_days. rewrite sorted_In. apply unique_In, String.eqb_eq.
Qed.

Lemma day_sheet_day (h v : string) (grouped : list GroupedRow) (d : string) (s : Sheet) :
  day_sheet h v grouped d = Some s -> sheet_day s = d.
Proof.
  unfold day_sheet. destruct (filter _ grouped); [discriminate|].
  destruct (unique_primary v _); [discriminate|]. intros E. injection E as <-. reflexivity.
Qed.

Lemma sheets_of_days (h v : string) (grouped : list GroupedRow) :
  map sheet_day (sheets_of h v grouped)
  = filter (fun d => match day_sheet h v grouped d with Some _ => true | None => false end)
           (unique_days grouped).
Proof.
  unfold sheets_of. induction (unique_days grouped) as [|d t IH]; [reflexivity|].
  cbn [flat_map filter]. rewrite map_app, IH.
  destruct (day_sheet h v grouped d) as [s|] eqn:E; [|reflexivity].
  cbn [map app]. now rewrite (day_sheet_day _ _ _ _ _ E).
Qed.

Lemma sheets_of_In (h v : string) (grouped : list GroupedRow) (s : Sheet) :
  In s (sheets_of h v grouped) <->
  In (sheet_day s) (unique_days grouped) /\ day_sheet h v grouped (sheet_day s) = Some s.
Proof.
  unfold sheets_of. rewrite in_flat_map. split.
  - intros [d [Hd Hs]]. destruct (day_sheet h v grouped d) as [s'|] eqn:E; [|destruct Hs].
    destruct Hs as [<-|[]]. rewrite (day_sheet_day _ _ _ _ _ E). now split.
  - intros [Hd E]. exists (sheet_day s). split; [assumption|]. rewrite E. now left.
Qed.

Lemma generate_inv (timestamp : string) (df : DataFrame) (v : string) (sheets : list Sheet) :
  generate_schedule_excel timestamp df v = Ok sheets ->
  exists recs grouped,
    records df = Ok recs /\ groupby_rows recs = Ok grouped /\
    sheets = sheets_of ("File Generated on: " ++ timestamp)%string v grouped.
Proof.
  unfold generate_schedule_excel, df_grouped, bind.
  destruct (records df) as [recs|]; [|discriminate].
  destruct (groupby_rows recs) as [grouped|] eqn:E; [|discriminate].
  intros H. injection H as <-. now exists recs, grouped.
Qed.

(** The sheets come out by rank of their day, and by label among the days
    of one rank; no day has two sheets. *)
Lemma generate_days_sorted (timestamp : string) (df : DataFrame) (v : string)
      (sheets : list Sheet) :
  generate_schedule_excel timestamp df v = Ok sheets ->
  StronglySorted day_before (map sheet_day sheets) /\ NoDup (map sheet_day sheets).
Proof.
  intros H. destruct (generate_inv _ _ _ _ H) as [recs [grouped [_ [Hg ->]]]].
  rewrite sheets_of_days. split.
  - apply (StronglySorted_filter (A := string)). now apply unique_days_sorted with recs.
  - apply NoDup_filter, unique_days_NoDup.
Qed.

End Grouping.

(** ** Start times after normalisation *)

Lemma load_inv (to_datetime_coerce : list cell -> cell -> option N)
      (all_sheets : list DataFrame) (df : DataFrame) :
  load_and_clean_data to_datetime_coerce all_sheets = Ok df ->
  exists merged, Frame.concat all_sheets = Ok merged /\ clean to_datetime_coerce merged = Ok df.
Proof.
  unfold load_and_clean_data, bind. destruct (Frame.concat all_sheets) as [merged|];
    [|discriminate]. intros H. now exists merged.
Qed.

(** C3, as stated: a class that starts at 08:00:00 survives normalisation
    with that start time, which is no slot of the axis. *)
Lemma off_axis_start_survives :
  exists df,
    load_and_clean_data Sample.reads_nothing [Sample.off_axis] = Ok df /\
    Frame.column df "START TIME" = Ok [Str "08:00:00"] /\
    ~ In "08:00:00" time_slots.
Proof.
  eexists. split; [vm_compute; reflexivity|]. split; [reflexivity|].
  unfold time_slots. simpl. intuition discriminate.
Qed.

(** C3 (amended): the rows that survive normalisation are the rows whose
    start time could be read, and the start time of each is a text
    [HH:MM:SS] of eight characters.  Whether it is a slot of the axis is not
    looked at before placement, where an entry that starts off the axis is
    left out. *)
Theorem surviving_start_times (to_datetime_coerce : list cell -> cell -> option N)
        (all_sheets : list DataFrame) (df : DataFrame) :
  load_and_clean_data to_datetime_coerce all_sheets = Ok df ->
  (exists merged start,
      Frame.concat all_sheets = Ok merged /\
      Frame.column (relabel merged) "START TIME" = Ok start /\
      let times := standardize_time to_datetime_coerce start in
      let keep := map (fun t => negb (isna t)) times in
      df_index df = select_mask keep (df_index merged) /\
      Frame.column df "START TIME" = Ok (select_mask keep times) /\
      Forall (fun t => exists secs, t = Str (Clock.strftime secs) /\
                                    String.length (Clock.strftime secs) = 8)
             (select_mask keep times)) /\
  (forall m p s text, ~ In s (m_columns m) -> place m p s text = m).
Proof.
  intros H. split.
  - destruct (load_inv _ _ _ H) as [merged [Hc Hcl]].
    destruct (clean_start_times _ _ _ Hcl) as [start [Hs Hrest]].
    cbv zeta in Hrest. destruct Hrest as [Hi Ht].
    exists merged, start. cbv zeta. repeat (split; [assumption|]).
    pose proof (select_notna _ (standardize_time_form to_datetime_coerce start)) as HF.
    rewrite Forall_forall in *. intros t Hin. destruct (HF t Hin) as [secs ->].
    exists secs. split; [reflexivity | apply strftime_length].
  - intros m p s text Hn. unfold place. apply mem_false in Hn. now rewrite Hn.
Qed.

(** The amended C3 on the two rows of the end-to-end example. *)
Lemma surviving_start_times_witness :
  load_and_clean_data Sample.reads_nothing [Sample.two_groups "START TIME"]
  = Ok Sample.two_groups_clean /\
  exists merged start,
    Frame.concat [Sample.two_groups "START TIME"] = Ok merged /\
    Frame.column (relabel merged) "START TIME" = Ok start /\
    let times := standardize_time Sample.reads_nothing start in
    let keep := map (fun t => negb (isna t)) times in
    df_index Sample.two_groups_clean = select_mask keep (df_index merged) /\
    Frame.column Sample.two_groups_clean "START TIME" = Ok (select_mask keep times) /\
    Forall (fun t => exists secs, t = Str (Clock.strftime secs) /\
                                  String.length (Clock.strftime secs) = 8)
           (select_mask keep times).
Proof.
  split.
  - vm_compute. reflexivity.
  - apply (surviving_start_times Sample.reads_nothing [Sample.two_groups "START TIME"]
                                 Sample.two_groups_clean).
    vm_compute. reflexivity.
Defined.

(** ** The schema check and the absent columns *)

(** Normalisation raises the schema error exactly when the merged frame has
    no start-time label after relabelling, and the error lists the labels
    of the relabelled frame. *)
Lemma schema_error_iff (to_datetime_coerce : list cell -> cell -> option N)
      (all_sheets : list DataFrame) (merged : DataFrame) (found : list string) :
  Frame.concat all_sheets = Ok merged ->
  (load_and_clean_data to_datetime_coerce all_sheets = Raise (SchemaError found) <->
   ~ In "START TIME" (labels (relabel merged)) /\ found = labels (relabel merged)).
Proof.
  intros Hc. unfold load_and_clean_data. rewrite Hc. cbn [bind]. apply clean_schema_error.
Qed.

Lemma schema_error_subject_teacher (to_datetime_coerce : list cell -> cell -> option N) :
  load_and_clean_data to_datetime_coerce [Sample.subject_teacher_only]
  = Raise (SchemaError ["SUBJECT"; "TEACHER"]).
Proof. reflexivity. Qed.

(** C6, at the failing inputs.  A sheet with the columns DAY, START TIME and
    TEACHER normalises with empty text in the absent columns, and the
    teacher view shows the class.  Under a blank first row the absent
    columns of the same class hold missing values instead of empty text, the
    class is lost in the grouping and no matrix comes out.  A sheet with a
    start-time column only normalises without any DAY column, and the builder
    raises on it. *)
Theorem absent_columns_not_empty_text (to_datetime_coerce : list cell -> cell -> option N)
        (timestamp : string) :
  (load_and_clean_data to_datetime_coerce [Sample.teacher_only]
   = Ok (mkDF [0] [("DAY", [Str "Mon"]); ("START TIME", [Str "08:05:00"]);
                   ("TEACHER", [Str "A"]); ("ROOM", [Str ""]); ("GROUP", [Str ""]);
                   ("SUBJECT", [Str ""]); ("INTAKE", [Str ""]); ("INTAKE_GROUP", [Str " "])]) /\
   pipeline to_datetime_coerce timestamp [Sample.teacher_only] "teacher"
   = Ok [("Mon", ("TEACHER" :: time_slots,
                  [Str "A" :: Str Sample.empty_fields_text :: Str Sample.empty_fields_text
                           :: repeat NaN 18]))]) /\
  (load_and_clean_data to_datetime_coerce [Sample.teacher_only_blank_row_first]
   = Ok (mkDF [1] [("DAY", [Str "Mon"]); ("START TIME", [Str "08:05:00"]);
                   ("TEACHER", [Str "A"]); ("ROOM", [NaN]); ("GROUP", [NaN]);
                   ("SUBJECT", [NaN]); ("INTAKE", [NaN]); ("INTAKE_GROUP", [NaN])]) /\
   pipeline to_datetime_coerce timestamp [Sample.teacher_only_blank_row_first] "teacher"
   = Ok []) /\
  (load_and_clean_data to_datetime_coerce [Sample.start_time_only]
   = Ok (mkDF [0] [("START TIME", [Str "08:05:00"]); ("ROOM", [Str ""]); ("GROUP", [Str ""]);
                   ("TEACHER", [Str ""]); ("SUBJECT", [Str ""]); ("INTAKE", [Str ""]);
                   ("INTAKE_GROUP", [Str " "])]) /\
   pipeline to_datetime_coerce timestamp [Sample.start_time_only] "room"
   = Raise (KeyError "DAY")).
Proof. repeat split; vm_compute; reflexivity. Qed.

(** ** Missing text *)

(** C9: a text column that the input carries comes out as the trimmed text
    of the cells of the surviving rows, where a missing cell gives the text
    [nan] and not the empty text.  On the sample, the blank intake and group
    make the intake group [nan nan], which the cell of room 101 shows as it
    is, and the blank room becomes the primary value [nan], which is not a
    valid row label: the matrix has no row for it. *)
Theorem missing_text_becomes_nan (to_datetime_coerce : list cell -> cell -> option N)
        (all_sheets : list DataFrame) (merged df : DataFrame) (c : string) (raw : list cell) :
  Frame.concat all_sheets = Ok merged ->
  load_and_clean_data to_datetime_coerce all_sheets = Ok df ->
  In c text_cols ->
  Frame.column (relabel merged) c = Ok raw ->
  (exists start,
      Frame.column (relabel merged) "START TIME" = Ok start /\
      let keep := map (fun t => negb (isna t)) (standardize_time to_datetime_coerce start) in
      Frame.column df c = Ok (map clean_text (select_mask keep raw))) /\
  clean_text NaN = Str "nan" /\
  valid_primary "nan" = false /\
  (forall timestamp,
      (exists df',
          load_and_clean_data to_datetime_coerce [Sample.blank_cells] = Ok df' /\
          Frame.column df' "ROOM" = Ok [Str "101"; Str "nan"] /\
          Frame.column df' "INTAKE_GROUP" = Ok [Str "nan nan"; Str "JAN G1"]) /\
      pipeline to_datetime_coerce timestamp [Sample.blank_cells] "room"
      = Ok [("Mon", ("ROOM" :: time_slots,
                     [Str "101" :: Str Sample.nan_nan_text :: Str Sample.nan_nan_text
                                :: repeat NaN 18]))]).
Proof.
  intros Hc H Hin Hraw. split; [|split; [|split]]; try reflexivity.
  - unfold load_and_clean_data in H. rewrite Hc in H. cbn [bind] in H.
    now apply clean_text_column.
  - intros timestamp. split; [|vm_compute; reflexivity].
    eexists. split; [vm_compute; reflexivity|]. split; reflexivity.
Qed.

(** C9 on the room column of the sample with the blank cells. *)
Lemma missing_text_becomes_nan_witness :
  exists start,
    Frame.column (relabel (Sample.blank_cells)) "START TIME" = Ok start /\
    let keep := map (fun t => negb (isna t)) (standardize_time Sample.reads_nothing start) in
    Frame.column
      (mkDF [0; 1]
            [("DAY", [Str "Mon"; Str "Mon"]);
             ("START TIME", [Str "08:05:00"; Str "09:05:00"]);
             ("SUBJECT", [Str "Math"; Str "Art"]);
             ("TEACHER", [Str "A"; Str "B"]);
             ("ROOM", [Str "101"; Str "nan"]);
             ("GROUP", [Str "nan"; Str "G1"]);
             ("INTAKE", [Str "nan"; Str "JAN"]);
             ("INTAKE_GROUP", [Str "nan nan"; Str "JAN G1"])])
      "ROOM"
    = Ok (map clean_text (select_mask keep [Str "101"; NaN])).
Proof.
  apply (missing_text_becomes_nan Sample.reads_nothing [Sample.blank_cells]
                                  Sample.blank_cells _ "ROOM" [Str "101"; NaN]).
  - reflexivity.
  - vm_compute. reflexivity.
  - simpl. tauto.
  - reflexivity.
Defined.

(** ** The order of the days *)

Lemma day_rank_table_spec (name : string) (r : nat) :
  In (name, r) day_rank_table -> day_rank name = r /\ r <= 6.
Proof.
  unfold day_rank_table. cbn [In].
  intros H. repeat (destruct H as [H|H]; [injection H as <- <-; split; [reflexivity | lia]|]).
  destruct H.
Qed.

Lemma day_rank_unknown (d : string) :
  ~ In (PyStr.upper (PyStr.strip d)) (map fst day_rank_table) -> day_rank d = 99.
Proof.
  unfold day_rank. generalize (PyStr.upper (PyStr.strip d)). intros k Hn.
  destruct (find (fun p => String.eqb (fst p) k) day_rank_table) as [p|] eqn:E; [|reflexivity].
  exfalso. apply find_some in E. destruct E as [Hin Heq]. apply String.eqb_eq in Heq.
  apply Hn. rewrite <- Heq. now apply in_map.
Qed.

(** C5, as stated: the labels [Zed] and [Abc] match no weekday; [Zed] comes
    first in the input, and [Abc] comes first in the output. *)
Lemma unknown_days_not_in_input_order :
  day_rank "Zed" = 99 /\ day_rank "Abc" = 99 /\
  pipeline Sample.reads_nothing "" [Sample.one_class_per_day ["Zed"; "Abc"]] "room"
  = Ok [("Abc", Sample.one_class_matrix); ("Zed", Sample.one_class_matrix)].
Proof. repeat split; vm_compute; reflexivity. Qed.

Lemma day_rank_of_name (name : string) (r : nat) (d pre post : string) :
  In (name, r) day_rank_table ->
  PyStr.upper d = name -> PyStr.lstrip pre = EmptyString -> PyStr.lstrip post = EmptyString ->
  day_rank (pre ++ d ++ post) = r.
Proof.
  intros Hin Hup Hpre Hpost. unfold day_rank.
  rewrite strip_padded by assumption. rewrite <- strip_upper, Hup.
  unfold day_rank_table in Hin. cbn [In] in Hin.
  repeat (destruct Hin as [Hin|Hin]; [injection Hin as <- <-; reflexivity|]).
  destruct Hin.
Qed.

(** C5 (amended): the sheets come out in ascending weekday rank, and among
    labels of one rank in ascending order of the label text, which is the
    order the grouping left them in.  The rank is 0 for Monday up to 6 for
    Sunday, for the abbreviated and the full names, whatever the case of the
    label and the blanks around it; a label that matches no weekday has rank
    99 and so comes after every weekday.  The days FRI, Monday, wed come out
    as Monday, wed, FRI. *)
Theorem days_by_rank_then_label (timestamp : string) (df : DataFrame) (view_type : string)
        (sheets : list Sheet) :
  generate_schedule_excel timestamp df view_type = Ok sheets ->
  StronglySorted
    (fun a b => day_rank a < day_rank b \/
                (day_rank a = day_rank b /\ String.compare a b = Lt))
    (map sheet_day sheets) /\
  (forall name r d pre post,
      In (name, r)
         [("MON", 0); ("MONDAY", 0); ("TUE", 1); ("TUESDAY", 1);
          ("WED", 2); ("WEDNESDAY", 2); ("THU", 3); ("THURSDAY", 3);
          ("FRI", 4); ("FRIDAY", 4); ("SAT", 5); ("SATURDAY", 5);
          ("SUN", 6); ("SUNDAY", 6)] ->
      PyStr.upper d = name ->
      PyStr.lstrip pre = EmptyString -> PyStr.lstrip post = EmptyString ->
      day_rank (pre ++ d ++ post) = r) /\
  (forall d,
      ~ In (PyStr.upper (PyStr.strip d))
           ["MON"; "MONDAY"; "TUE"; "TUESDAY"; "WED"; "WEDNESDAY"; "THU"; "THURSDAY";
            "FRI"; "FRIDAY"; "SAT"; "SATURDAY"; "SUN"; "SUNDAY"] ->
      day_rank d = 99) /\
  (forall to_datetime_coerce,
      pipeline to_datetime_coerce timestamp
               [Sample.one_class_per_day ["FRI"; "Monday"; "wed"]] "room"
      = Ok [("Monday", Sample.one_class_matrix); ("wed", Sample.one_class_matrix);
            ("FRI", Sample.one_class_matrix)]).
Proof.
  intros H. split; [|split; [|split]].
  - apply generate_days_sorted in H. exact (proj1 H).
  - intros name r d pre post Hin. now apply day_rank_of_name.
  - apply day_rank_unknown.
  - intros f. vm_compute. reflexivity.
Qed.

(** The amended C5 on the classes of the days FRI, Monday and wed, and on
    the label [tue] between blanks. *)
Lemma days_by_rank_then_label_witness :
  StronglySorted
    (fun a b => day_rank a < day_rank b \/
                (day_rank a = day_rank b /\ String.compare a b = Lt))
    ["Monday"; "wed"; "FRI"] /\
  day_rank (" " ++ "tue" ++ "  ") = 1.
Proof.
  destruct (days_by_rank_then_label
              "now" (Sample.cleaned [Sample.one_class_per_day ["FRI"; "Monday"; "wed"]]) "room"
              (sheets_of "File Generated on: now" "room"
                         (map Sample.one_class_entry ["FRI"; "Monday"; "wed"])))
    as [H1 [H2 _]].
  - vm_compute. reflexivity.
  - split; [exact H1|].
    apply (H2 "TUE"%string 1 "tue"%string " "%string "  "%string);
      [simpl; tauto | reflexivity | reflexivity | reflexivity].
Defined.

(** ** The shape of a day matrix *)

Section Shape.

(** The first cell of every row. *)
Lemma first_cells_at_set (m : Matrix) (r c : string) (v : cell) :
  PyStr.index_of c (m_columns m) <> Some 0 ->
  map (fun row => nth 0 row NaN) (m_data (at_set m r c v))
  = map (fun row => nth 0 row NaN) (m_data m).
Proof.
  intros Hc. unfold at_set.
  destruct (PyStr.index_of r (m_index m)) as [i|]; [|reflexivity].
  destruct (PyStr.index_of c (m_columns m)) as [[|j]|]; [congruence | | reflexivity].
  cbn [m_data]. generalize (m_data m). clear. intros data. revert i.
  induction data as [|row t IH]; intros [|i]; cbn [update_nth map]; try reflexivity.
  - f_equal. now destruct row.
  - f_equal. apply IH.
Qed.

Lemma first_cells_update_cell (m : Matrix) (r c text : string) :
  PyStr.index_of c (m_columns m) <> Some 0 ->
  map (fun row => nth 0 row NaN) (m_data (update_cell m r c text))
  = map (fun row => nth 0 row NaN) (m_data m).
Proof. rewrite update_cell_merge. apply first_cells_at_set. Qed.

Variable view_type : string.

Lemma first_cells_place (m : Matrix) (p s text : string) :
  m_columns m = primary_col view_type :: time_slots ->
  s <> primary_col view_type ->
  map (fun row => nth 0 row NaN) (m_data (place m p s text))
  = map (fun row => nth 0 row NaN) (m_data m).
Proof.
  intros Hc Hs. unfold place. destruct (PyStr.mem s (m_columns m)); [|reflexivity].
  assert (H0 : PyStr.index_of s (m_columns m) <> Some 0).
  { intros E. apply index_of_nth in E. destruct E as [_ E]. rewrite Hc in E.
    cbn [nth] in E. congruence. }
  destruct (PyStr.index_of s (m_columns m)) as [i|] eqn:Ei;
    [|apply first_cells_update_cell; now rewrite Ei].
  destruct (Nat.ltb_spec (i + 1) (List.length (m_columns m))) as [Hlt|];
    [|apply first_cells_update_cell; now rewrite Ei].
  rewrite first_cells_update_cell; [apply first_cells_update_cell; now rewrite Ei|].
  destruct (update_cell_labels m p s text) as [_ ->].
  intros E. apply index_of_nth in E. destruct E as [_ E].
  pose proof (matrix_cols_NoDup view_type) as ND. rewrite <- Hc in ND.
  rewrite (NoDup_nth _ "") in ND.
  assert (i + 1 = 0); [|lia].
  apply ND; [assumption | rewrite Hc; cbn [List.length]; lia | now symmetry].
Qed.

Lemma first_cells_fill_matrix (rows : list GroupedRow) (m : Matrix) :
  wf_matrix m ->
  m_columns m = primary_col view_type :: time_slots ->
  Forall (fun row => START_TIME row <> primary_col view_type) rows ->
  map (fun row => nth 0 row NaN) (m_data (fill_matrix view_type m rows))
  = map (fun row => nth 0 row NaN) (m_data m).
Proof.
  unfold fill_matrix. intros Hwf Hc HF. revert m Hwf Hc.
  induction HF as [|row t Hrow HF IH]; intros m Hwf Hc; [reflexivity|].
  cbn [fold_left]. destruct (fill_row_inv view_type m row Hwf) as [H1 [_ H3]].
  rewrite IH by (try assumption; congruence).
  unfold fill_row. destruct (PyStr.mem _ (m_index m)); cbn [negb]; [|reflexivity].
  now apply first_cells_place.
Qed.

Lemma first_cells_init (rows : list string) :
  map (fun row => nth 0 row NaN) (m_data (init_matrix (primary_col view_type) rows))
  = map Str rows.
Proof. unfold init_matrix. cbn [m_data]. rewrite map_map. reflexivity. Qed.

(** The rows of line 144: strictly ascending, and exactly the valid
    primary values of the day's entries. *)
Lemma unique_primary_spec (day_data : list GroupedRow) :
  StronglySorted lt (unique_primary view_type day_data) /\
  forall x, In x (unique_primary view_type day_data) <->
            (exists g, In g day_data /\ primary_val view_type g = x) /\ x <> "" /\ x <> "nan".
Proof.
  unfold unique_primary. split.
  - apply sorted_lt, NoDup_filter, unique_NoDup, String.eqb_eq.
  - intros x. rewrite sorted_In, filter_In, unique_In by apply String.eqb_eq.
    rewrite in_map_iff. unfold valid_primary.
    rewrite Bool.andb_true_iff, !Bool.negb_true_iff, !String.eqb_neq.
    unfold primary_val.
    split; intros [[g [A B]] [C D]]; (split; [exists g; now split | now split]).
Qed.

End Shape.

Section Records.

(** The start time of a record is a cell of the start-time column. *)
Lemma records_start (df : DataFrame) (recs : list ClassRecord) :
  records df = Ok recs ->
  exists start, Frame.column df "START TIME" = Ok start /\
                forall r, In r recs -> In (rec_start_time r) start.
Proof.
  unfold records, bind.
  destruct (Frame.column df "DAY") as [day|]; [|discriminate].
  destruct (Frame.column df "START TIME") as [start|]; [|discriminate].
  destruct (Frame.column df "SUBJECT") as [subject|]; [|discriminate].
  destruct (Frame.column df "TEACHER") as [teacher|]; [|discriminate].
  destruct (Frame.column df "ROOM") as [room|]; [|discriminate].
  destruct (Frame.column df "INTAKE_GROUP") as [ig|]; [|discriminate].
  intros H. injection H as <-. exists start. split; [reflexivity|].
  intros r Hr. apply in_map_iff in Hr.
  destruct Hr as [[d [s [su [t [ro g]]]]] [<- Hin]]. cbn [rec_start_time].
  apply in_combine_r, in_combine_l in Hin. exact Hin.
Qed.

Lemma keyed_In (recs : list ClassRecord) (k : group_key) :
  In k (map fst (keyed recs)) -> exists r, In r recs /\ key_of r = Some k.
Proof.
  unfold keyed. rewrite in_map_iff. intros [[k' c] [E Hin]]. cbn [fst] in E. subst k'.
  apply in_flat_map in Hin. destruct Hin as [r [Hr Hin]]. exists r. split; [assumption|].
  destruct (key_of r) as [k'|]; [|destruct Hin]. destruct Hin as [E|[]]. congruence.
Qed.

(** The start time of an occupancy entry is the start time of a record. *)
Lemma grouped_start (recs : list ClassRecord) (grouped : list GroupedRow) (g : GroupedRow) :
  groupby_rows recs = Ok grouped -> In g grouped ->
  exists r, In r recs /\ rec_start_time r = Str (START_TIME g).
Proof.
  intros H Hg. apply groupby_keys in H.
  assert (Hk : In (key_of_row g) (map key_of_row grouped)) by now apply in_map.
  rewrite H in Hk. apply sorted_In in Hk. apply unique_In in Hk; [|apply eqb_eq].
  apply keyed_In in Hk. destruct Hk as [r [Hr Hkey]]. exists r. split; [assumption|].
  unfold key_of in Hkey.
  destruct (rec_day r), (rec_start_time r), (rec_subject r), (rec_teacher r), (rec_room r);
    try discriminate.
  injection Hkey as E. unfold key_of_row in E. congruence.
Qed.

Lemma strftime_not_primary (secs : N) (view_type : string) :
  Clock.strftime secs <> primary_col view_type.
Proof.
  intros E. apply (f_equal String.length) in E. rewrite strftime_length in E.
  destruct (primary_col_cases view_type) as [H|H]; rewrite H in E; discriminate.
Qed.

End Records.

Section DayMatrices.

Variable to_datetime_coerce : list cell -> cell -> option N.

(** After normalisation every occupancy entry starts at a text
    [HH:MM:SS]. *)
Lemma grouped_start_is_hms (all_sheets : list DataFrame) (df : DataFrame)
      (recs : list ClassRecord) (grouped : list GroupedRow) (g : GroupedRow) :
  load_and_clean_data to_datetime_coerce all_sheets = Ok df ->
  records df = Ok recs -> groupby_rows recs = Ok grouped -> In g grouped ->
  is_hms (START_TIME g).
Proof.
  intros Hl Hr Hg Hin.
  destruct (grouped_start _ _ _ Hg Hin) as [r [Hrin Hst]].
  destruct (records_start _ _ Hr) as [start [Hcol Hall]].
  specialize (Hall r Hrin). rewrite Hst in Hall.
  destruct (load_inv _ _ _ Hl) as [merged [_ Hcl]].
  destruct (clean_start_times _ _ _ Hcl) as [start0 [_ Hrest]].
  cbv zeta in Hrest. destruct Hrest as [_ Hcol'].
  rewrite Hcol in Hcol'. injection Hcol' as ->.
  pose proof (select_notna _ (standardize_time_form to_datetime_coerce start0)) as HF.
  rewrite Forall_forall in HF. destruct (HF _ Hall) as [secs E].
  exists secs. congruence.
Qed.

(** C7: every day matrix that comes out has the primary column followed
    by the whole slot axis, so one column more than the axis has slots, in
    every row; its row labels are the valid primary values (neither empty
    nor [nan]) of the day's occupancy entries, without repetition and in
    ascending order; a day all of whose primary values are empty or [nan]
    has no matrix. *)
Theorem day_matrix_shape (timestamp : string) (all_sheets : list DataFrame)
        (view_type : string) (out : list (string * DayMatrix)) (d : string) (m : DayMatrix) :
  pipeline to_datetime_coerce timestamp all_sheets view_type = Ok out ->
  In (d, m) out ->
  fst m = primary_col view_type :: time_slots /\
  List.length (fst m) = List.length time_slots + 1 /\
  Forall (fun row => List.length row = List.length time_slots + 1) (snd m) /\
  exists df grouped labels,
    load_and_clean_data to_datetime_coerce all_sheets = Ok df /\
    df_grouped df = Ok grouped /\
    row_labels m = map Str labels /\
    StronglySorted lt labels /\
    labels <> [] /\
    (forall x, In x labels <->
               (exists g, In g grouped /\ DAY g = d /\ primary_val view_type g = x) /\
               x <> "" /\ x <> "nan") /\
    (forall d',
        (forall g, In g grouped -> DAY g = d' ->
                   primary_val view_type g = "" \/ primary_val view_type g = "nan") ->
        ~ In d' (days_of out)).
Proof.
  intros H Hin. unfold pipeline, bind in H.
  destruct (load_and_clean_data to_datetime_coerce all_sheets) as [df|] eqn:Hl; [|discriminate].
  destruct (generate_schedule_excel timestamp df view_type) as [sheets|] eqn:Hgen;
    [|discriminate].
  injection H as <-.
  destruct (generate_inv _ _ _ _ Hgen) as [recs [grouped [Hr [Hg ->]]]].
  set (h := ("File Generated on: " ++ timestamp)%string) in *.
  assert (Hdg : df_grouped df = Ok grouped)
    by (unfold df_grouped; rewrite Hr; exact Hg).
  (* a day that comes out has a valid primary value *)
  assert (Hvalid : forall s, In s (sheets_of h view_type grouped) ->
              exists x g, In g grouped /\ DAY g = sheet_day s /\
                          primary_val view_type g = x /\ x <> "" /\ x <> "nan").
  { intros s Hs. apply sheets_of_In in Hs. destruct Hs as [_ Hs].
    unfold day_sheet in Hs.
    destruct (filter _ grouped) as [|g0 t] eqn:Ef; [discriminate|].
    destruct (unique_primary view_type (g0 :: t)) as [|x rows] eqn:Eu; [discriminate|].
    destruct (unique_primary_spec view_type (g0 :: t)) as [_ Hspec].
    assert (Hx : In x (unique_primary view_type (g0 :: t))) by (rewrite Eu; now left).
    apply Hspec in Hx. destruct Hx as [[g [Hgin Hp]] [Hne1 Hne2]].
    rewrite <- Ef in Hgin. apply filter_In in Hgin. destruct Hgin as [Hgin Hday].
    apply String.eqb_eq in Hday. exists x, g. auto. }
  unfold matrices in Hin. apply in_map_iff in Hin. destruct Hin as [s [Es Hs]].
  injection Es as <- <-. cbn [fst snd].
  pose proof Hs as Hs'. apply sheets_of_In in Hs'. destruct Hs' as [_ Hsheet].
  unfold day_sheet in Hsheet.
  set (day_data := filter (fun row => String.eqb (DAY row) (sheet_day s)) grouped) in *.
  destruct day_data as [|g0 t] eqn:Ed; [discriminate|]. rewrite <- Ed in *.
  destruct (unique_primary view_type day_data) as [|x0 rows0] eqn:Eu; [discriminate|].
  rewrite <- Eu in *.
  set (m0 := init_matrix (primary_col view_type) (unique_primary view_type day_data)) in *.
  assert (Hd : day_data = g0 :: t -> True) by trivial. clear Hd.
  replace (match day_data with [] => None | _ :: _ => Some _ end)
    with (Some (mkSheet (sheet_day s) (sheet_name_clean (sheet_day s)) h
                        (m_columns (fill_matrix view_type m0 day_data))
                        (m_data (fill_matrix view_type m0 day_data))))
    in Hsheet by (rewrite Ed; reflexivity).
  injection Hsheet as Es. rewrite <- Es. cbn [sheet_columns sheet_rows sheet_day].
  destruct (fill_matrix_inv view_type day_data m0 (wf_init_matrix _ _)) as [[Hlen Hrows] [_ Hcols]].
  split; [exact Hcols|]. split; [rewrite Hcols; reflexivity|]. split.
  { rewrite Hcols in Hrows. revert Hrows. apply Forall_impl.
    intros row E. rewrite E. reflexivity. }
  exists df, grouped, (unique_primary view_type day_data).
  split; [reflexivity|]. split; [assumption|]. split.
  { unfold row_labels. cbn [snd].
    rewrite first_cells_fill_matrix.
    - apply first_cells_init.
    - apply wf_init_matrix.
    - reflexivity.
    - apply Forall_forall. intros g Hgin. unfold day_data in Hgin.
      apply filter_In in Hgin. destruct Hgin as [Hgin _].
      destruct (grouped_start_is_hms _ _ _ _ _ Hl Hr Hg Hgin) as [secs ->].
      apply strftime_not_primary. }
  destruct (unique_primary_spec view_type day_data) as [Hsorted Hspec].
  split; [assumption|]. split; [rewrite Eu; discriminate|]. split.
  { intros x. rewrite Hspec. unfold day_data.
    split; intros [[g [Hgin Hp]] Hne]; (split; [|assumption]); exists g.
    - apply filter_In in Hgin. destruct Hgin as [Hgin Hday].
      apply String.eqb_eq in Hday. auto.
    - destruct Hp as [Hday Hp]. split; [|assumption].
      apply filter_In. split; [assumption | now apply String.eqb_eq]. }
  intros d' Hbad Hd'. unfold days_of, matrices in Hd'. rewrite map_map in Hd'.
  cbn [fst] in Hd'. apply in_map_iff in Hd'. destruct Hd' as [s' [<- Hs'in]].
  destruct (Hvalid s' Hs'in) as [x [g [Hgin [Hday [Hp [Hne1 Hne2]]]]]].
  destruct (Hbad g Hgin Hday); congruence.
Qed.

End DayMatrices.

(** C7 on the end-to-end example. *)
Lemma day_matrix_shape_witness :
  fst Sample.two_groups_matrix = primary_col "room" :: time_slots /\
  List.length (fst Sample.two_groups_matrix) = List.length time_slots + 1 /\
  Forall (fun row => List.length row = List.length time_slots + 1)
         (snd Sample.two_groups_matrix).
Proof.
  destruct (day_matrix_shape Sample.reads_nothing "" [Sample.two_groups "START TIME"] "room"
                             [("Mon", Sample.two_groups_matrix)] "Mon"
                             Sample.two_groups_matrix) as [H1 [H2 [H3 _]]].
  - vm_compute. reflexivity.
  - now left.
  - auto.
Defined.

(** ** Two runs *)

Lemma matrices_sheets_of (h1 h2 v : string) (grouped : list GroupedRow) :
  matrices (sheets_of h1 v grouped) = matrices (sheets_of h2 v grouped).
Proof.
  unfold sheets_of, matrices. induction (unique_days grouped) as [|d t IH]; [reflexivity|].
  cbn [flat_map]. rewrite !map_app, IH. f_equal.
  unfold day_sheet. destruct (filter _ grouped); [reflexivity|].
  destruct (unique_primary v _); reflexivity.
Qed.

Lemma cell_eqb_eq (a b : cell) : cell_eqb a b = true <-> a = b.
Proof.
  destruct a as [|x], b as [|y]; cbn [cell_eqb]; split; try congruence; try reflexivity.
  - intros H. apply String.eqb_eq in H. now subst.
  - intros H. injection H as ->. apply String.eqb_refl.
Qed.

Section Determined.

Context {A : Type}.

(** A strict order leaves one way only to list given elements in
    ascending order. *)
Lemma StronglySorted_determined (R : A -> A -> Prop) (l1 l2 : list A) :
  (forall x y, R x y -> R y x -> False) ->
  StronglySorted R l1 -> StronglySorted R l2 ->
  (forall x, In x l1 <-> In x l2) -> l1 = l2.
Proof.
  intros Hasym HS1. revert l2.
  induction HS1 as [|a t1 HS1 IH Ha]; intros l2 HS2 Hin.
  - destruct l2 as [|b t2]; [reflexivity|].
    exfalso. apply (Hin b). now left.
  - destruct HS2 as [|b t2 HS2 Hb].
    + exfalso. apply (Hin a). now left.
    + rewrite Forall_forall in Ha, Hb.
      assert (Hirr : forall x, ~ R x x) by (intros x Hx; exact (Hasym x x Hx Hx)).
      assert (Eab : a = b).
      { destruct (proj1 (Hin a) (or_introl eq_refl)) as [E|Hat]; [now symmetry|].
        destruct (proj2 (Hin b) (or_introl eq_refl)) as [E|Hbt]; [assumption|].
        exfalso. exact (Hasym a b (Ha b Hbt) (Hb a Hat)). }
      subst b. f_equal. apply IH; [assumption|].
      intros x. split; intros Hx.
      * destruct (proj1 (Hin x) (or_intror Hx)) as [E|Hx2]; [|assumption].
        subst x. exfalso. exact (Hirr a (Ha a Hx)).
      * destruct (proj2 (Hin x) (or_intror Hx)) as [E|Hx1]; [|assumption].
        subst x. exfalso. exact (Hirr a (Hb a Hx)).
Qed.

Lemma StronglySorted_impl_In (R S : A -> A -> Prop) (l : list A) :
  (forall x y, In x l -> In y l -> R x y -> S x y) ->
  StronglySorted R l -> StronglySorted S l.
Proof.
  intros HRS HS. induction HS as [|a t HS IH Ha]; constructor.
  - apply IH. intros x y Hx Hy. apply HRS; now right.
  - rewrite Forall_forall in *. intros y Hy. apply HRS; [now left | now right | now apply Ha].
Qed.

End Determined.

(** *** [unique] *)

Section UniqueDetermined.

Context {A : Type}.
Variable eqbA : A -> A -> bool.
Hypothesis eqbA_eq : forall x y, eqbA x y = true <-> x = y.

Lemma eqbA_refl (x : A) : eqbA x x = true.
Proof. now apply eqbA_eq. Qed.

Lemma eqbA_neq (x y : A) : eqbA x y = false <-> x <> y.
Proof.
  rewrite <- eqbA_eq. destruct (eqbA x y); split; congruence.
Qed.

Lemma unique_by_first_index (l : list A) :
  StronglySorted (fun x y => first_index eqbA x l < first_index eqbA y l) (unique eqbA l).
Proof.
  induction l as [|a t IH]; cbn [unique]; constructor.
  - apply StronglySorted_impl_In
      with (R := fun x y => first_index eqbA x t < first_index eqbA y t).
    + intros x y Hx Hy Hxy. apply filter_In in Hx, Hy.
      destruct Hx as [_ Hx], Hy as [_ Hy]. apply Bool.negb_true_iff in Hx, Hy.
      apply eqbA_neq in Hx, Hy. cbn [first_index].
      assert (Ex : eqbA x a = false) by (apply eqbA_neq; congruence).
      assert (Ey : eqbA y a = false) by (apply eqbA_neq; congruence).
      rewrite Ex, Ey. lia.
    + now apply (StronglySorted_filter (A := A)).
  - apply Forall_forall. intros y Hy. apply filter_In in Hy. destruct Hy as [_ Hy].
    apply Bool.negb_true_iff, eqbA_neq in Hy. cbn [first_index].
    assert (Ey : eqbA y a = false) by (apply eqbA_neq; congruence).
    rewrite eqbA_refl, Ey. lia.
Qed.

Lemma unique_determined (u : forall B : Type, (B -> B -> bool) -> list B -> list B)
      (l : list A) :
  unique_documented u -> u A eqbA l = unique eqbA l.
Proof.
  intros Hu. destruct (Hu A eqbA l eqbA_eq) as [Hin HS].
  apply StronglySorted_determined
    with (R := fun x y => first_index eqbA x l < first_index eqbA y l).
  - intros x y. lia.
  - assumption.
  - apply unique_by_first_index.
  - intros x. rewrite Hin. symmetry. now apply unique_In.
Qed.

Lemma filter_twice (p q : A -> bool) (l : list A) :
  filter p (filter q l) = filter (fun x => q x && p x) l.
Proof.
  induction l as [|x t IH]; [reflexivity|]. cbn [filter].
  destruct (q x); cbn [filter andb]; [|assumption].
  destruct (p x); now rewrite IH.
Qed.

Lemma unique_seen_from (l seen : list A) :
  fold_left (fun seen x => if existsb (eqbA x) seen then seen else seen ++ [x]) l seen
  = seen ++ filter (fun x => negb (existsb (eqbA x) seen)) (unique eqbA l).
Proof.
  revert seen. induction l as [|a t IH]; intros seen; cbn [fold_left unique filter].
  - now rewrite app_nil_r.
  - destruct (existsb (eqbA a) seen) eqn:Ea; cbn [negb].
    + rewrite IH. f_equal. rewrite filter_twice. apply filter_ext_in.
      intros x _. destruct (existsb (eqbA x) seen) eqn:Ex; cbn [negb].
      * now rewrite Bool.andb_false_r.
      * rewrite Bool.andb_true_r. symmetry. apply Bool.negb_true_iff, eqbA_neq.
        intros ->. congruence.
    + rewrite IH, <- app_assoc. cbn [app]. do 2 f_equal.
      rewrite filter_twice. apply filter_ext_in.
      intros x _. rewrite existsb_app. cbn [existsb]. rewrite Bool.orb_false_r.
      assert (E : eqbA x a = eqbA a x).
      { destruct (eqbA a x) eqn:E1.
        - apply eqbA_eq. symmetry. now apply eqbA_eq.
        - apply eqbA_neq. apply eqbA_neq in E1. congruence. }
      rewrite E. destruct (eqbA a x), (existsb (eqbA x) seen); reflexivity.
Qed.

Lemma unique_seen_unique (l : list A) : unique_seen eqbA l = unique eqbA l.
Proof.
  unfold unique_seen. rewrite unique_seen_from. cbn [app existsb negb].
  induction (unique eqbA l) as [|x t IH]; [reflexivity|]. cbn [filter]. now rewrite IH.
Qed.

End UniqueDetermined.

(** *** [sorted] *)

Section SortedDetermined.

Context {A : Type}.
Variable lebA : A -> A -> bool.
Hypothesis lebA_total : forall x y, lebA x y = true \/ lebA y x = true.
Hypothesis lebA_trans : forall x y z, lebA x y = true -> lebA y z = true -> lebA x z = true.

Lemma lebA_refl (x : A) : lebA x x = true.
Proof. destruct (lebA_total x x); assumption. Qed.

Lemma same_class_refl (x : A) : lebA x x && lebA x x = true.
Proof. now rewrite lebA_refl. Qed.

Lemma insert_sorted_ascending (x : A) (l : list A) :
  StronglySorted (fun a b => lebA a b = true) l ->
  StronglySorted (fun a b => lebA a b = true) (insert_sorted lebA x l).
Proof.
  induction 1 as [|y t HS IH Hy]; cbn [insert_sorted].
  - constructor; constructor.
  - destruct (lebA x y) eqn:E.
    + constructor; [now constructor|]. constructor; [assumption|].
      rewrite Forall_forall in *. intros z Hz. apply lebA_trans with y; auto.
    + constructor; [assumption|]. rewrite Forall_forall in *.
      intros z Hz. apply (Permutation_in _ (insert_sorted_perm lebA x t)) in Hz.
      destruct Hz as [<-|Hz]; [|now apply Hy].
      destruct (lebA_total x y); congruence.
Qed.

Lemma sorted_ascending (l : list A) :
  StronglySorted (fun a b => lebA a b = true) (sorted lebA l).
Proof.
  induction l as [|x t IH]; cbn [sorted]; [constructor | now apply insert_sorted_ascending].
Qed.

Lemma insert_sorted_class (z x : A) (l : list A) :
  filter (fun y => lebA z y && lebA y z) (insert_sorted lebA x l)
  = if lebA z x && lebA x z
    then x :: filter (fun y => lebA z y && lebA y z) l
    else filter (fun y => lebA z y && lebA y z) l.
Proof.
  induction l as [|y t IH]; cbn [insert_sorted].
  - cbn [filter]. destruct (lebA z x && lebA x z); reflexivity.
  - destruct (lebA x y) eqn:E.
    + cbn [filter]. destruct (lebA z x && lebA x z); reflexivity.
    + cbn [filter]. rewrite IH.
      destruct (lebA z x && lebA x z) eqn:Ex; [|reflexivity].
      destruct (lebA z y && lebA y z) eqn:Ey; [|reflexivity].
      exfalso. apply Bool.andb_true_iff in Ex, Ey.
      destruct Ex as [_ Hxz], Ey as [Hzy _].
      rewrite (lebA_trans x z y Hxz Hzy) in E. discriminate.
Qed.

Lemma sorted_class (z : A) (l : list A) :
  filter (fun y => lebA z y && lebA y z) (sorted lebA l)
  = filter (fun y => lebA z y && lebA y z) l.
Proof.
  induction l as [|x t IH]; cbn [sorted]; [reflexivity|].
  rewrite insert_sorted_class, IH. cbn [filter].
  destruct (lebA z x && lebA x z); reflexivity.
Qed.

(** An ascending list is fixed by the order of the elements within each
    class of elements that compare equal. *)
Lemma stable_sort_determined (l1 l2 : list A) :
  StronglySorted (fun a b => lebA a b = true) l1 ->
  StronglySorted (fun a b => lebA a b = true) l2 ->
  (forall z, filter (fun y => lebA z y && lebA y z) l1
             = filter (fun y => lebA z y && lebA y z) l2) ->
  l1 = l2.
Proof.
  intros HS1. revert l2. induction HS1 as [|a t1 HS1 IH Ha]; intros l2 HS2 Hcl.
  - destruct l2 as [|b t2]; [reflexivity|].
    specialize (Hcl b). cbn [filter] in Hcl. rewrite same_class_refl in Hcl. discriminate.
  - destruct HS2 as [|b t2 HS2 Hb].
    + specialize (Hcl a). cbn [filter] in Hcl. rewrite same_class_refl in Hcl. discriminate.
    + rewrite Forall_forall in Ha, Hb.
      assert (Hab : lebA a b = true).
      { assert (Hin : In b (a :: t1)).
        { apply (proj1 (filter_In (fun y => lebA b y && lebA y b) b (a :: t1))).
          rewrite (Hcl b). apply filter_In. split; [now left | apply same_class_refl]. }
        destruct Hin as [->|Hin]; [apply lebA_refl | now apply Ha]. }
      assert (Hba : lebA b a = true).
      { assert (Hin : In a (b :: t2)).
        { apply (proj1 (filter_In (fun y => lebA a y && lebA y a) a (b :: t2))).
          rewrite <- (Hcl a). apply filter_In. split; [now left | apply same_class_refl]. }
        destruct Hin as [->|Hin]; [apply lebA_refl | now apply Hb]. }
      assert (Eab : a = b).
      { pose proof (Hcl a) as Hc. cbn [filter] in Hc.
        rewrite same_class_refl, Hab, Hba in Hc. cbn [andb] in Hc. congruence. }
      subst b. f_equal. apply IH; [assumption|].
      intros z. specialize (Hcl z). cbn [filter] in Hcl.
      destruct (lebA z a && lebA a z); congruence.
Qed.

Lemma sorted_determined (s : forall B : Type, (B -> B -> bool) -> list B -> list B)
      (l : list A) :
  sorted_documented s -> s A lebA l = sorted lebA l.
Proof.
  intros Hs. destruct (Hs A lebA l lebA_total lebA_trans) as [HS Hcl].
  apply stable_sort_determined; [assumption | apply sorted_ascending|].
  intros z. now rewrite Hcl, sorted_class.
Qed.

Lemma insert_after_ascending (x : A) (l : list A) :
  StronglySorted (fun a b => lebA a b = true) l ->
  StronglySorted (fun a b => lebA a b = true) (insert_after lebA x l) /\
  (forall z, In z (insert_after lebA x l) <-> z = x \/ In z l).
Proof.
  induction 1 as [|y t HS [IH1 IH2] Hy]; cbn [insert_after].
  - split; [constructor; constructor | intros z; cbn [In]; intuition congruence].
  - rewrite Forall_forall in Hy. destruct (lebA y x) eqn:E.
    + split.
      * constructor; [assumption|]. apply Forall_forall. intros z Hz.
        apply IH2 in Hz. destruct Hz as [->|Hz]; [assumption | now apply Hy].
      * intros z. cbn [In]. rewrite IH2. tauto.
    + assert (Hxy : lebA x y = true) by (destruct (lebA_total x y); congruence).
      split.
      * constructor; [constructor; [assumption | now apply Forall_forall]|].
        apply Forall_forall. intros z [<-|Hz]; [assumption|].
        apply lebA_trans with y; auto.
      * intros z. cbn [In]. intuition congruence.
Qed.

Lemma insert_after_class (z x : A) (l : list A) :
  StronglySorted (fun a b => lebA a b = true) l ->
  filter (fun y => lebA z y && lebA y z) (insert_after lebA x l)
  = filter (fun y => lebA z y && lebA y z) l
    ++ (if lebA z x && lebA x z then [x] else []).
Proof.
  induction 1 as [|y t HS IH Hy]; cbn [insert_after].
  - cbn [filter app]. destruct (lebA z x && lebA x z); reflexivity.
  - rewrite Forall_forall in Hy. destruct (lebA y x) eqn:E.
    + cbn [filter]. rewrite IH. destruct (lebA z y && lebA y z); reflexivity.
    + cbn [filter]. destruct (lebA z x && lebA x z) eqn:Ex.
      * apply Bool.andb_true_iff in Ex. destruct Ex as [Hzx _].
        assert (Hnone : forall w, In w (y :: t) -> lebA z w && lebA w z = false).
        { intros w Hw. destruct (lebA z w && lebA w z) eqn:Ew; [|reflexivity].
          exfalso. apply Bool.andb_true_iff in Ew. destruct Ew as [_ Hwz].
          assert (Hyw : lebA y w = true)
            by (destruct Hw as [<-|Hw]; [apply lebA_refl | now apply Hy]).
          rewrite (lebA_trans y w x Hyw (lebA_trans w z x Hwz Hzx)) in E. discriminate. }
        rewrite (Hnone y) by now left.
        replace (filter (fun y0 => lebA z y0 && lebA y0 z) t) with (@nil A); [reflexivity|].
        symmetry. clear -Hnone. induction t as [|w t IH]; [reflexivity|].
        cbn [filter]. rewrite (Hnone w) by (right; now left).
        apply IH. intros v [<-|Hv]; apply Hnone; [now left | right; now right].
      * now rewrite app_nil_r.
Qed.

Lemma sorted_left_from (l acc : list A) :
  StronglySorted (fun a b => lebA a b = true) acc ->
  StronglySorted (fun a b => lebA a b = true)
                 (fold_left (fun acc x => insert_after lebA x acc) l acc) /\
  (forall z, filter (fun y => lebA z y && lebA y z)
                    (fold_left (fun acc x => insert_after lebA x acc) l acc)
             = filter (fun y => lebA z y && lebA y z) acc
               ++ filter (fun y => lebA z y && lebA y z) l).
Proof.
  revert acc. induction l as [|x t IH]; intros acc HS; cbn [fold_left].
  - split; [assumption | intros z; now rewrite app_nil_r].
  - destruct (IH (insert_after lebA x acc)) as [H1 H2];
      [now apply insert_after_ascending|].
    split; [assumption|]. intros z. rewrite H2, insert_after_class by assumption.
    rewrite <- app_assoc. f_equal. cbn [filter].
    destruct (lebA z x && lebA x z); reflexivity.
Qed.

Lemma sorted_left_sorted (l : list A) : sorted_left lebA l = sorted lebA l.
Proof.
  destruct (sorted_left_from l []) as [H1 H2]; [constructor|].
  apply stable_sort_determined; [assumption | apply sorted_ascending|].
  intros z. unfold sorted_left. now rewrite H2, sorted_class.
Qed.

End SortedDetermined.

(** *** [groupby] *)

Section GroupbyDetermined.

Lemma map_fixed {B : Type} (f : B -> B) (l : list B) :
  Forall (fun x => f x = x) l -> map f l = l.
Proof.
  induction 1 as [|x t Hx _ IH]; cbn [map]; [reflexivity | now rewrite Hx, IH].
Qed.

Lemma key_lt_asym (k k' : group_key) : lt k k' -> lt k' k -> False.
Proof.
  unfold lt. intros H1 H2. rewrite (compare_antisym k k'), H1 in H2. discriminate.
Qed.

Lemma groupby_determined (g : list (group_key * cell) -> list (group_key * list cell))
      (kv : list (group_key * cell)) :
  groupby_documented g -> g kv = lib_groupby reference kv.
Proof.
  intros Hg. destruct (Hg kv) as [HS [Hin HF]].
  assert (Hkeys : map fst (g kv) = sorted leb (unique eqb (map fst kv))).
  { apply StronglySorted_determined with (R := lt).
    - apply key_lt_asym.
    - assumption.
    - apply sorted_lt, unique_NoDup. apply eqb_eq.
    - intros k. rewrite Hin, sorted_In. symmetry. apply unique_In. apply eqb_eq. }
  cbn [lib_groupby reference]. rewrite <- Hkeys, map_map.
  symmetry. apply map_fixed.
  apply Forall_impl with (2 := HF). intros [k x] E. cbn [fst snd] in *. now rewrite <- E.
Qed.

End GroupbyDetermined.

(** *** The builder over a library *)

Section OverDocumented.

Variable lib : Library.
Hypothesis lib_documented : documented lib.

Lemma rank_leb_total (a b : string) :
  (day_rank a <=? day_rank b) = true \/ (day_rank b <=? day_rank a) = true.
Proof. rewrite !Nat.leb_le. lia. Qed.

Lemma rank_leb_trans (a b c : string) :
  (day_rank a <=? day_rank b) = true -> (day_rank b <=? day_rank c) = true ->
  (day_rank a <=? day_rank c) = true.
Proof. rewrite !Nat.leb_le. lia. Qed.

Lemma over_join_unique (x : list cell) : Over.join_unique lib x = join_unique x.
Proof.
  unfold Over.join_unique, join_unique.
  rewrite (unique_determined cell_eqb cell_eqb_eq) by apply lib_documented. reflexivity.
Qed.

Lemma over_apply_groups (ks : list group_key) (kv : list (group_key * cell)) :
  Over.apply_groups lib (map (fun k => (k, map snd (filter (fun p => eqb (fst p) k) kv))) ks)
  = apply_groups ks kv.
Proof.
  induction ks as [|k t IH]; [reflexivity|].
  cbn [map Over.apply_groups apply_groups]. now rewrite over_join_unique, IH.
Qed.

Lemma over_groupby_rows (rows : list ClassRecord) :
  Over.groupby_rows lib rows = groupby_rows rows.
Proof.
  unfold Over.groupby_rows, groupby_rows.
  rewrite groupby_determined by apply lib_documented.
  cbn [lib_groupby reference]. apply over_apply_groups.
Qed.

Lemma over_unique_days (grouped : list GroupedRow) :
  Over.unique_days lib grouped = unique_days grouped.
Proof.
  unfold Over.unique_days, unique_days.
  rewrite (unique_determined String.eqb String.eqb_eq) by apply lib_documented.
  apply sorted_determined;
    [apply rank_leb_total | apply rank_leb_trans | apply lib_documented].
Qed.

Lemma over_unique_primary (view_type : string) (day_data : list GroupedRow) :
  Over.unique_primary lib view_type day_data = unique_primary view_type day_data.
Proof.
  unfold Over.unique_primary, unique_primary.
  rewrite (unique_determined String.eqb String.eqb_eq) by apply lib_documented.
  apply sorted_determined; [apply leb_total | | apply lib_documented].
  intros x y z. apply le_trans.
Qed.

Lemma over_sheets_of (header_text view_type : string) (grouped : list GroupedRow) :
  Over.sheets_of lib header_text view_type grouped = sheets_of header_text view_type grouped.
Proof.
  unfold Over.sheets_of, sheets_of. rewrite over_unique_days.
  apply flat_map_ext. intros day.
  unfold Over.day_sheet, day_sheet. now rewrite over_unique_primary.
Qed.

Lemma over_generate_schedule_excel (timestamp : string) (df : DataFrame) (view_type : string) :
  Over.generate_schedule_excel lib timestamp df view_type
  = generate_schedule_excel timestamp df view_type.
Proof.
  unfold Over.generate_schedule_excel, generate_schedule_excel, Over.df_grouped, df_grouped.
  destruct (records df) as [rows|e]; cbn [bind]; [|reflexivity].
  rewrite over_groupby_rows.
  destruct (groupby_rows rows) as [grouped|e]; cbn [bind]; [|reflexivity].
  now rewrite over_sheets_of.
Qed.

Lemma over_pipeline (to_datetime_coerce : list cell -> cell -> option N)
      (timestamp : string) (all_sheets : list DataFrame) (view_type : string) :
  Over.pipeline lib to_datetime_coerce timestamp all_sheets view_type
  = pipeline to_datetime_coerce timestamp all_sheets view_type.
Proof.
  unfold Over.pipeline, pipeline.
  destruct (load_and_clean_data to_datetime_coerce all_sheets) as [df|e]; cbn [bind];
    [|reflexivity].
  now rewrite over_generate_schedule_excel.
Qed.

End OverDocumented.

Lemma pipeline_any_clock (to_datetime_coerce : list cell -> cell -> option N)
      (timestamp1 timestamp2 : string) (all_sheets : list DataFrame) (view_type : string) :
  pipeline to_datetime_coerce timestamp1 all_sheets view_type
  = pipeline to_datetime_coerce timestamp2 all_sheets view_type.
Proof.
  unfold pipeline, bind.
  destruct (load_and_clean_data to_datetime_coerce all_sheets) as [df|]; [|reflexivity].
  unfold generate_schedule_excel, bind. destruct (df_grouped df) as [grouped|]; [|reflexivity].
  f_equal. apply matrices_sheets_of.
Qed.

(** The operations of the definitions do what is documented of them. *)
Lemma reference_documented : documented reference.
Proof.
  split; [|split].
  - intros A eqbA l Heq. split.
    + intros x. now apply unique_In.
    + now apply unique_by_first_index.
  - intros A lebA l Htot Htr. split.
    + now apply sorted_ascending.
    + intros x. now apply sorted_class.
  - intros kv. cbn [lib_groupby reference]. rewrite map_map. cbn [fst]. rewrite map_id.
    split; [|split].
    + apply sorted_lt, unique_NoDup. apply eqb_eq.
    + intros k. rewrite sorted_In. apply unique_In. apply eqb_eq.
    + apply Forall_forall. intros grp Hin. apply in_map_iff in Hin.
      destruct Hin as [k [<- _]]. reflexivity.
Qed.

(** So do the operations that work by accumulation. *)
Lemma by_accumulation_documented : documented by_accumulation.
Proof.
  split; [|split].
  - intros A eqbA l Heq. cbn [lib_unique by_accumulation].
    rewrite (unique_seen_unique eqbA Heq). split.
    + intros x. now apply unique_In.
    + now apply unique_by_first_index.
  - intros A lebA l Htot Htr. cbn [lib_sorted by_accumulation].
    rewrite (sorted_left_sorted lebA Htot Htr). split.
    + now apply sorted_ascending.
    + intros x. now apply sorted_class.
  - intros kv. cbn [lib_groupby by_accumulation].
    rewrite (unique_seen_unique eqb eqb_eq).
    rewrite (sorted_left_sorted leb leb_total (fun x y z => le_trans x y z)).
    apply (proj2 (proj2 reference_documented) kv).
Qed.



(** ** Day labels *)

Lemma StronglySorted_before {A : Type} (R : A -> A -> Prop) (l2 l3 : list A) (b : A) :
  StronglySorted R (l2 ++ b :: l3) -> forall c, In c l2 -> R c b.
Proof.
  induction l2 as [|y l2 IH]; cbn [app]; intros HS c Hc; [destruct Hc|].
  inversion HS as [|? ? HS' Hy]; subst.
  destruct Hc as [->|Hc]; [|now apply IH].
  rewrite Forall_forall in Hy. apply Hy, in_or_app. right. now left.
Qed.

Lemma StronglySorted_middle {A : Type} (R : A -> A -> Prop) (l1 l2 l3 : list A) (a b : A) :
  StronglySorted R (l1 ++ a :: l2 ++ b :: l3) ->
  R a b /\ forall c, In c l2 -> R a c /\ R c b.
Proof.
  induction l1 as [|x l1 IH]; cbn [app]; intros HS.
  - inversion HS as [|? ? HS' Ha]; subst. rewrite Forall_forall in Ha. split.
    + apply Ha. apply in_or_app. right. now left.
    + intros c Hc. split; [apply Ha, in_or_app; now left|].
      now apply (StronglySorted_before R l2 l3).
  - inversion HS; subst. now apply IH.
Qed.

Lemma keyed_group (recs : list ClassRecord) (k : group_key) :
  map snd (filter (fun p => eqb (fst p) k) (keyed recs))
  = map rec_intake_group
        (filter (fun r => match key_of r with Some k' => eqb k' k | None => false end) recs).
Proof.
  unfold keyed. induction recs as [|r t IH]; [reflexivity|].
  cbn [flat_map filter]. rewrite filter_app, map_app, IH.
  destruct (key_of r) as [k'|]; [|reflexivity].
  cbn [filter fst]. destruct (eqb k' k); reflexivity.
Qed.

(** An occupancy entry collapses the records that carry its own key, and
    no others. *)
Lemma grouped_row_of_own_key (recs : list ClassRecord) (grouped : list GroupedRow)
      (g : GroupedRow) :
  groupby_rows recs = Ok grouped -> In g grouped ->
  join_unique
    (map rec_intake_group
         (filter (fun r => match key_of r with
                           | Some k => eqb k (key_of_row g)
                           | None => false
                           end) recs))
  = Ok (INTAKE_GROUP g).
Proof.
  intros H Hg. apply apply_groups_spec in H. rewrite <- keyed_group.
  induction H as [|k row ks rows [Hk Hj] _ IH]; [destruct Hg|].
  destruct Hg as [->|Hg]; [now rewrite Hk | now apply IH].
Qed.

(** The sheets of a view, and the days that get one. *)

Section Builder.

Lemma primary_col_teacher (v : string) : v <> "room" -> primary_col v = "TEACHER".
Proof. intros H. unfold primary_col. apply String.eqb_neq in H. now rewrite H. Qed.

Lemma display_cols_teacher (v : string) :
  v <> "room" -> display_cols v = ["ROOM"; "SUBJECT"; "INTAKE_GROUP"].
Proof. intros H. unfold display_cols. apply String.eqb_neq in H. now rewrite H. Qed.

Lemma fill_matrix_view (v v' : string) (rows : list GroupedRow) (m : Matrix) :
  primary_col v = primary_col v' -> display_cols v = display_cols v' ->
  fill_matrix v m rows = fill_matrix v' m rows.
Proof.
  intros Hp Hd. unfold fill_matrix. revert m.
  induction rows as [|row t IH]; intros m; [reflexivity|]. cbn [fold_left].
  rewrite IH. f_equal. unfold fill_row. now rewrite Hp, Hd.
Qed.

Lemma sheets_of_view (h v v' : string) (grouped : list GroupedRow) :
  primary_col v = primary_col v' -> display_cols v = display_cols v' ->
  sheets_of h v grouped = sheets_of h v' grouped.
Proof.
  intros Hp Hd. unfold sheets_of. apply flat_map_ext. intros d.
  f_equal. unfold day_sheet, unique_primary. rewrite Hp.
  destruct (filter _ grouped) as [|g0 l]; [reflexivity|].
  destruct (sorted leb _); [reflexivity|].
  now rewrite (fill_matrix_view v v') by assumption.
Qed.

Lemma day_sheet_some (h v : string) (grouped : list GroupedRow) (d : string) :
  (exists s, day_sheet h v grouped d = Some s) <->
  exists g, In g grouped /\ DAY g = d /\ primary_val v g <> "" /\ primary_val v g <> "nan".
Proof.
  unfold day_sheet.
  set (day_data := filter (fun row => String.eqb (DAY row) d) grouped).
  destruct (unique_primary_spec v day_data) as [_ Hspec].
  assert (Hdd : forall g, In g day_data <-> In g grouped /\ DAY g = d).
  { intros g. unfold day_data. rewrite filter_In, String.eqb_eq. tauto. }
  split.
  - intros [s Hs]. destruct day_data as [|g0 t] eqn:Ed; [discriminate|]. rewrite <- Ed in *.
    destruct (unique_primary v day_data) as [|x rows] eqn:Eu; [discriminate|].
    assert (Hx : In x (x :: rows)) by now left.
    apply Hspec in Hx. destruct Hx as [[g [Hg Hp]] [H1 H2]].
    apply Hdd in Hg. exists g. rewrite Hp. tauto.
  - intros [g [Hg [Hd [H1 H2]]]].
    assert (Hgd : In g day_data) by (apply Hdd; now split).
    assert (Hx : In (primary_val v g) (unique_primary v day_data)).
    { apply Hspec. split; [now exists g | now split]. }
    destruct day_data as [|g0 t] eqn:Ed; [destruct Hgd|]. rewrite <- Ed in *.
    destruct (unique_primary v day_data) as [|x rows]; [destruct Hx|]. eauto.
Qed.

End Builder.

(** A record that is collapsed into an occupancy entry carries the day
    label of the entry, character by character. *)
Lemma key_of_day (r : ClassRecord) (g : GroupedRow) :
  key_of r = Some (key_of_row g) -> rec_day r = Str (DAY g).
Proof.
  unfold key_of, key_of_row.
  destruct (rec_day r) as [|d]; [discriminate|].
  destruct (rec_start_time r); [discriminate|].
  destruct (rec_subject r); [discriminate|].
  destruct (rec_teacher r); [discriminate|].
  destruct (rec_room r); [discriminate|].
  intros H. injection H as -> _. reflexivity.
Qed.

(** C10, as stated: the label [Mon] comes first in the input and [MON]
    second; the matrix of [MON] comes out first. *)
Lemma same_weekday_labels_not_in_input_order :
  day_rank "Mon" = day_rank "MON" /\
  pipeline Sample.reads_nothing "" [Sample.one_class_per_day ["Mon"; "MON"]] "room"
  = Ok [("MON", Sample.one_class_matrix); ("Mon", Sample.one_class_matrix)].
Proof. split; vm_compute; reflexivity. Qed.

(** C10 (amended): day labels are compared as texts.  An occupancy entry
    collapses exactly the records with its own key, and each of them carries
    the entry's day label character by character, so records whose labels
    differ in case or blanks are never merged.  Every label that has an entry
    with a valid primary value gets a sheet, no label gets two, and the sheet
    of a label is built from the entries that carry exactly that label.  Two
    labels that differ in case and surrounding blanks only have the same rank;
    the sheets of two labels of one rank come out with only sheets of that rank
    between them, in ascending order of the label text: [MON] before [Mon],
    whatever the order of the input. *)
Theorem day_labels_are_exact (timestamp : string) (df : DataFrame) (view_type : string)
        (sheets : list Sheet) :
  generate_schedule_excel timestamp df view_type = Ok sheets ->
  (exists recs grouped,
      records df = Ok recs /\ groupby_rows recs = Ok grouped /\
      (forall g r, In g grouped -> In r recs ->
                   key_of r = Some (key_of_row g) -> rec_day r = Str (DAY g)) /\
      (forall g, In g grouped ->
                 join_unique
                   (map rec_intake_group
                        (filter (fun r => match key_of r with
                                          | Some k => eqb k (key_of_row g)
                                          | None => false
                                          end) recs))
                 = Ok (INTAKE_GROUP g)) /\
      (forall d, In d (map sheet_day sheets) <->
                 exists g, In g grouped /\ DAY g = d /\
                           primary_val view_type g <> "" /\ primary_val view_type g <> "nan") /\
      (forall s, In s sheets ->
                 let day_data := filter (fun row => String.eqb (DAY row) (sheet_day s)) grouped in
                 sheet_rows s
                 = m_data (fill_matrix view_type
                                       (init_matrix (primary_col view_type)
                                                    (unique_primary view_type day_data))
                                       day_data))) /\
  NoDup (map sheet_day sheets) /\
  (forall d d' pre post,
      PyStr.upper d' = PyStr.upper d ->
      PyStr.lstrip pre = EmptyString -> PyStr.lstrip post = EmptyString ->
      day_rank (pre ++ d' ++ post) = day_rank d) /\
  (forall l1 a l2 b l3,
      map sheet_day sheets = l1 ++ a :: l2 ++ b :: l3 ->
      day_rank a = day_rank b ->
      String.compare a b = Lt /\ forall c, In c l2 -> day_rank c = day_rank a) /\
  (forall to_datetime_coerce,
      pipeline to_datetime_coerce timestamp [Sample.one_class_per_day ["Mon"; "MON"]] "room"
      = Ok [("MON", Sample.one_class_matrix); ("Mon", Sample.one_class_matrix)]) /\
  (forall to_datetime_coerce,
      pipeline to_datetime_coerce timestamp [Sample.one_class_per_day ["MON"; "Mon"]] "room"
      = Ok [("MON", Sample.one_class_matrix); ("Mon", Sample.one_class_matrix)]).
Proof.
  intros H. destruct (generate_days_sorted _ _ _ _ H) as [HS ND].
  split; [|split; [assumption|split; [|split; [|split]]]].
  - destruct (generate_inv _ _ _ _ H) as [recs [grouped [Hr [Hg ->]]]].
    set (h := ("File Generated on: " ++ timestamp)%string).
    exists recs, grouped. repeat (split; [assumption|]). split; [|split; [|split]].
    + intros g r _ _. apply key_of_day.
    + intros g Hin. now apply grouped_row_of_own_key with grouped.
    + intros d. rewrite sheets_of_days, filter_In.
      rewrite <- (day_sheet_some h view_type grouped d). split.
      * intros [_ Hs]. destruct (day_sheet h view_type grouped d) as [s|]; [eauto | discriminate].
      * intros [s Hs]. split; [|now rewrite Hs].
        apply unique_days_In.
        assert (Hex : exists s0, day_sheet h view_type grouped d = Some s0) by eauto.
        apply day_sheet_some in Hex. destruct Hex as [g [Hgin [Hd _]]].
        rewrite <- Hd. now apply in_map.
    + intros s Hs. apply sheets_of_In in Hs. destruct Hs as [_ Hs].
      unfold day_sheet in Hs. cbv zeta.
      destruct (filter _ grouped) as [|g0 t]; [discriminate|].
      destruct (unique_primary view_type (g0 :: t)); [discriminate|].
      injection Hs as <-. reflexivity.
  - intros d d' pre post Hup Hpre Hpost. unfold day_rank.
    rewrite strip_padded by assumption. now rewrite <- !strip_upper, Hup.
  - intros l1 a l2 b l3 E Hab. rewrite E in HS.
    apply StronglySorted_middle in HS. destruct HS as [Rab Hmid]. split.
    + destruct Rab as [Hlt|[_ Hc]]; [lia | assumption].
    + intros c Hc. destruct (Hmid c Hc) as [Rac Rcb].
      unfold day_before in Rac, Rcb. lia.
  - intros f. vm_compute. reflexivity.
  - intros f. vm_compute. reflexivity.
Qed.

(** The amended C10 on one class under the label [Mon] and one under the
    label [MON]: each label has its sheet, [MON] first, and the label [mon]
    between blanks has the rank of [Mon]. *)
Lemma day_labels_are_exact_witness :
  NoDup ["MON"; "Mon"] /\
  String.compare "MON" "Mon" = Lt /\
  day_rank (" " ++ "mon" ++ " ") = day_rank "Mon".
Proof.
  destruct (day_labels_are_exact
              "now" (Sample.cleaned [Sample.one_class_per_day ["Mon"; "MON"]]) "room"
              (sheets_of "File Generated on: now" "room"
                         (map Sample.one_class_entry ["MON"; "Mon"])))
    as [_ [ND [Hrank [Hadj _]]]].
  - vm_compute. reflexivity.
  - split; [exact ND|]. split.
    + apply (Hadj [] "MON"%string [] "Mon"%string []); reflexivity.
    + apply (Hrank "Mon"%string "mon"%string " "%string " "%string); reflexivity.
Defined.

(* ------------------------------------------------------------------ *)
(** * Further properties of the code *)


(** ** The weekday rank *)

(** X1: the weekday rank does not look at the case of a label nor at the
    blanks around it: a label [d'] that upper-cases to the same text as [d],
    padded with blanks on both sides, has the rank of [d]. *)
Theorem day_rank_ignores_case_and_blanks (d d' pre post : string) :
  PyStr.upper d' = PyStr.upper d ->
  PyStr.lstrip pre = EmptyString -> PyStr.lstrip post = EmptyString ->
  day_rank (pre ++ d' ++ post) = day_rank d /\
  day_rank (PyStr.upper d) = day_rank d /\
  day_rank (PyStr.strip d) = day_rank d.
Proof.
  intros Hup Hpre Hpost. unfold day_rank. repeat split.
  - rewrite strip_padded by assumption.
    now rewrite <- !strip_upper, Hup.
  - now rewrite strip_upper, upper_idem.
  - now rewrite strip_idem.
Qed.

(** X1 on the label [" monday "]. *)
Lemma day_rank_ignores_case_and_blanks_witness :
  day_rank (" " ++ "monday" ++ "  ") = day_rank "Monday".
Proof.
  apply (day_rank_ignores_case_and_blanks "Monday" "monday" " " "  "); reflexivity.
Defined.

(** ** Time slots and time texts *)

Section ClockFacts.

Local Open Scope N_scope.

Lemma slots_loop_spec (n : nat) :
  forall (fuel : nat) (current end_time : N),
    (n < fuel)%nat ->
    current + 1800 * N.of_nat n <= end_time ->
    end_time < current + 1800 * (N.of_nat n + 1) ->
    Clock.slots_loop fuel current end_time
    = map (fun k => Clock.strftime (current + 1800 * N.of_nat k)) (seq 0 (S n)).
Proof.
  induction n as [|n IH]; intros fuel current end_time Hf Hlo Hhi.
  - destruct fuel as [|fuel]; [lia|]. cbn [Clock.slots_loop seq map].
    assert (E : (current <=? end_time) = true) by (apply N.leb_le; lia). rewrite E.
    replace (current + 1800 * N.of_nat 0) with current by lia. f_equal.
    destruct fuel as [|fuel]; [reflexivity|]. cbn [Clock.slots_loop].
    assert (E' : (current + 30 * 60 <=? end_time) = false) by (apply N.leb_gt; lia).
    now rewrite E'.
  - destruct fuel as [|fuel]; [lia|]. cbn [Clock.slots_loop].
    assert (E : (current <=? end_time) = true) by (apply N.leb_le; lia). rewrite E.
    rewrite (IH fuel (current + 30 * 60) end_time) by lia.
    change (seq 0 (S (S n))) with (0%nat :: seq 1 (S n)). rewrite <- seq_shift.
    cbn [map]. rewrite map_map. replace (current + 1800 * N.of_nat 0) with current by lia. f_equal.
    apply map_ext. intros k. f_equal. lia.
Qed.

Lemma digit_char_spec (x : N) :
  Clock.digit_of (Clock.digit_char x) = Some (x mod 10) /\
  Ascii.eqb (Clock.digit_char x) ":"%char = false /\
  PyStr.is_space (Clock.digit_char x) = false.
Proof.
  unfold Clock.digit_char.
  assert (H : x mod 10 < 10) by (apply N.mod_upper_bound; lia).
  generalize dependent (x mod 10). intros r H.
  assert (C : r = 0 \/ r = 1 \/ r = 2 \/ r = 3 \/ r = 4 \/
              r = 5 \/ r = 6 \/ r = 7 \/ r = 8 \/ r = 9)
    by lia.
  repeat (destruct C as [C|C]; [rewrite C; repeat split; reflexivity|]).
  rewrite C. repeat split; reflexivity.
Qed.

Lemma field_pad2 (n : N) : n < 100 -> Clock.field (Clock.pad2 n) = Some n.
Proof.
  intros Hn. unfold Clock.pad2, Clock.field.
  destruct (digit_char_spec (n / 10)) as [-> _], (digit_char_spec n) as [-> _].
  f_equal. assert (n / 10 < 10) by (apply N.Div0.div_lt_upper_bound; lia).
  rewrite (N.mod_small (n / 10)) by assumption.
  rewrite (N.div_mod n 10) at 3 by lia. reflexivity.
Qed.

Lemma split_colon_strftime (secs : N) :
  Clock.split_colon (Clock.strftime secs)
  = [Clock.pad2 ((secs / 3600) mod 24); Clock.pad2 ((secs / 60) mod 60);
     Clock.pad2 (secs mod 60)].
Proof.
  unfold Clock.strftime, Clock.pad2. cbn [String.append Clock.split_colon].
  repeat match goal with
         | |- context [Ascii.eqb (Clock.digit_char ?x) ":"%char] =>
             rewrite (proj1 (proj2 (digit_char_spec x)))
         end.
  reflexivity.
Qed.

Lemma seconds_of_day (secs : N) :
  (secs / 3600) mod 24 * 3600 + (secs / 60) mod 60 * 60 + secs mod 60 = secs mod 86400.
Proof.
  pose proof (N.div_mod secs 60 ltac:(lia)) as H1.
  pose proof (N.mod_upper_bound secs 60 ltac:(lia)) as B1.
  pose proof (N.div_mod (secs / 60) 60 ltac:(lia)) as H2.
  pose proof (N.mod_upper_bound (secs / 60) 60 ltac:(lia)) as B2.
  assert (E : secs / 3600 = secs / 60 / 60) by (rewrite N.Div0.div_div; reflexivity).
  pose proof (N.div_mod (secs / 3600) 24 ltac:(lia)) as H3.
  pose proof (N.mod_upper_bound (secs / 3600) 24 ltac:(lia)) as B3.
  apply (N.mod_unique _ _ (secs / 3600 / 24)); lia.
Qed.

Lemma strptime_strftime (secs : N) :
  Clock.strptime (Clock.strftime secs) = Some (secs mod 86400).
Proof.
  unfold Clock.strptime. rewrite split_colon_strftime.
  pose proof (N.mod_upper_bound (secs / 3600) 24 ltac:(lia)) as B3.
  pose proof (N.mod_upper_bound (secs / 60) 60 ltac:(lia)) as B2.
  pose proof (N.mod_upper_bound secs 60 ltac:(lia)) as B1.
  rewrite !field_pad2 by lia.
  assert (E : ((secs / 3600) mod 24 <=? 23) && ((secs / 60) mod 60 <=? 59)
              && (secs mod 60 <=? 61) = true).
  { rewrite !Bool.andb_true_iff, !N.leb_le. lia. }
  rewrite E. f_equal. apply seconds_of_day.
Qed.

Lemma strftime_mod_day (secs : N) : Clock.strftime (secs mod 86400) = Clock.strftime secs.
Proof.
  unfold Clock.strftime.
  pose proof (N.div_mod secs 86400 ltac:(lia)) as H.
  pose proof (N.mod_upper_bound secs 86400 ltac:(lia)) as B.
  set (r := secs mod 86400) in *. set (q := secs / 86400) in *.
  assert (E1 : secs mod 60 = r mod 60).
  { rewrite H. replace (86400 * q + r) with (r + (1440 * q) * 60) by lia.
    apply N.Div0.mod_add. }
  assert (E2 : (secs / 60) mod 60 = (r / 60) mod 60).
  { rewrite H. replace (86400 * q + r) with (r + (1440 * q) * 60) by lia.
    rewrite N.div_add by lia. replace (r / 60 + 1440 * q) with (r / 60 + (24 * q) * 60) by lia.
    apply N.Div0.mod_add. }
  assert (E3 : (secs / 3600) mod 24 = (r / 3600) mod 24).
  { rewrite H. replace (86400 * q + r) with (r + (24 * q) * 3600) by lia.
    rewrite N.div_add by lia. replace (r / 3600 + 24 * q) with (r / 3600 + q * 24) by lia.
    apply N.Div0.mod_add. }
  now rewrite E1, E2, E3.
Qed.

End ClockFacts.

(** X2: the loop of [generate_time_slots] leaves by its own test.  When
    [end_time] lies [n] whole half hours after [current], the loop returns
    the [n+1] slots [current], [current + 30 min], ... in this order, for
    every fuel above [n]. *)
Theorem half_hour_slots (n fuel : nat) (current end_time : N) :
  (n < fuel)%nat ->
  (current + 1800 * N.of_nat n <= end_time)%N ->
  (end_time < current + 1800 * (N.of_nat n + 1))%N ->
  Clock.slots_loop fuel current end_time
  = map (fun k => Clock.strftime (current + 1800 * N.of_nat k)) (seq 0 (S n)) /\
  List.length (Clock.slots_loop fuel current end_time) = S n.
Proof.
  intros Hf Hlo Hhi. rewrite (slots_loop_spec n fuel current end_time Hf Hlo Hhi).
  split; [reflexivity|]. now rewrite length_map, length_seq.
Qed.

(** X2 on the bounds of the program: twenty slots from 08:05:00 on. *)
Lemma half_hour_slots_witness :
  Clock.generate_time_slots
  = map (fun k => Clock.strftime (Clock.start_bound + 1800 * N.of_nat k)) (seq 0 20) /\
  List.length Clock.generate_time_slots = 20.
Proof.
  apply (half_hour_slots 19).
  - vm_compute. lia.
  - vm_compute. discriminate.
  - vm_compute. reflexivity.
Defined.

(** X3: a formatted time parses back under the strict format, to the same
    time of day; the text has eight characters and depends on the time of
    day only. *)
Theorem time_text_round_trip (secs : N) :
  Clock.strptime (Clock.strftime secs) = Some (secs mod 86400)%N /\
  Clock.strftime (secs mod 86400) = Clock.strftime secs /\
  String.length (Clock.strftime secs) = 8.
Proof.
  split; [apply strptime_strftime | split; [apply strftime_mod_day | reflexivity]].
Qed.

Section Standardize.

Lemma strip_strftime (secs : N) : PyStr.strip (Clock.strftime secs) = Clock.strftime secs.
Proof.
  unfold PyStr.strip, Clock.strftime, Clock.pad2. cbn [String.append PyStr.lstrip].
  rewrite (proj2 (proj2 (digit_char_spec _))).
  repeat (rewrite rstrip_cons_clean;
          [| first [ apply (proj2 (proj2 (digit_char_spec _))) | reflexivity ] ]).
  reflexivity.
Qed.

Lemma strftime_not_missing (secs : N) :
  String.eqb (Clock.strftime secs) "" || PyStr.mem (Clock.strftime secs) nat_strings = false.
Proof.
  apply Bool.orb_false_iff. split; [reflexivity|].
  apply mem_false. unfold nat_strings. cbn [In].
  intros H. repeat (destruct H as [H|H]; [apply (f_equal String.length) in H; discriminate H|]).
  destruct H.
Qed.

Lemma strict_time_formatted (c : cell) :
  (c = NaN \/ exists secs, c = Str (Clock.strftime secs)) ->
  exists t, strict_time c = Some t /\ strftime_cell t = c.
Proof.
  intros [->|[secs ->]].
  - exists None. split; reflexivity.
  - exists (Some (secs mod 86400)%N). unfold strict_time. cbn [astype_str].
    rewrite strip_strftime, strftime_not_missing, strptime_strftime.
    split; [reflexivity|]. cbn [strftime_cell]. now rewrite strftime_mod_day.
Qed.

Lemma standardize_formatted (g : list cell -> cell -> option N) (l : list cell) :
  Forall (fun c => c = NaN \/ exists secs, c = Str (Clock.strftime secs)) l ->
  standardize_time g l = l.
Proof.
  intros HF. unfold standardize_time.
  assert (E : exists ts, strict_times l = Some ts /\ map strftime_cell ts = l).
  { induction HF as [|c t Hc Ht IH]; [now exists []|].
    destruct IH as [ts [E1 E2]]. destruct (strict_time_formatted c Hc) as [x [Ex Ec]].
    exists (x :: ts). cbn [strict_times map]. rewrite Ex, E1. split; congruence. }
  destruct E as [ts [-> E]]. exact E.
Qed.

End Standardize.

(** X4: standardising the start times a second time changes nothing,
    whatever the permissive parsers of the two passes: a standardised column
    holds missing values and texts [HH:MM:SS], which the strict format reads
    back. *)
Theorem standardize_time_idempotent (f g : list cell -> cell -> option N) (v : list cell) :
  standardize_time g (standardize_time f v) = standardize_time f v /\
  Forall (fun c => c = NaN \/ exists secs, c = Str (Clock.strftime secs))
         (standardize_time f v).
Proof.
  split; [apply standardize_formatted|]; apply standardize_time_form.
Qed.

(** X5: when every start time is missing or matches the strict format,
    the permissive parser is not consulted: the result of normalisation is
    the same under any two of them. *)
Theorem strict_times_need_no_fallback (f g : list cell -> cell -> option N)
        (all_sheets : list DataFrame) (merged : DataFrame) (start : list cell)
        (ts : list (option N)) :
  Frame.concat all_sheets = Ok merged ->
  Frame.column (relabel merged) "START TIME" = Ok start ->
  strict_times start = Some ts ->
  load_and_clean_data f all_sheets = load_and_clean_data g all_sheets.
Proof.
  intros Hc Hs Ht. unfold load_and_clean_data. rewrite Hc. cbn [bind].
  unfold clean. cbv zeta.
  destruct (PyStr.mem "START TIME" (labels (relabel merged))) eqn:Hm; cbn [negb];
    [|reflexivity].
  assert (Hs1 : Frame.column
                  (Frame.select (relabel merged)
                                (filter (fun c => PyStr.mem c (labels (relabel merged)))
                                        required_cols))
                  "START TIME" = Ok start).
  { apply column_of_filter. rewrite filter_select by apply existing_cols_NoDup.
    rewrite existing_cols_mem; [| simpl; tauto | assumption].
    now apply column_Ok_filter. }
  rewrite Hs1. cbn [bind]. unfold standardize_time. rewrite Ht. reflexivity.
Qed.

(** X5 on the end-to-end example, with a parser that reads nothing and one
    that reads midnight everywhere. *)
Lemma strict_times_need_no_fallback_witness :
  load_and_clean_data Sample.reads_nothing [Sample.two_groups "START TIME"]
  = load_and_clean_data (fun _ _ => Some 0%N) [Sample.two_groups "START TIME"].
Proof.
  apply (strict_times_need_no_fallback _ _ _ (Sample.two_groups "START TIME")
                                       [Str "08:05:00"; Str "08:05:00"]
                                       [Some 29100%N; Some 29100%N]); reflexivity.
Defined.

(** ** The cleaned frame *)

Section CleanedFrame.

Import Frame.

Variable to_datetime_coerce : list cell -> cell -> option N.

Lemma count_column (df : DataFrame) (c : string) :
  count_label c df = 1 <-> exists v, column df c = Ok v.
Proof.
  unfold count_label, column.
  destruct (filter (has_label c) (df_columns df)) as [|col [|col2 t]]; cbn [List.length];
    split; try lia; try (intros [v H]; discriminate).
  intros _. now exists (snd col).
Qed.

Lemma count_mem (df : DataFrame) (c : string) :
  count_label c df = 0 <-> ~ In c (labels df).
Proof.
  unfold count_label. rewrite <- mem_false. unfold labels. rewrite <- filter_label_nil.
  destruct (filter (has_label c) (df_columns df)); cbn [List.length]; split;
    congruence || lia.
Qed.

(** The raw labels that relabelling turns into [c], for a label that the
    reconciliation of the day columns does not touch. *)
Lemma relabel_In (merged : DataFrame) (c : string) :
  c <> "DAY" -> c <> "DAY.1" ->
  (In c (labels (relabel merged)) <->
   exists raw, In raw (labels merged) /\ PyStr.upper (PyStr.strip raw) = c).
Proof.
  intros Hc Hc1. unfold relabel, map_labels, labels. cbn [df_columns]. rewrite map_map.
  cbn [fst]. rewrite in_map_iff. unfold reconcile_day.
  destruct (PyStr.mem "DAY" (labels merged) && PyStr.mem "DAY.1" (labels merged)).
  - unfold rename, drop. cbn [df_columns]. split.
    + intros [col [E Hin]]. apply in_map_iff in Hin. destruct Hin as [col0 [E0 Hin]].
      apply filter_In in Hin. destruct Hin as [Hin _].
      destruct (has_label "DAY.1" col0) eqn:H1.
      * subst col. cbn [fst] in E. vm_compute in E. congruence.
      * subst col0. exists (fst col). split; [now apply in_map | assumption].
    + intros [raw [Hin E]]. apply in_map_iff in Hin. destruct Hin as [col [<- Hin]].
      assert (H0 : has_label "DAY" col = false).
      { unfold has_label. apply String.eqb_neq. intros E0. rewrite E0 in E.
        vm_compute in E. congruence. }
      assert (H1 : has_label "DAY.1" col = false).
      { unfold has_label. apply String.eqb_neq. intros E0. rewrite E0 in E.
        vm_compute in E. congruence. }
      exists col. split; [assumption|]. apply in_map_iff. exists col. split.
      * now rewrite H1.
      * apply filter_In. split; [assumption | now rewrite H0].
  - split.
    + intros [col [E Hin]]. exists (fst col). split; [now apply in_map | assumption].
    + intros [raw [Hin E]]. apply in_map_iff in Hin. destruct Hin as [col [<- Hin]].
      now exists col.
Qed.

(** The frame that reaches the loop over [text_cols]. *)
Lemma count_before_text_loop (df0 : DataFrame) (times : list cell) (c : string) :
  In c required_cols -> c <> "START TIME" ->
  count_label c
    (dropna (assign (select df0 (filter (fun c => PyStr.mem c (labels df0)) required_cols))
                    "START TIME" times) times)
  = count_label c df0.
Proof.
  intros Hr Hne. unfold count_label.
  rewrite filter_dropna, length_map, filter_assign_other by assumption.
  rewrite filter_select by apply existing_cols_NoDup.
  destruct (PyStr.mem c (labels df0)) eqn:Hm.
  - now rewrite existing_cols_mem.
  - replace (PyStr.mem c (filter (fun c0 => PyStr.mem c0 (labels df0)) required_cols))
      with false.
    + symmetry. apply length_zero_iff_nil. apply filter_label_nil. exact Hm.
    + symmetry. apply mem_false. rewrite filter_In. intros [_ H]. congruence.
Qed.

Lemma clean_text_col_count (df df' : DataFrame) (c c' : string) :
  clean_text_col df c = Ok df' -> c' <> c -> count_label c' df' = count_label c' df.
Proof.
  intros H Hne. destruct (clean_text_col_spec _ _ _ H) as [_ [O _]].
  unfold count_label. now rewrite O.
Qed.

(** The loop over the text columns goes through when no label of the loop
    is carried twice, and stops at the first that is. *)
Lemma clean_text_cols_ok (cs : list string) (df : DataFrame) :
  NoDup cs -> (forall c, In c cs -> count_label c df <= 1) ->
  exists df', clean_text_cols df cs = Ok df'.
Proof.
  intros ND. revert df. induction ND as [|c t Hc ND IH]; intros df Hcount.
  - now exists df.
  - cbn [clean_text_cols]. unfold bind.
    assert (H1 : exists df1, clean_text_col df c = Ok df1).
    { unfold clean_text_col. specialize (Hcount c (or_introl eq_refl)).
      unfold count_label in Hcount.
      destruct (filter (has_label c) (df_columns df)) as [|col [|col2 l]]; eauto.
      cbn [List.length] in Hcount. lia. }
    destruct H1 as [df1 H1]. rewrite H1. apply IH. intros c' Hin.
    rewrite (clean_text_col_count _ _ _ _ H1) by (intros ->; contradiction).
    apply Hcount. now right.
Qed.

Lemma clean_text_cols_raise (cs : list string) (df : DataFrame) (e : error) :
  NoDup cs -> clean_text_cols df cs = Raise e ->
  exists c, In c cs /\ e = NotASeries c /\ 2 <= count_label c df.
Proof.
  intros ND. revert df. induction ND as [|c t Hc ND IH]; intros df H; [discriminate|].
  cbn [clean_text_cols] in H. unfold bind in H.
  destruct (clean_text_col df c) as [df1|e1] eqn:E1.
  - destruct (IH _ H) as [c' [Hin [He Hn]]]. exists c'. split; [now right|].
    split; [assumption|].
    rewrite (clean_text_col_count _ _ _ _ E1) in Hn by (intros ->; contradiction).
    exact Hn.
  - injection H as <-. exists c. split; [now left|].
    unfold clean_text_col in E1. unfold count_label.
    destruct (filter (has_label c) (df_columns df)) as [|col [|col2 l]]; try discriminate.
    injection E1 as <-. split; [reflexivity | cbn [List.length]; lia].
Qed.

Lemma column_cases (df : DataFrame) (c : string) :
  (count_label c df = 0 /\ column df c = Raise (KeyError c)) \/
  (count_label c df = 1 /\ exists v, column df c = Ok v) \/
  (2 <= count_label c df /\ column df c = Raise (NotASeries c)).
Proof.
  unfold count_label, column.
  destruct (filter (has_label c) (df_columns df)) as [|col [|col2 t]]; cbn [List.length].
  - left. now split.
  - right. left. split; [reflexivity | now exists (snd col)].
  - right. right. split; [lia | reflexivity].
Qed.

Lemma count_select_start (df0 : DataFrame) :
  count_label "START TIME"
              (select df0 (filter (fun c => PyStr.mem c (labels df0)) required_cols))
  = count_label "START TIME" df0.
Proof.
  unfold count_label. rewrite filter_select by apply existing_cols_NoDup.
  destruct (PyStr.mem "START TIME" (labels df0)) eqn:Hm.
  - rewrite existing_cols_mem; [reflexivity | simpl; tauto | assumption].
  - replace (PyStr.mem "START TIME" (filter (fun c0 => PyStr.mem c0 (labels df0)) required_cols))
      with false.
    + symmetry. apply length_zero_iff_nil. apply filter_label_nil. exact Hm.
    + symmetry. apply mem_false. rewrite filter_In. intros [_ H]. congruence.
Qed.

Lemma text_cols_required (c : string) : In c text_cols -> In c required_cols /\ c <> "START TIME".
Proof.
  unfold text_cols, required_cols. cbn [In].
  intros H. repeat (destruct H as [H|H]; [subst c; split; [tauto | discriminate]|]).
  destruct H.
Qed.

(** What [clean] returns or raises, by the labels of the relabelled
    frame. *)
Lemma clean_outcome (merged : DataFrame) :
  let df0 := relabel merged in
  (count_label "START TIME" df0 = 0 /\
   clean to_datetime_coerce merged = Raise (SchemaError (labels df0))) \/
  (2 <= count_label "START TIME" df0 /\
   clean to_datetime_coerce merged = Raise (NotASeries "START TIME")) \/
  (count_label "START TIME" df0 = 1 /\
   ((exists c, In c text_cols /\ 2 <= count_label c df0 /\
               clean to_datetime_coerce merged = Raise (NotASeries c)) \/
    ((forall c, In c text_cols -> count_label c df0 <= 1) /\
     exists df, clean to_datetime_coerce merged = Ok df))).
Proof.
  intros df0. unfold clean. cbv zeta. fold df0.
  destruct (PyStr.mem "START TIME" (labels df0)) eqn:Hm; cbn [negb].
  2:{ left. split; [|reflexivity]. apply count_mem. now apply mem_false. }
  right.
  set (df1 := select df0 _).
  pose proof (count_select_start df0) as Hc1. fold df1 in Hc1.
  destruct (column_cases df1 "START TIME") as [[H0 _]|[[H1 [start Hs]]|[H2 Hr]]].
  - exfalso. rewrite Hc1 in H0. apply count_mem in H0. apply mem_In in Hm. contradiction.
  - right. split; [congruence|]. rewrite Hs. cbn [bind].
    set (times := standardize_time to_datetime_coerce start).
    set (df2 := dropna (assign df1 "START TIME" times) times).
    assert (Hcount : forall c, In c text_cols -> count_label c df2 = count_label c df0).
    { intros c Hin. destruct (text_cols_required c Hin) as [Hr Hne].
      unfold df2, df1. now apply count_before_text_loop. }
    destruct (clean_text_cols df2 text_cols) as [df3|e] eqn:E3.
    + right. split.
      * intros c Hin. rewrite <- Hcount by assumption.
        destruct (clean_text_cols_spec _ _ _ text_cols_NoDup E3) as [_ [_ S3]].
        destruct (S3 c Hin) as [v [_ Tv]]. unfold count_label.
        destruct Tv as [[-> _]|[raw [-> _]]]; cbn [List.length]; lia.
      * cbn [bind].
        destruct (clean_text_cols_spec _ _ _ text_cols_NoDup E3) as [_ [_ S3]].
        destruct (S3 "INTAKE") as [vi [Fi _]]; [unfold text_cols; simpl; tauto|].
        destruct (S3 "GROUP") as [vg [Fg _]]; [unfold text_cols; simpl; tauto|].
        rewrite (column_of_filter _ _ _ Fi), (column_of_filter _ _ _ Fg). cbn [bind].
        eauto.
    + left. cbn [bind].
      destruct (clean_text_cols_raise _ _ _ text_cols_NoDup E3) as [c [Hin [-> Hn]]].
      exists c. split; [assumption|]. split; [|reflexivity].
      now rewrite <- Hcount.
  - left. split; [congruence|]. now rewrite Hr.
Qed.

End CleanedFrame.

(** X6: normalisation raises the schema error exactly when no label of the
    merged frame reads START TIME once trimmed and upper-cased, and the error
    then lists the labels of the relabelled frame; the start times are not
    looked at before that. *)
Theorem schema_error_by_raw_labels (to_datetime_coerce : list cell -> cell -> option N)
        (all_sheets : list DataFrame) (merged : DataFrame) :
  Frame.concat all_sheets = Ok merged ->
  ((exists found, load_and_clean_data to_datetime_coerce all_sheets = Raise (SchemaError found))
   <-> ~ exists raw, In raw (labels merged) /\ PyStr.upper (PyStr.strip raw) = "START TIME") /\
  (forall found,
      load_and_clean_data to_datetime_coerce all_sheets = Raise (SchemaError found) ->
      found = labels (relabel merged)).
Proof.
  intros Hc. unfold load_and_clean_data. rewrite Hc. cbn [bind].
  rewrite <- (relabel_In merged "START TIME") by discriminate. split.
  - split.
    + intros [found H]. apply clean_schema_error in H. tauto.
    + intros Hn. exists (labels (relabel merged)). apply clean_schema_error. now split.
  - intros found H. apply clean_schema_error in H. tauto.
Qed.

(** X6 on the sheet with the columns SUBJECT and TEACHER only. *)
Lemma schema_error_by_raw_labels_witness :
  (exists found,
      load_and_clean_data Sample.reads_nothing [Sample.subject_teacher_only]
      = Raise (SchemaError found))
  <-> ~ exists raw, In raw (labels Sample.subject_teacher_only) /\
                    PyStr.upper (PyStr.strip raw) = "START TIME".
Proof.
  apply (schema_error_by_raw_labels Sample.reads_nothing [Sample.subject_teacher_only]
                                    Sample.subject_teacher_only).
  reflexivity.
Defined.



(** ** Rows and columns of the cleaned frame *)

Section Rectangular.

Import Frame.

Lemma length_select_mask {A B : Type} (mask : list bool) (l : list A) (l' : list B) :
  List.length l = List.length mask -> List.length l' = List.length mask ->
  List.length (select_mask mask l) = List.length (select_mask mask l').
Proof.
  revert l l'. induction mask as [|b m IH]; intros [|x l] [|y l']; cbn [List.length select_mask];
    try discriminate; try reflexivity.
  intros H H'. injection H as H. injection H' as H'.
  destruct b; cbn [List.length]; rewrite (IH l l') by assumption; reflexivity.
Qed.

Lemma rect_relabel (merged : DataFrame) : rectangular merged -> rectangular (relabel merged).
Proof.
  unfold rectangular, nrows. rewrite relabel_index.
  unfold relabel, map_labels, reconcile_day. cbn [df_columns]. intros H.
  apply Forall_map. cbn [snd].
  destruct (PyStr.mem "DAY" (labels merged) && PyStr.mem "DAY.1" (labels merged));
    [|exact H].
  unfold rename, drop. cbn [df_columns]. apply Forall_map.
  apply Forall_forall. intros col Hin. apply filter_In in Hin. destruct Hin as [Hin _].
  rewrite Forall_forall in H. specialize (H col Hin).
  now destruct (has_label "DAY.1" col).
Qed.

Lemma rect_select (df : DataFrame) (cs : list string) :
  rectangular df -> rectangular (select df cs).
Proof.
  unfold rectangular, nrows, select. cbn [df_columns df_index]. intros H.
  apply Forall_forall. intros col Hin. apply in_flat_map in Hin.
  destruct Hin as [c [_ Hin]]. apply filter_In in Hin. destruct Hin as [Hin _].
  rewrite Forall_forall in H. now apply H.
Qed.

Lemma rect_assign (df : DataFrame) (c : string) (v : list cell) :
  rectangular df -> List.length v = nrows df -> rectangular (assign df c v).
Proof.
  unfold rectangular, nrows. rewrite assign_index. unfold assign. intros H Hv.
  destruct (PyStr.mem c (labels df)); cbn [df_columns].
  - apply Forall_map. revert H. apply Forall_impl. intros col Hc.
    now destruct (has_label c col).
  - apply Forall_app. split; [assumption|]. constructor; [assumption | constructor].
Qed.

Lemma rect_dropna (df : DataFrame) (v : list cell) :
  rectangular df -> List.length v = nrows df -> rectangular (dropna df v).
Proof.
  unfold rectangular, nrows, dropna. cbn [df_columns df_index]. intros H Hv.
  apply Forall_map. cbn [snd]. revert H. apply Forall_impl. intros col Hc.
  apply length_select_mask; rewrite length_map; congruence.
Qed.

Lemma rect_column (df : DataFrame) (c : string) (v : list cell) :
  rectangular df -> column df c = Ok v -> List.length v = nrows df.
Proof.
  intros H Hc. apply column_Ok_filter in Hc.
  assert (Hin : In (c, v) (filter (has_label c) (df_columns df))) by (rewrite Hc; now left).
  apply filter_In in Hin. destruct Hin as [Hin _].
  unfold rectangular in H. rewrite Forall_forall in H. exact (H _ Hin).
Qed.

Lemma rect_clean_text_col (df df' : DataFrame) (c : string) :
  rectangular df -> clean_text_col df c = Ok df' -> rectangular df'.
Proof.
  intros H. unfold clean_text_col.
  destruct (filter (has_label c) (df_columns df)) as [|col [|col2 t]] eqn:E;
    intros Hc; try discriminate; injection Hc as <-; apply rect_assign; try assumption.
  - unfold reindex. now rewrite length_map.
  - rewrite length_map.
    assert (Hin : In col (filter (has_label c) (df_columns df))) by (rewrite E; now left).
    apply filter_In in Hin. destruct Hin as [Hin _].
    unfold rectangular in H. rewrite Forall_forall in H. exact (H _ Hin).
Qed.

Lemma rect_clean_text_cols (cs : list string) (df df' : DataFrame) :
  rectangular df -> clean_text_cols df cs = Ok df' -> rectangular df'.
Proof.
  revert df. induction cs as [|c t IH]; intros df H Hc.
  - injection Hc as <-. exact H.
  - cbn [clean_text_cols] in Hc. unfold bind in Hc.
    destruct (clean_text_col df c) as [df1|] eqn:E1; [|discriminate].
    apply (IH df1); [now apply (rect_clean_text_col df df1 c) | assumption].
Qed.

Lemma rect_concat (frames : list DataFrame) (merged : DataFrame) :
  Forall rectangular frames -> concat frames = Ok merged -> rectangular merged.
Proof.
  intros HF. unfold concat. destruct frames as [|f0 fs] eqn:Ef; [discriminate|].
  rewrite <- Ef in *. clear Ef f0 fs. intros H. injection H as <-.
  unfold rectangular, nrows. cbn [df_columns df_index]. apply Forall_map. cbn [snd].
  apply Forall_forall. intros c _. rewrite length_seq.
  induction HF as [|f t Hf Ht IH]; [reflexivity|].
  cbn [flat_map]. rewrite !length_app, IH. f_equal.
  destruct (find (has_label c) (df_columns f)) as [col|] eqn:E.
  - apply find_some in E. destruct E as [Hin _].
    unfold rectangular in Hf. rewrite Forall_forall in Hf. exact (Hf _ Hin).
  - apply repeat_length.
Qed.

Variable to_datetime_coerce : list cell -> cell -> option N.

Lemma standardize_time_length (v : list cell) :
  List.length (standardize_time to_datetime_coerce v) = List.length v.
Proof.
  unfold standardize_time. destruct (strict_times v) as [ts|] eqn:E.
  - rewrite length_map. revert ts E. induction v as [|c t IH]; intros ts E.
    + injection E as <-. reflexivity.
    + cbn [strict_times] in E. destruct (strict_time c); [|discriminate].
      destruct (strict_times t) as [xs|]; [|discriminate]. injection E as <-.
      cbn [List.length]. now rewrite (IH xs).
  - apply length_map.
Qed.

Lemma rect_clean (merged df : DataFrame) :
  rectangular merged -> clean to_datetime_coerce merged = Ok df -> rectangular df.
Proof.
  intros Hrect H. destruct (clean_Ok_inv _ _ _ H) as [start [df3 [intake [group Hinv]]]].
  cbv zeta in Hinv. destruct Hinv as [_ [Hs [Ht [Hi [Hg ->]]]]].
  set (df1 := select (relabel merged) _) in *.
  assert (R1 : rectangular df1) by (apply rect_select, rect_relabel, Hrect).
  assert (Ls : List.length start = nrows df1) by now apply (rect_column df1 "START TIME").
  assert (R3 : rectangular df3).
  { apply (rect_clean_text_cols text_cols _ df3) in Ht; [assumption|].
    apply rect_dropna.
    - apply rect_assign; [assumption|]. now rewrite standardize_time_length.
    - unfold nrows. rewrite assign_index. fold (nrows df1).
      now rewrite standardize_time_length. }
  apply rect_assign; [assumption|].
  rewrite length_map, length_combine.
  rewrite (rect_column df3 "INTAKE" intake R3 Hi), (rect_column df3 "GROUP" group R3 Hg).
  apply Nat.min_id.
Qed.

(** The labels of the cleaned frame. *)
Lemma clean_counts (merged df : DataFrame) :
  clean to_datetime_coerce merged = Ok df ->
  (forall c, In c cleaned_labels -> count_label c df = 1) /\
  count_label "DAY" df = count_label "DAY" (relabel merged) /\
  (forall c, In c (labels df) -> In c required_cols \/ c = "INTAKE_GROUP").
Proof.
  intros H. destruct (clean_Ok_inv _ _ _ H) as [start [df3 [intake [group Hinv]]]].
  cbv zeta in Hinv. destruct Hinv as [Hm [Hs [Ht [Hi [Hg ->]]]]].
  set (df0 := relabel merged) in *.
  set (df1 := select df0 _) in *.
  set (times := standardize_time to_datetime_coerce start) in *.
  set (df2 := dropna (assign df1 "START TIME" times) times) in *.
  destruct (clean_text_cols_spec _ _ _ text_cols_NoDup Ht) as [_ [O3 S3]].
  assert (Hother : forall c, ~ In c required_cols ->
                             filter (has_label c) (df_columns df3) = []).
  { intros c Hn. rewrite O3.
    - unfold df2. rewrite filter_dropna.
      destruct (String.eqb_spec c "START TIME") as [->|Hst];
        [exfalso; apply Hn; unfold required_cols; simpl; tauto|].
      rewrite filter_assign_other by assumption.
      unfold df1. rewrite filter_select by apply existing_cols_NoDup.
      replace (PyStr.mem c (filter (fun c0 => PyStr.mem c0 (labels df0)) required_cols))
        with false; [reflexivity|].
      symmetry. apply mem_false. rewrite filter_In. tauto.
    - intros Hin. apply Hn. now apply text_cols_required. }
  assert (Hig3 : filter (has_label "INTAKE_GROUP") (df_columns df3) = []).
  { apply Hother. unfold required_cols. simpl. intuition discriminate. }
  split; [|split].
  - intros c Hin. unfold count_label.
    destruct (String.eqb_spec c "INTAKE_GROUP") as [->|Hne].
    + rewrite filter_assign_same, Hig3. reflexivity.
    + rewrite filter_assign_other by assumption.
      destruct (String.eqb_spec c "START TIME") as [->|Hst].
      * rewrite O3 by (unfold text_cols; simpl; intuition discriminate).
        unfold df2. rewrite filter_dropna, filter_assign_same.
        apply column_Ok_filter in Hs. now rewrite Hs.
      * assert (Htc : In c text_cols).
        { unfold cleaned_labels in Hin. unfold text_cols. cbn [In] in *.
          intuition congruence. }
        destruct (S3 c Htc) as [v [-> _]]. reflexivity.
  - unfold count_label. rewrite filter_assign_other by discriminate.
    rewrite O3 by (unfold text_cols; simpl; intuition discriminate).
    fold (count_label "DAY" df2). unfold df2, df1.
    apply count_before_text_loop; [unfold required_cols; simpl; tauto | discriminate].
  - intros c Hin.
    destruct (in_dec string_dec c required_cols) as [|Hn]; [now left|].
    destruct (string_dec c "INTAKE_GROUP") as [|Hne]; [now right|].
    exfalso. apply mem_In in Hin. unfold labels in Hin.
    assert (E : filter (has_label c)
                       (df_columns (assign df3 "INTAKE_GROUP"
                          (map (fun p => str_add (str_add (fst p) (Str " ")) (snd p))
                               (combine intake group)))) = []).
    { rewrite filter_assign_other by assumption. now apply Hother. }
    apply filter_label_nil in E. congruence.
Qed.

End Rectangular.

(** X8: when every sheet has one cell per row in each of its columns, so
    has the cleaned frame, absent text columns included; it carries each of
    START TIME, ROOM, GROUP, TEACHER, SUBJECT, INTAKE and INTAKE_GROUP exactly
    once, DAY as often as the relabelled input carries it, and no label
    besides these. *)
Theorem cleaned_frame_schema (to_datetime_coerce : list cell -> cell -> option N)
        (all_sheets : list DataFrame) (df : DataFrame) :
  Forall rectangular all_sheets ->
  load_and_clean_data to_datetime_coerce all_sheets = Ok df ->
  rectangular df /\
  (forall c, In c cleaned_labels -> exists v, Frame.column df c = Ok v /\
                                              List.length v = nrows df) /\
  (exists merged, Frame.concat all_sheets = Ok merged /\
                  count_label "DAY" df = count_label "DAY" (relabel merged)) /\
  (forall c, In c (labels df) -> In c required_cols \/ c = "INTAKE_GROUP").
Proof.
  intros HF H. destruct (load_inv _ _ _ H) as [merged [Hc Hcl]].
  assert (Hrect : rectangular df)
    by (apply (rect_clean to_datetime_coerce merged); [now apply (rect_concat all_sheets)|assumption]).
  destruct (clean_counts _ _ _ Hcl) as [H1 [H2 H3]].
  split; [assumption|]. split; [|split; [|assumption]].
  - intros c Hin. destruct (proj1 (count_column df c) (H1 c Hin)) as [v Hv].
    exists v. split; [assumption | now apply (rect_column df c)].
  - now exists merged.
Qed.

(** X8 on the sheet with a blank row before the class. *)
Lemma cleaned_frame_schema_witness :
  rectangular
    (mkDF [1] [("DAY", [Str "Mon"]); ("START TIME", [Str "08:05:00"]);
               ("TEACHER", [Str "A"]); ("ROOM", [NaN]); ("GROUP", [NaN]);
               ("SUBJECT", [NaN]); ("INTAKE", [NaN]); ("INTAKE_GROUP", [NaN])]).
Proof.
  apply (cleaned_frame_schema Sample.reads_nothing [Sample.teacher_only_blank_row_first]).
  - repeat constructor.
  - vm_compute. reflexivity.
Defined.

(** ** The day column and the text columns *)

Section DayColumn.

Import Frame.

Variable to_datetime_coerce : list cell -> cell -> option N.

Lemma clean_day_column (merged df : DataFrame) (raw : list cell) :
  clean to_datetime_coerce merged = Ok df ->
  column (relabel merged) "DAY" = Ok raw ->
  exists start,
    column (relabel merged) "START TIME" = Ok start /\
    column df "DAY" = Ok (kept (standardize_time to_datetime_coerce start) raw).
Proof.
  intros H Hraw.
  destruct (clean_start_times _ _ _ H) as [start [Hs0 _]].
  exists start. split; [assumption|].
  destruct (clean_Ok_inv _ _ _ H) as [start' [df3 [intake [group Hinv]]]].
  cbv zeta in Hinv. destruct Hinv as [Hm [Hs [Ht [_ [_ ->]]]]].
  assert (start' = start).
  { apply column_Ok_filter in Hs.
    rewrite filter_select in Hs by apply existing_cols_NoDup.
    rewrite existing_cols_mem in Hs; [| simpl; tauto | assumption].
    apply column_Ok_filter in Hs0. congruence. }
  subst start'.
  destruct (clean_text_cols_spec _ _ _ text_cols_NoDup Ht) as [_ [O3 _]].
  apply column_of_filter. rewrite filter_assign_other by discriminate.
  rewrite O3 by (unfold text_cols; simpl; intuition discriminate).
  apply (filter_before_text_loop to_datetime_coerce (relabel merged) start "DAY" raw);
    [unfold required_cols; simpl; tauto | discriminate | assumption].
Qed.

Lemma promoted_columns (cols : list (string * list cell)) :
  (forall col, In col cols -> fst col <> "DAY" -> fst col <> "DAY.1" ->
               PyStr.upper (PyStr.strip (fst col)) <> "DAY") ->
  filter (has_label "DAY")
         (map (fun col => (PyStr.upper (PyStr.strip (fst col)), snd col))
              (map (fun col => if has_label "DAY.1" col then ("DAY", snd col) else col)
                   (filter (fun col => negb (has_label "DAY" col)) cols)))
  = map (fun col => ("DAY", snd col)) (filter (has_label "DAY.1") cols).
Proof.
  induction cols as [|col t IH]; intros Hother; [reflexivity|].
  assert (IH' := IH (fun c Hin => Hother c (or_intror Hin))). clear IH.
  cbn [filter]. destruct (has_label "DAY" col) eqn:H0; cbn [negb].
  - apply has_label_iff in H0.
    assert (H1 : has_label "DAY.1" col = false)
      by (unfold has_label; rewrite H0; reflexivity).
    now rewrite H1.
  - cbn [map]. destruct (has_label "DAY.1" col) eqn:H1; cbn [map filter fst snd].
    + change (has_label "DAY" (PyStr.upper (PyStr.strip "DAY"), snd col)) with true.
      cbn iota. now rewrite IH'.
    + assert (E : has_label "DAY" (PyStr.upper (PyStr.strip (fst col)), snd col) = false).
      { unfold has_label. cbn [fst]. apply String.eqb_neq.
        apply Hother; [now left | |].
        - apply String.eqb_neq. exact H0.
        - apply String.eqb_neq. exact H1. }
      now rewrite E.
Qed.

Lemma relabel_promotes_day1 (merged : DataFrame) (v : list cell) :
  In "DAY" (labels merged) ->
  column merged "DAY.1" = Ok v ->
  (forall c, In c (labels merged) -> c <> "DAY" -> c <> "DAY.1" ->
             PyStr.upper (PyStr.strip c) <> "DAY") ->
  column (relabel merged) "DAY" = Ok v.
Proof.
  intros Hd H1 Hother. apply column_of_filter.
  unfold relabel, map_labels, reconcile_day.
  assert (E0 : PyStr.mem "DAY" (labels merged) = true) by now apply mem_In.
  assert (E1 : PyStr.mem "DAY.1" (labels merged) = true).
  { apply Bool.not_false_iff_true. intros F. unfold labels in F.
    apply filter_label_nil in F. apply column_Ok_filter in H1. congruence. }
  rewrite E0, E1. cbn [andb rename drop df_columns].
  rewrite promoted_columns.
  - apply column_Ok_filter in H1. now rewrite H1.
  - intros col Hin. apply Hother. unfold labels. now apply in_map.
Qed.

End DayColumn.

(** X9: when the merged frame carries both DAY and DAY.1, the day of the
    cleaned frame is the DAY.1 column, cut down to the rows that are kept;
    the column labelled DAY is discarded. *)
Theorem duplicate_day_column_promoted (to_datetime_coerce : list cell -> cell -> option N)
        (all_sheets : list DataFrame) (merged df : DataFrame) (v : list cell) :
  Frame.concat all_sheets = Ok merged ->
  In "DAY" (labels merged) ->
  Frame.column merged "DAY.1" = Ok v ->
  (forall c, In c (labels merged) -> c <> "DAY" -> c <> "DAY.1" ->
             PyStr.upper (PyStr.strip c) <> "DAY") ->
  load_and_clean_data to_datetime_coerce all_sheets = Ok df ->
  exists start,
    Frame.column (relabel merged) "START TIME" = Ok start /\
    Frame.column df "DAY" = Ok (kept (standardize_time to_datetime_coerce start) v).
Proof.
  intros Hc Hd H1 Hother H. unfold load_and_clean_data in H. rewrite Hc in H. cbn [bind] in H.
  apply (clean_day_column to_datetime_coerce merged df v H).
  now apply relabel_promotes_day1.
Qed.

(** X9 on a sheet with the day columns [1, 2] and [Mon, Tue], whose second
    row has no start time. *)
Lemma duplicate_day_column_promoted_witness :
  exists start,
    Frame.column (relabel Sample.two_day_columns) "START TIME" = Ok start /\
    Frame.column
      (mkDF [0] [("DAY", [Str "Mon"]); ("START TIME", [Str "08:05:00"]);
                 ("ROOM", [Str ""]); ("GROUP", [Str ""]); ("TEACHER", [Str ""]);
                 ("SUBJECT", [Str ""]); ("INTAKE", [Str ""]); ("INTAKE_GROUP", [Str " "])])
      "DAY"
    = Ok (kept (standardize_time Sample.reads_nothing start) [Str "Mon"; Str "Tue"]).
Proof.
  apply (duplicate_day_column_promoted Sample.reads_nothing [Sample.two_day_columns]
                                       Sample.two_day_columns).
  - reflexivity.
  - simpl. tauto.
  - reflexivity.
  - simpl. intros c [<-|[<-|[<-|[]]]]; intros; try congruence. vm_compute. discriminate.
  - vm_compute. reflexivity.
Defined.

(** X10: a text column that the input carries holds no missing value after
    normalisation, and every text in it is trimmed: trimming it again changes
    nothing. *)
Theorem present_text_column_trimmed (to_datetime_coerce : list cell -> cell -> option N)
        (all_sheets : list DataFrame) (merged df : DataFrame) (c : string) (raw : list cell) :
  Frame.concat all_sheets = Ok merged ->
  load_and_clean_data to_datetime_coerce all_sheets = Ok df ->
  In c text_cols ->
  Frame.column (relabel merged) c = Ok raw ->
  exists v, Frame.column df c = Ok v /\
            Forall (fun x => exists s, x = Str s /\ PyStr.strip s = s) v.
Proof.
  intros Hc H Hin Hraw. unfold load_and_clean_data in H. rewrite Hc in H. cbn [bind] in H.
  destruct (clean_text_column to_datetime_coerce merged df c raw H Hin Hraw) as [start [_ Hcol]].
  cbv zeta in Hcol. eexists. split; [exact Hcol|].
  apply Forall_map. apply Forall_forall. intros x _.
  exists (PyStr.strip (astype_str x)). split; [reflexivity | apply strip_idem].
Qed.

(** X10 on the room column of the sample with blank cells. *)
Lemma present_text_column_trimmed_witness :
  exists v,
    Frame.column
      (mkDF [0; 1]
            [("DAY", [Str "Mon"; Str "Mon"]);
             ("START TIME", [Str "08:05:00"; Str "09:05:00"]);
             ("SUBJECT", [Str "Math"; Str "Art"]);
             ("TEACHER", [Str "A"; Str "B"]);
             ("ROOM", [Str "101"; Str "nan"]);
             ("GROUP", [Str "nan"; Str "G1"]);
             ("INTAKE", [Str "nan"; Str "JAN"]);
             ("INTAKE_GROUP", [Str "nan nan"; Str "JAN G1"])])
      "ROOM" = Ok v /\
    Forall (fun x => exists s, x = Str s /\ PyStr.strip s = s) v.
Proof.
  apply (present_text_column_trimmed Sample.reads_nothing [Sample.blank_cells]
                                     Sample.blank_cells _ "ROOM" [Str "101"; NaN]).
  - reflexivity.
  - vm_compute. reflexivity.
  - simpl. tauto.
  - reflexivity.
Defined.

(** ** Occupancy entries *)

Section Entries.

Lemma NoDup_map_on {A B : Type} (f : A -> B) (l : list A) :
  (forall x y, In x l -> In y l -> f x = f y -> x = y) -> NoDup l -> NoDup (map f l).
Proof.
  intros Hinj ND. induction ND as [|x t Hx ND IH]; cbn [map]; constructor.
  - rewrite in_map_iff. intros [y [E Hy]].
    assert (y = x) by (apply Hinj; [now right | now left | assumption]). subst y. contradiction.
  - apply IH. intros a b Ha Hb. apply Hinj; now right.
Qed.

Lemma keyed_In_iff (recs : list ClassRecord) (k : group_key) :
  In k (map fst (keyed recs)) <-> exists r, In r recs /\ key_of r = Some k.
Proof.
  split; [apply keyed_In|]. intros [r [Hr Hk]]. rewrite in_map_iff.
  exists (k, rec_intake_group r). split; [reflexivity|]. unfold keyed.
  apply in_flat_map. exists r. split; [assumption|]. rewrite Hk. now left.
Qed.

Lemma keyed_length (recs : list ClassRecord) : List.length (keyed recs) <= List.length recs.
Proof.
  unfold keyed. induction recs as [|r t IH]; cbn [flat_map List.length]; [lia|].
  rewrite length_app. destruct (key_of r); cbn [List.length]; lia.
Qed.

Lemma join_unique_cases (x : list cell) :
  (In NaN x /\ join_unique x = Raise TypeError) \/
  (~ In NaN x /\
   join_unique x = Ok (PyStr.join PyStr.nl (map astype_str (unique cell_eqb x)))).
Proof.
  unfold join_unique. destruct (existsb isna (unique cell_eqb x)) eqn:E.
  - left. split; [|reflexivity]. apply existsb_exists in E. destruct E as [c [Hc Hna]].
    apply unique_In in Hc; [|apply cell_eqb_eq]. destruct c; [assumption | discriminate].
  - right. split; [|reflexivity]. intros Hin.
    assert (existsb isna (unique cell_eqb x) = true); [|congruence].
    apply existsb_exists. exists NaN. split; [|reflexivity].
    apply unique_In; [apply cell_eqb_eq | assumption].
Qed.

Lemma apply_groups_outcome (ks : list group_key) (kv : list (group_key * cell)) :
  (exists k, In k ks /\ In NaN (map snd (filter (fun p => eqb (fst p) k) kv)) /\
             apply_groups ks kv = Raise TypeError) \/
  ((forall k, In k ks -> ~ In NaN (map snd (filter (fun p => eqb (fst p) k) kv))) /\
   exists rows, apply_groups ks kv = Ok rows).
Proof.
  induction ks as [|k t IH].
  - right. split; [intros k []|]. now exists [].
  - cbn [apply_groups]. unfold bind.
    destruct (join_unique_cases (map snd (filter (fun p => eqb (fst p) k) kv)))
      as [[Hin ->]|[Hn ->]].
    + left. exists k. split; [now left|]. now split.
    + destruct IH as [[k' [Hk' [Hin ->]]]|[Hall [rows ->]]].
      * left. exists k'. split; [now right|]. now split.
      * right. split.
        -- intros k' [<-|Hk']; [assumption | now apply Hall].
        -- destruct k as [d [s [su [te ro]]]]. eauto.
Qed.

Lemma group_values (recs : list ClassRecord) (k : group_key) (c : cell) :
  In c (map snd (filter (fun p => eqb (fst p) k) (keyed recs))) <->
  exists r, In r recs /\ key_of r = Some k /\ rec_intake_group r = c.
Proof.
  rewrite keyed_group, in_map_iff. split.
  - intros [r [E Hin]]. apply filter_In in Hin. destruct Hin as [Hin Hk].
    exists r. split; [assumption|]. split; [|assumption].
    destruct (key_of r) as [k'|]; [|discriminate]. apply eqb_eq in Hk. now subst.
  - intros [r [Hin [Hk E]]]. exists r. split; [assumption|]. apply filter_In.
    split; [assumption|]. rewrite Hk. now apply eqb_eq.
Qed.

Lemma Forall2_In_l {A B : Type} (P : A -> B -> Prop) (l : list A) (l' : list B) (x : A) :
  Forall2 P l l' -> In x l -> exists y, In y l' /\ P x y.
Proof.
  induction 1 as [|a b l l' Hab _ IH]; intros Hin; [destruct Hin|].
  destruct Hin as [->|Hin].
  - exists b. split; [now left | assumption].
  - destruct (IH Hin) as [y [Hy Py]]. exists y. split; [now right | assumption].
Qed.

Lemma groupby_raises_TypeError (recs : list ClassRecord) (e : error) :
  groupby_rows recs = Raise e -> e = TypeError.
Proof.
  unfold groupby_rows.
  destruct (apply_groups_outcome (sorted leb (unique eqb (map fst (keyed recs)))) (keyed recs))
    as [[k [_ [_ E]]]|[_ [rows E]]]; rewrite E; intros H; [now injection H as <- | discriminate].
Qed.

End Entries.

(** X11: the occupancy entries come in strictly ascending order of their
    keys (day, start time, subject, teacher, room), one entry for each key
    that some record carries in full; a record with a missing value in a key
    column gives no entry, so there are at most as many entries as
    records. *)
Theorem grouped_keys (recs : list ClassRecord) (grouped : list GroupedRow) :
  groupby_rows recs = Ok grouped ->
  StronglySorted lt (map key_of_row grouped) /\
  NoDup (map key_of_row grouped) /\
  (forall k, In k (map key_of_row grouped) <-> exists r, In r recs /\ key_of r = Some k) /\
  List.length grouped <= List.length recs.
Proof.
  intros H. pose proof (groupby_keys _ _ H) as Hk.
  split; [now apply groupby_sorted with recs|]. split; [|split].
  - rewrite Hk. apply sorted_NoDup, unique_NoDup, eqb_eq.
  - intros k. rewrite Hk, sorted_In, unique_In by apply eqb_eq. apply keyed_In_iff.
  - rewrite <- (length_map key_of_row), Hk.
    rewrite (Permutation_length (sorted_perm leb _)).
    etransitivity; [|apply keyed_length].
    rewrite <- (length_map fst (keyed recs)).
    apply NoDup_incl_length; [apply unique_NoDup, eqb_eq|].
    intros k Hin. exact (proj1 (unique_In eqb eqb_eq _ k) Hin).
Qed.

(** X11 on two records of one class and one record without a room. *)
Lemma grouped_keys_witness :
  List.length [mkGrouped "Mon" "08:05:00" "Math" "A" "101" ("G1" ++ PyStr.nl ++ "G2")%string]
  <= List.length [mkRecord (Str "Mon") (Str "08:05:00") (Str "Math") (Str "A") (Str "101") (Str "G1");
                  mkRecord (Str "Mon") (Str "08:05:00") (Str "Math") (Str "A") NaN (Str "G3");
                  mkRecord (Str "Mon") (Str "08:05:00") (Str "Math") (Str "A") (Str "101") (Str "G2")].
Proof.
  apply grouped_keys. vm_compute. reflexivity.
Defined.

(** X12: no record with a complete key is lost in the grouping: its entry
    exists, and the entry's intake groups are, each once and joined by line
    breaks, exactly the intake groups of the records with that key. *)
Theorem grouping_keeps_every_group (recs : list ClassRecord) (grouped : list GroupedRow)
        (r : ClassRecord) (k : group_key) :
  groupby_rows recs = Ok grouped ->
  In r recs -> key_of r = Some k ->
  exists row labels,
    In row grouped /\ key_of_row row = k /\
    INTAKE_GROUP row = PyStr.join PyStr.nl labels /\
    NoDup labels /\
    (forall g, In g labels <->
               exists r', In r' recs /\ key_of r' = Some k /\ rec_intake_group r' = Str g).
Proof.
  intros H Hr Hk. pose proof (groupby_keys _ _ H) as Hkeys.
  unfold groupby_rows in H. apply apply_groups_spec in H.
  assert (Hin : In k (sorted leb (unique eqb (map fst (keyed recs))))).
  { apply sorted_In, unique_In; [apply eqb_eq|]. apply keyed_In_iff. eauto. }
  destruct (Forall2_In_l _ _ _ _ H Hin) as [row [Hrow [Hkey Hj]]].
  set (vals := map snd (filter (fun p => eqb (fst p) k) (keyed recs))) in *.
  destruct (join_unique_cases vals) as [[_ E]|[Hnan E]]; rewrite E in Hj; [discriminate|].
  injection Hj as Hj.
  exists row, (map astype_str (unique cell_eqb vals)).
  split; [assumption|]. split; [assumption|]. split; [now symmetry|].
  assert (Hstr : forall c, In c (unique cell_eqb vals) -> exists g, c = Str g).
  { intros c Hc. apply (proj1 (unique_In cell_eqb cell_eqb_eq _ c)) in Hc.
    destruct c as [|g]; [contradiction | now exists g]. }
  split.
  - apply NoDup_map_on; [|apply unique_NoDup, cell_eqb_eq].
    intros x y Hx Hy. destruct (Hstr x Hx) as [gx ->], (Hstr y Hy) as [gy ->].
    cbn [astype_str]. congruence.
  - intros g. rewrite in_map_iff. split.
    + intros [c [E' Hc]]. destruct (Hstr c Hc) as [g' ->]. cbn [astype_str] in E'. subst g'.
      apply (proj1 (unique_In cell_eqb cell_eqb_eq _ _)) in Hc.
      now apply group_values in Hc.
    + intros Hex. exists (Str g). split; [reflexivity|].
      apply (proj2 (unique_In cell_eqb cell_eqb_eq _ _)). now apply group_values.
Qed.

(** X12 on two records of one class. *)
Lemma grouping_keeps_every_group_witness :
  exists row labels,
    In row [mkGrouped "Mon" "08:05:00" "Math" "A" "101" ("G1" ++ PyStr.nl ++ "G2")%string] /\
    key_of_row row = ("Mon", ("08:05:00", ("Math", ("A", "101")))) /\
    INTAKE_GROUP row = PyStr.join PyStr.nl labels /\
    NoDup labels /\
    (forall g, In g labels <->
               exists r',
                 In r' [mkRecord (Str "Mon") (Str "08:05:00") (Str "Math") (Str "A") (Str "101") (Str "G1");
                        mkRecord (Str "Mon") (Str "08:05:00") (Str "Math") (Str "A") (Str "101") (Str "G2")] /\
                 key_of r' = Some ("Mon", ("08:05:00", ("Math", ("A", "101")))) /\
                 rec_intake_group r' = Str g).
Proof.
  apply (grouping_keeps_every_group
           _ _ (mkRecord (Str "Mon") (Str "08:05:00") (Str "Math") (Str "A") (Str "101") (Str "G1"))).
  - vm_compute. reflexivity.
  - now left.
  - reflexivity.
Defined.

(** X13: the grouping raises exactly when some record with a complete key
    has a missing intake group, and then it is the error of joining a missing
    value; it raises nothing else. *)
Theorem grouping_raises_on_missing_intake_group (recs : list ClassRecord) :
  ((exists e, groupby_rows recs = Raise e) <->
   exists r k, In r recs /\ key_of r = Some k /\ rec_intake_group r = NaN) /\
  (forall e, groupby_rows recs = Raise e -> e = TypeError).
Proof.
  unfold groupby_rows.
  destruct (apply_groups_outcome (sorted leb (unique eqb (map fst (keyed recs)))) (keyed recs))
    as [[k [Hk [Hnan E]]]|[Hall [rows E]]]; rewrite E.
  - apply group_values in Hnan. destruct Hnan as [r [Hr [Hkey Hig]]]. split.
    + split; [intros _; now exists r, k | intros _; now exists TypeError].
    + intros e He. now injection He as <-.
  - split.
    + split; [intros [e He]; discriminate|].
      intros [r [k [Hr [Hkey Hig]]]]. exfalso. apply (Hall k).
      * apply sorted_In, unique_In; [apply eqb_eq|]. apply keyed_In_iff. eauto.
      * apply group_values. eauto.
    + intros e He. discriminate.
Qed.

(** ** The builder on a cleaned frame *)


(** X14: on a frame that normalisation returned, the grouping of line 120
    raises for three reasons only: there is no DAY column, there are several,
    or a record with a complete key has a missing intake group.  It raises the
    error of the missing key exactly when the frame has no DAY column, and the
    error of a label carried twice exactly when it has several. *)
Theorem grouping_errors_after_normalisation
        (to_datetime_coerce : list cell -> cell -> option N)
        (all_sheets : list DataFrame) (df : DataFrame) :
  load_and_clean_data to_datetime_coerce all_sheets = Ok df ->
  (df_grouped df = Raise (KeyError "DAY") <-> ~ In "DAY" (labels df)) /\
  (df_grouped df = Raise (NotASeries "DAY") <-> 2 <= count_label "DAY" df) /\
  (forall e, df_grouped df = Raise e ->
             e = KeyError "DAY" \/ e = NotASeries "DAY" \/ e = TypeError).
Proof.
  intros H. destruct (load_inv _ _ _ H) as [merged [_ Hcl]].
  destruct (clean_counts _ _ _ Hcl) as [H1 _].
  assert (Hcol : forall c, In c cleaned_labels -> exists v, Frame.column df c = Ok v).
  { intros c Hin. apply count_column. now apply H1. }
  destruct (Hcol "START TIME") as [start Es]; [unfold cleaned_labels; simpl; tauto|].
  destruct (Hcol "SUBJECT") as [subject Esu]; [unfold cleaned_labels; simpl; tauto|].
  destruct (Hcol "TEACHER") as [teacher Et]; [unfold cleaned_labels; simpl; tauto|].
  destruct (Hcol "ROOM") as [room Er]; [unfold cleaned_labels; simpl; tauto|].
  destruct (Hcol "INTAKE_GROUP") as [ig Ei]; [unfold cleaned_labels; simpl; tauto|].
  unfold df_grouped, records.
  rewrite Es, Esu, Et, Er, Ei.
  destruct (column_cases df "DAY") as [[H0 E]|[[H1' [day E]]|[H2 E]]]; rewrite E; cbn [bind].
  - apply count_mem in H0. split; [tauto|]. split.
    + split; [discriminate|]. intros Hc. apply count_mem in H0. lia.
    + intros e He. injection He as <-. now left.
  - assert (Hin : In "DAY" (labels df)).
    { destruct (in_dec string_dec "DAY" (labels df)) as [|Hn]; [assumption|].
      apply count_mem in Hn. lia. }
    match goal with |- context [groupby_rows ?r] => set (recs := r) end.
    destruct (groupby_rows recs) as [grouped|e0] eqn:Eg.
    + split; [split; [discriminate | tauto]|]. split.
      * split; [discriminate | lia].
      * intros e He. discriminate.
    + pose proof (groupby_raises_TypeError recs e0 Eg) as ->.
      split; [split; [discriminate | tauto]|]. split.
      * split; [discriminate | lia].
      * intros e He. injection He as <-. tauto.
  - assert (Hin : In "DAY" (labels df)).
    { destruct (in_dec string_dec "DAY" (labels df)) as [|Hn]; [assumption|].
      apply count_mem in Hn. lia. }
    split; [split; [discriminate | tauto]|]. split.
    + split; [now intros _ | reflexivity].
    + intros e He. injection He as <-. tauto.
Qed.

(** X14 on the sheet with a start-time column only. *)
Lemma grouping_errors_after_normalisation_witness :
  df_grouped (Sample.cleaned [Sample.start_time_only]) = Raise (KeyError "DAY")
  <-> ~ In "DAY" (labels (Sample.cleaned [Sample.start_time_only])).
Proof.
  apply (grouping_errors_after_normalisation Sample.reads_nothing [Sample.start_time_only]).
  vm_compute. reflexivity.
Defined.

(** X15: the days that get a sheet are exactly the day labels of the
    occupancy entries that have at least one entry with a valid primary value
    (neither empty nor [nan]); every other day is passed over. *)
Theorem emitted_days (timestamp : string) (df : DataFrame) (view_type : string)
        (sheets : list Sheet) :
  generate_schedule_excel timestamp df view_type = Ok sheets ->
  exists grouped,
    df_grouped df = Ok grouped /\
    forall d, In d (map sheet_day sheets) <->
              exists g, In g grouped /\ DAY g = d /\
                        primary_val view_type g <> "" /\ primary_val view_type g <> "nan".
Proof.
  intros H. destruct (generate_inv _ _ _ _ H) as [recs [grouped [Hr [Hg ->]]]].
  exists grouped. split; [unfold df_grouped; rewrite Hr; exact Hg|].
  set (h := ("File Generated on: " ++ timestamp)%string).
  intros d. rewrite sheets_of_days, filter_In.
  rewrite <- (day_sheet_some h view_type grouped d). split.
  - intros [_ Hs]. destruct (day_sheet h view_type grouped d) as [s|]; [eauto | discriminate].
  - intros [s Hs]. split; [|now rewrite Hs].
    apply unique_days_In.
    assert (Hex : exists s0, day_sheet h view_type grouped d = Some s0) by eauto.
    apply day_sheet_some in Hex. destruct Hex as [g [Hgin [Hd _]]].
    rewrite <- Hd. now apply in_map.
Qed.

(** X15 on the cleaned frame of the end-to-end example. *)
Lemma emitted_days_witness :
  exists grouped,
    df_grouped Sample.two_groups_clean = Ok grouped /\
    forall d,
      In d (map sheet_day
                [mkSheet "Mon" "MON" "File Generated on: now" ("ROOM" :: time_slots)
                         [Str "101" :: Str Sample.two_groups_text :: Str Sample.two_groups_text
                                    :: repeat NaN 18]]) <->
      exists g, In g grouped /\ DAY g = d /\
                primary_val "room" g <> "" /\ primary_val "room" g <> "nan".
Proof.
  apply (emitted_days "now" Sample.two_groups_clean "room"). vm_compute. reflexivity.
Defined.

(** X16: every view type other than [room] is the teacher view: the builder
    does on it what it does on [teacher]. *)
Theorem any_other_view_is_teacher (timestamp : string) (df : DataFrame) (view_type : string) :
  view_type <> "room" ->
  generate_schedule_excel timestamp df view_type
  = generate_schedule_excel timestamp df "teacher".
Proof.
  intros H. unfold generate_schedule_excel, bind.
  destruct (df_grouped df) as [grouped|]; [|reflexivity]. f_equal.
  apply sheets_of_view.
  - now rewrite primary_col_teacher.
  - now rewrite display_cols_teacher.
Qed.

(** X16 on the view type [Room], with a capital. *)
Lemma any_other_view_is_teacher_witness :
  generate_schedule_excel "" Sample.two_groups_clean "Room"
  = generate_schedule_excel "" Sample.two_groups_clean "teacher".
Proof.
  apply any_other_view_is_teacher. discriminate.
Defined.

Section SheetNames.

Lemma take_length (n : nat) (s : string) : String.length (PyStr.take n s) <= n.
Proof.
  revert s. induction n as [|n IH]; intros [|c s]; cbn [PyStr.take String.length]; try lia.
  specialize (IH s). lia.
Qed.

Lemma upper_take (n : nat) (s : string) :
  PyStr.upper (PyStr.take n s) = PyStr.take n (PyStr.upper s).
Proof.
  revert s. induction n as [|n IH]; intros [|c s]; cbn [PyStr.take PyStr.upper];
    try reflexivity. now rewrite IH.
Qed.

Lemma first_token_upper (s : string) :
  PyStr.first_token (PyStr.upper s) = PyStr.upper (PyStr.first_token s).
Proof.
  induction s as [|c s IH]; cbn [PyStr.first_token PyStr.upper]; [reflexivity|].
  rewrite upper_char_space. destruct (Ascii.eqb c " "%char); [reflexivity|].
  cbn [PyStr.upper]. now rewrite IH.
Qed.

Lemma first_token_no_space (s : string) (n : nat) :
  String.get n (PyStr.upper (PyStr.first_token s)) <> Some " "%char.
Proof.
  revert n. induction s as [|c s IH]; intros n; cbn [PyStr.first_token].
  - destruct n; discriminate.
  - destruct (Ascii.eqb c " "%char) eqn:E; [destruct n; discriminate|].
    cbn [PyStr.upper]. destruct n as [|n]; cbn [String.get]; [|apply IH].
    intros H. injection H as H. rewrite <- upper_char_space, H in E. discriminate.
Qed.

Lemma take_get (k n : nat) (s : string) (c : ascii) :
  String.get n (PyStr.take k s) = Some c -> String.get n s = Some c.
Proof.
  revert n s. induction k as [|k IH]; intros n [|x s]; cbn [PyStr.take String.get];
    try discriminate.
  destruct n as [|n]; [trivial | apply IH].
Qed.

End SheetNames.

(** X17: a sheet name has at most thirty characters, no blank and no
    lower-case letter, and does not depend on the case of the day label: two
    labels that differ in case only get the same sheet name. *)
Theorem sheet_name_clean_spec (day : string) :
  String.length (sheet_name_clean day) <= 30 /\
  (forall n, String.get n (sheet_name_clean day) <> Some " "%char) /\
  PyStr.upper (sheet_name_clean day) = sheet_name_clean day /\
  sheet_name_clean (PyStr.upper day) = sheet_name_clean day.
Proof.
  unfold sheet_name_clean. repeat split.
  - apply take_length.
  - intros n H. apply take_get in H. now apply first_token_no_space in H.
  - now rewrite upper_take, upper_idem.
  - now rewrite first_token_upper, upper_idem.
Qed.

(** ** The request handler *)

Section HandlerFacts.

Variable to_datetime_coerce : list cell -> cell -> option N.

Lemma endswith_spec (s suffix : string) :
  endswith s suffix = true <-> exists stem, s = (stem ++ suffix)%string.
Proof.
  induction s as [|a t IH]; cbn [endswith].
  - rewrite Bool.orb_false_r, String.eqb_eq. split.
    + intros <-. now exists ""%string.
    + intros [[|b p] H]; cbn in H; [assumption | discriminate].
  - rewrite Bool.orb_true_iff, String.eqb_eq, IH. split.
    + intros [<-|[p ->]]; [now exists ""%string | now exists (String a p)].
    + intros [[|b p] H]; cbn in H; [now left|].
      injection H as _ ->. right. now exists p.
Qed.

Lemma endswith_false (s suffix : string) :
  endswith s suffix = false <-> ~ exists stem, s = (stem ++ suffix)%string.
Proof.
  rewrite <- endswith_spec. destruct (endswith s suffix); split; intros H;
    try reflexivity; try discriminate; try (intros H'; discriminate).
  exfalso. now apply H.
Qed.

Lemma output_filename_suffix (form_filename : option string) (default_name : string) :
  endswith (output_filename form_filename default_name) ".xlsx" = true.
Proof.
  unfold output_filename.
  set (name := match form_filename with Some n => n | None => default_name end).
  destruct (endswith name ".xlsx") eqn:E; cbn [negb]; [assumption|].
  apply endswith_spec. eauto.
Qed.

(** What the builder does with a cleaned frame, by the number of its DAY
    columns. *)
Lemma generate_by_day_count (merged df : DataFrame) (timestamp view_type : string) :
  clean to_datetime_coerce merged = Ok df ->
  (count_label "DAY" (relabel merged) = 0 ->
   generate_schedule_excel timestamp df view_type = Raise (KeyError "DAY")) /\
  (2 <= count_label "DAY" (relabel merged) ->
   generate_schedule_excel timestamp df view_type = Raise (NotASeries "DAY")) /\
  (forall sheets, generate_schedule_excel timestamp df view_type = Ok sheets ->
                  count_label "DAY" (relabel merged) = 1).
Proof.
  intros Hcl. destruct (clean_counts _ _ _ Hcl) as [_ [Hday _]]. rewrite <- Hday.
  unfold generate_schedule_excel, df_grouped, records.
  destruct (column_cases df "DAY") as [[H0 E]|[[H1 [day E]]|[H2 E]]]; rewrite E; cbn [bind].
  - split; [reflexivity|]. split; [lia | discriminate].
  - split; [lia|]. split; [lia | now intros _ _].
  - split; [lia|]. split; [reflexivity | discriminate].
Qed.

End HandlerFacts.

(** X18: the download name always ends in [.xlsx]: a requested name that
    already ends so is kept as it is, any other gets the suffix appended; the
    default name stands in only when the form has no [filename] field, so an
    empty field gives the bare suffix.  Naming a file after a download name
    changes nothing. *)
Theorem download_name_has_suffix (default_name : string) :
  (forall form_filename,
      exists stem, output_filename form_filename default_name = (stem ++ ".xlsx")%string) /\
  (forall name stem,
      name = (stem ++ ".xlsx")%string -> output_filename (Some name) default_name = name) /\
  (forall name,
      (~ exists stem, name = (stem ++ ".xlsx")%string) ->
      output_filename (Some name) default_name = (name ++ ".xlsx")%string) /\
  output_filename None default_name = output_filename (Some default_name) "" /\
  output_filename (Some "") default_name = ".xlsx"%string /\
  (forall form_filename other,
      output_filename (Some (output_filename form_filename default_name)) other
      = output_filename form_filename default_name).
Proof.
  repeat split.
  - intros f. apply endswith_spec, output_filename_suffix.
  - intros name stem H. unfold output_filename.
    assert (E : endswith name ".xlsx" = true) by (apply endswith_spec; eauto).
    now rewrite E.
  - intros name H. unfold output_filename. apply endswith_false in H. now rewrite H.
  - intros f other. unfold output_filename at 1.
    now rewrite output_filename_suffix.
Qed.



(** X20: a workbook is sent only for a request with a named, readable file
    whose merged sheets, once relabelled, carry START TIME and DAY exactly once
    and no text column twice; it goes out under the download name, which ends
    in [.xlsx]. *)
Theorem sent_file_requirements (to_datetime_coerce : list cell -> cell -> option N)
        (Workbook : Type) (write_workbook : list Sheet -> written Workbook)
        (timestamp view_type default_name : string) (request : Request)
        (name : string) (book : Workbook) :
  handle_request to_datetime_coerce write_workbook timestamp view_type default_name request
  = SendFile name book ->
  name = output_filename (request_form_filename request) default_name /\
  endswith name ".xlsx" = true /\
  exists file all_sheets merged,
    request_file request = Some file /\ upload_filename file <> ""%string /\
    upload_sheets file = Some all_sheets /\
    Frame.concat all_sheets = Ok merged /\
    count_label "START TIME" (relabel merged) = 1 /\
    count_label "DAY" (relabel merged) = 1 /\
    (forall c, In c text_cols -> count_label c (relabel merged) <= 1).
Proof.
  unfold handle_request, answer.
  destruct (request_file request) as [file|] eqn:Hf; [|discriminate].
  destruct (String.eqb (upload_filename file) "") eqn:Hn; [discriminate|].
  destruct (upload_sheets file) as [all_sheets|] eqn:Hs; [|discriminate].
  destruct (load_and_clean_data to_datetime_coerce all_sheets) as [df|e] eqn:Hl; [|discriminate].
  destruct (generate_schedule_excel timestamp df view_type) as [sh|e] eqn:Hg; [|discriminate].
  destruct (write_workbook sh) as [bk|b] eqn:Hw; [|discriminate].
  intros H. injection H as <- <-.
  split; [reflexivity|]. split; [apply output_filename_suffix|].
  destruct (load_inv _ _ _ Hl) as [merged [Hc Hcl]].
  exists file, all_sheets, merged.
  apply String.eqb_neq in Hn.
  pose proof (clean_outcome to_datetime_coerce merged) as H. cbv zeta in H.
  destruct (generate_by_day_count to_datetime_coerce merged df timestamp view_type Hcl)
    as [_ [_ G1]].
  destruct H as [[H0 E]|[[H2 E]|[H1 [[c [Hin [Hn2 E]]]|[Hall _]]]]];
    try (rewrite Hcl in E; discriminate).
  repeat split; try assumption. now apply G1 with sh.
Qed.

(** X20 on the end-to-end example, sent under the default name of the room
    route. *)
Lemma sent_file_requirements_witness :
  output_filename None "Room_Schedule.xlsx" = "Room_Schedule.xlsx"%string /\
  exists merged,
    Frame.concat [Sample.two_groups "START TIME"] = Ok merged /\
    count_label "START TIME" (relabel merged) = 1 /\
    count_label "DAY" (relabel merged) = 1.
Proof.
  destruct (sent_file_requirements
              Sample.reads_nothing (list Sheet) (fun frames => Saved frames)
              "" "room" "Room_Schedule.xlsx"
              (mkRequest
                 (Some (mkUpload "timetable.xlsx" (Some [Sample.two_groups "START TIME"])))
                 None)
              "Room_Schedule.xlsx"
              (sheets_of "File Generated on: " "room"
                         [mkGrouped "Mon" "08:05:00" "Math" "A" "101"
                                    ("JAN G1" ++ PyStr.nl ++ "JAN G2")]))
    as [H1 [_ [file [all_sheets [merged [Hf [_ [Hs [Hc [Hst [Hday _]]]]]]]]]]].
  - vm_compute. reflexivity.
  - split; [now rewrite H1|].
    cbn [request_file] in Hf. injection Hf as <-.
    cbn [upload_sheets] in Hs. injection Hs as <-.
    exists merged. now repeat split.
Defined.
